(** * Solo-levelling IRL: progression and task-resolution engine

    A shallow embedding of the server's services (stat, xp, penalty and task
    services, the AI judge with its validation, and the daily job) together
    with the properties the specification states about them.

    Conventions of the embedding:
    - database integers (ids, stats, XP, levels) are [Z];
    - JavaScript numbers that may carry a fraction (stat deltas, the streak
      factor, JSON numbers) are exact rationals [Q]; IEEE rounding error,
      NaN and the infinities are outside the model;
    - a [Date] is its epoch value in milliseconds, a [Z];
    - an [async] function that reads and writes the database is a function
      from the database to an outcome and the database it leaves behind:
      a thrown exception keeps every write already made. *)

From Stdlib Require Import ZArith QArith Qround Qminmax List String Bool Lia.
From Stdlib Require Import Reals Lra R_Ifp R_sqrt Rpower.
From Stdlib Require Import Sorted Permutation.
From Equations Require Import Equations.
Import ListNotations.

Local Open Scope string_scope.
Local Open Scope Z_scope.

(* ------------------------------------------------------------------ *)
(** ** JavaScript numerics *)

(** [Math.round]: the nearest integer, ties towards positive infinity. *)
Definition Math_round (x : Q) : Z := Qfloor (x + (1 # 2)).

(** [Math.floor]. *)
Definition Math_floor (x : Q) : Z := Qfloor x.

(** [Number.isInteger] on an exact rational. *)
Definition Number_isInteger (x : Q) : bool :=
  (Qnum x mod Zpos (Qden x) =? 0)%Z.

Definition ofZ (z : Z) : Q := inject_Z z.

(* ------------------------------------------------------------------ *)
(** ** Errors and outcomes *)

(** One constructor per [throw new Error(...)] of the services. *)
Inductive Error : Type :=
| LevelMustBeAtLeastOne
| InvalidXpAmount (totalXp : Z)
| PlayerNotFound (playerId : Z)
| StatsNotFound (playerId : Z)
| TaskNotFound (taskId : Z)
| TaskDeadlinePassed
| TaskLogNotFound (taskLogId : Z)
| TaskLogNotPending (taskLogId : Z)
| TaskLogNoEvidence (taskLogId : Z)
| OpenAICallFailed
| NoResponseContent
| JsonParseFailed
| ResponseNotObject
| MissingVerdict
| BadVerdict
| MissingXp
| BadXp
| MissingStatChanges
| BadStatChanges
| FailWithXp
| FailWithStatChanges
| SuccessWithoutXp
| InvalidStatName (name : string)
| NonIntegerStatChange (name : string)
| MissingComment
| CommentNotString.

Inductive Result (A : Type) : Type :=
| Ok (a : A)
| Throw (e : Error).
Arguments Ok {A} a.
Arguments Throw {A} e.

(** Sequencing of code that may throw. *)
Definition andThen {A B} (r : Result A) (k : A -> Result B) : Result B :=
  match r with
  | Ok a => k a
  | Throw e => Throw e
  end.

(** [if (cond) throw e]. *)
Definition throwIf (cond : bool) (e : Error) : Result unit :=
  if cond then Throw e else Ok tt.

(** [if (!(key in obj)) throw e], else the property. *)
Definition required {A} (field : option A) (e : Error) : Result A :=
  match field with
  | Some a => Ok a
  | None => Throw e
  end.

Declare Scope result_scope.
Delimit Scope result_scope with result.
Notation "x <- m ;; k" := (andThen m (fun x => k))
  (at level 100, m at next level, right associativity) : result_scope.
Notation "m ;;; k" := (andThen m (fun _ => k))
  (at level 100, right associativity) : result_scope.

(* ------------------------------------------------------------------ *)
(** ** models/Player.ts, models/Task.ts: enumerations *)

(** The ranks 'E' | 'D' | 'C' | 'B' | 'A' | 'S' | 'SS'. *)
Inductive Rank : Type :=
  RankE | RankD | RankC | RankB | RankA | RankS | RankSS.

Inductive Difficulty : Type := easy | medium | hard | extreme.

Inductive StatType : Type :=
  physical | intelligence | discipline | charisma | confidence | creativity.

Inductive TaskType : Type := daily | weekly | dungeon | boss.

Inductive TaskStatus : Type := pending | completed | failed | missed.

Definition Rank_eqb (a b : Rank) : bool :=
  match a, b with
  | RankE, RankE | RankD, RankD | RankC, RankC | RankB, RankB
  | RankA, RankA | RankS, RankS | RankSS, RankSS => true
  | _, _ => false
  end.

Definition StatType_eqb (a b : StatType) : bool :=
  match a, b with
  | physical, physical | intelligence, intelligence
  | discipline, discipline | charisma, charisma
  | confidence, confidence | creativity, creativity => true
  | _, _ => false
  end.

Definition TaskStatus_eqb (a b : TaskStatus) : bool :=
  match a, b with
  | pending, pending | completed, completed
  | failed, failed | missed, missed => true
  | _, _ => false
  end.

Definition TaskType_eqb (a b : TaskType) : bool :=
  match a, b with
  | daily, daily | weekly, weekly | dungeon, dungeon | boss, boss => true
  | _, _ => false
  end.

(* ------------------------------------------------------------------ *)
(** ** services/xp.service.ts: pure part *)

(** [RANK_XP_THRESHOLDS], in the insertion order [Object.entries] walks;
    [max] is absent for SS. *)
Record Threshold : Type := mkThreshold { t_min : Z; t_max : option Z }.

Definition RANK_XP_THRESHOLDS : list (Rank * Threshold) :=
  [ (RankE,  mkThreshold 0      (Some 999));
    (RankD,  mkThreshold 1000   (Some 4999));
    (RankC,  mkThreshold 5000   (Some 14999));
    (RankB,  mkThreshold 15000  (Some 39999));
    (RankA,  mkThreshold 40000  (Some 99999));
    (RankS,  mkThreshold 100000 (Some 249999));
    (RankSS, mkThreshold 250000 None) ].

(** [Math.round(100 * Math.pow(level, 1.5))] over the reals.  Since
    [100 * level^1.5 = sqrt (10000 * level^3)], its nearest integer is
    [(floor (sqrt (4 * 10000 * level^3)) + 1) / 2]; a tie cannot occur, the
    square root of an integer never being a half-integer. *)
Definition round_100_pow15 (level : Z) : Z :=
  (Z.sqrt (40000 * level ^ 3) + 1) / 2.

Definition calculateXpRequired (level : Z) : Result Z :=
  if level <? 1 then Throw LevelMustBeAtLeastOne
  else Ok (round_100_pow15 level).

(** Matching on a value while remembering where it came from. *)
Definition inspect {A : Type} (x : A) : { y : A | x = y } := exist _ x eq_refl.

(** The [while (true)] loop of [calculateLevel]: it terminates because the
    next requirement exceeds the level it is asked for. *)
Equations? calculateLevel_loop (totalXp level : Z) : Result Z
  by wf (Z.to_nat (totalXp - level)) lt :=
calculateLevel_loop totalXp level
  with inspect (calculateXpRequired (level + 1)) := {
  | exist _ (Throw e) _ => Throw e
  | exist _ (Ok nextXpRequired) Hreq
      with Z_lt_dec totalXp nextXpRequired := {
      | left _ => Ok level
      | right _ => calculateLevel_loop totalXp (level + 1) } }.
Proof.
  unfold calculateXpRequired in Hreq.
  destruct (level + 1 <? 1) eqn:Hl; [discriminate|].
  apply Z.ltb_ge in Hl.
  injection Hreq as Hreq.
  assert (Hs : 200 * (level + 1) <= Z.sqrt (40000 * (level + 1) ^ 3)).
  { apply Z.sqrt_le_square; nia. }
  assert (Hr : 100 * (level + 1) <= nextXpRequired).
  { subst nextXpRequired. unfold round_100_pow15.
    apply Z.div_le_lower_bound; lia. }
  lia.
Qed.

Definition calculateLevel (totalXp : Z) : Result Z :=
  calculateLevel_loop totalXp 1.

(** The [for ... of Object.entries(RANK_XP_THRESHOLDS)] loop. *)
Definition inThreshold (totalXp : Z) (t : Threshold) : bool :=
  (t_min t <=? totalXp) &&
  match t_max t with
  | None => true
  | Some m => totalXp <=? m
  end.

Fixpoint findRank (totalXp : Z) (table : list (Rank * Threshold)) : Result Rank :=
  match table with
  | [] => Throw (InvalidXpAmount totalXp)
  | (rank, threshold) :: rest =>
      if inThreshold totalXp threshold then Ok rank
      else findRank totalXp rest
  end.

Definition calculateRank (totalXp : Z) : Result Rank :=
  if totalXp <? 0 then Ok RankE
  else findRank totalXp RANK_XP_THRESHOLDS.


(* ------------------------------------------------------------------ *)
(** ** The Sequelize models and the database *)

Record Player : Type := mkPlayer {
  player_id : Z;
  player_rank : Rank;
  player_level : Z;
  player_totalXp : Z }.

Record Stats : Type := mkStats {
  stats_id : Z;
  stats_playerId : Z;
  stats_physical : Z;
  stats_intelligence : Z;
  stats_discipline : Z;
  stats_charisma : Z;
  stats_confidence : Z;
  stats_creativity : Z }.

Record Task : Type := mkTask {
  task_id : Z;
  task_type : TaskType;
  task_difficulty : Difficulty;
  task_description : string;
  task_targetStat : StatType;
  task_xpReward : Z;
  task_deadline : Z }.

Record TaskLog : Type := mkTaskLog {
  tl_id : Z;
  tl_taskId : Z;
  tl_playerId : Z;
  tl_status : TaskStatus;
  tl_evidence : option string;
  tl_aiVerdict : option string;
  tl_createdAt : Z }.

Inductive PenaltyReason : Type := missed_task | rank_lock | xp_loss.

Definition PenaltyReason_eqb (a b : PenaltyReason) : bool :=
  match a, b with
  | missed_task, missed_task | rank_lock, rank_lock | xp_loss, xp_loss => true
  | _, _ => false
  end.

Record Penalty : Type := mkPenalty {
  penalty_id : Z;
  penalty_playerId : Z;
  penalty_reason : PenaltyReason;
  penalty_severity : Z;
  penalty_expiresAt : option Z;
  penalty_createdAt : Z }.

Record Narrative : Type := mkNarrative {
  narrative_id : Z;
  narrative_taskLogId : Z;
  narrative_text : string }.

(** The committed contents of the six tables, rows in insertion order. *)
Record DB : Type := mkDB {
  players : list Player;
  statsTable : list Stats;
  tasks : list Task;
  taskLogs : list TaskLog;
  penalties : list Penalty;
  narratives : list Narrative }.

Definition set_players (f : list Player -> list Player) (db : DB) : DB :=
  mkDB (f (players db)) (statsTable db) (tasks db) (taskLogs db)
       (penalties db) (narratives db).
Definition set_statsTable (f : list Stats -> list Stats) (db : DB) : DB :=
  mkDB (players db) (f (statsTable db)) (tasks db) (taskLogs db)
       (penalties db) (narratives db).
Definition set_tasks (f : list Task -> list Task) (db : DB) : DB :=
  mkDB (players db) (statsTable db) (f (tasks db)) (taskLogs db)
       (penalties db) (narratives db).
Definition set_taskLogs (f : list TaskLog -> list TaskLog) (db : DB) : DB :=
  mkDB (players db) (statsTable db) (tasks db) (f (taskLogs db))
       (penalties db) (narratives db).
Definition set_penalties (f : list Penalty -> list Penalty) (db : DB) : DB :=
  mkDB (players db) (statsTable db) (tasks db) (taskLogs db)
       (f (penalties db)) (narratives db).
Definition set_narratives (f : list Narrative -> list Narrative) (db : DB) : DB :=
  mkDB (players db) (statsTable db) (tasks db) (taskLogs db)
       (penalties db) (f (narratives db)).

(** The next value of a table's auto-increment column. *)
Definition nextId (ids : list Z) : Z := 1 + fold_right Z.max 0 ids.

(** An [async] service function: it runs against the database and leaves
    it as changed so far, also when it throws. *)
Definition M (A : Type) : Type := DB -> Result A * DB.

Definition ret {A} (a : A) : M A := fun db => (Ok a, db).
Definition throw {A} (e : Error) : M A := fun db => (Throw e, db).
Definition bind {A B} (m : M A) (k : A -> M B) : M B :=
  fun db =>
    match m db with
    | (Ok a, db') => k a db'
    | (Throw e, db') => (Throw e, db')
    end.
(** [try { m } catch (error) { handler }]. *)
Definition tryCatch {A} (m : M A) (handler : Error -> M A) : M A :=
  fun db =>
    match m db with
    | (Ok a, db') => (Ok a, db')
    | (Throw e, db') => handler e db'
    end.
Definition gets {A} (f : DB -> A) : M A := fun db => (Ok (f db), db).
Definition modify (f : DB -> DB) : M unit := fun db => (Ok tt, f db).
Definition liftResult {A} (r : Result A) : M A := fun db => (r, db).

Declare Scope service_scope.
Delimit Scope service_scope with service.
Notation "x <- m ;; k" := (bind m (fun x => k))
  (at level 100, m at next level, right associativity) : service_scope.
Notation "m ;;; k" := (bind m (fun _ => k))
  (at level 100, right associativity) : service_scope.
Local Open Scope service_scope.

(** [for (const x of xs) { body x }]. *)
Fixpoint forEach {X} (xs : list X) (body : X -> M unit) : M unit :=
  match xs with
  | [] => ret tt
  | x :: rest => body x ;;; forEach rest body
  end.

(** *** Queries *)

Definition Player_findByPk (id : Z) (db : DB) : option Player :=
  find (fun p => player_id p =? id) (players db).

Definition Stats_findOne (playerId : Z) (db : DB) : option Stats :=
  find (fun s => stats_playerId s =? playerId) (statsTable db).

Definition Task_findByPk (id : Z) (db : DB) : option Task :=
  find (fun t => task_id t =? id) (tasks db).

Definition TaskLog_findByPk (id : Z) (db : DB) : option TaskLog :=
  find (fun l => tl_id l =? id) (taskLogs db).

(** [instance.update(values)]: the row with the instance's primary key. *)
Definition Player_update (p : Player) : M unit :=
  modify (set_players
            (map (fun r => if player_id r =? player_id p then p else r))).

Definition Stats_update (s : Stats) : M unit :=
  modify (set_statsTable
            (map (fun r => if stats_id r =? stats_id s then s else r))).

Definition TaskLog_update (l : TaskLog) : M unit :=
  modify (set_taskLogs (map (fun r => if tl_id r =? tl_id l then l else r))).

(** [Model.create(values)]: a new row with the next id. *)
Definition Task_create (type : TaskType) (difficulty : Difficulty)
    (description : string) (targetStat : StatType) (xpReward deadline : Z)
    : M Task :=
  fun db =>
    let t := mkTask (nextId (map task_id (tasks db))) type difficulty
                    description targetStat xpReward deadline in
    (Ok t, set_tasks (fun rows => (rows ++ [t])%list) db).

Definition TaskLog_create (now taskId playerId : Z) (status : TaskStatus)
    (evidence : option string) : M TaskLog :=
  fun db =>
    let l := mkTaskLog (nextId (map tl_id (taskLogs db))) taskId playerId
                       status evidence None now in
    (Ok l, set_taskLogs (fun rows => (rows ++ [l])%list) db).

Definition Penalty_create (now playerId : Z) (reason : PenaltyReason)
    (severity : Z) (expiresAt : option Z) : M Penalty :=
  fun db =>
    let p := mkPenalty (nextId (map penalty_id (penalties db))) playerId
                       reason severity expiresAt now in
    (Ok p, set_penalties (fun rows => (rows ++ [p])%list) db).

Definition Narrative_create (taskLogId : Z) (text : string) : M Narrative :=
  fun db =>
    let n := mkNarrative (nextId (map narrative_id (narratives db)))
                         taskLogId text in
    (Ok n, set_narratives (fun rows => (rows ++ [n])%list) db).

(* ------------------------------------------------------------------ *)
(** ** Dates *)

Definition HOUR_MS : Z := 60 * 60 * 1000.
Definition DAY_MS : Z := 24 * 60 * 60 * 1000.

(** [d.setHours(0, 0, 0, 0)] and [d.setHours(23, 59, 59, 999)], the server
    clock taken to run on UTC. *)
Definition startOfDay (now : Z) : Z := now - now mod DAY_MS.
Definition endOfDay (now : Z) : Z := startOfDay now + DAY_MS - 1.

(** [d.setDate(d.getDate() + n)] on a clock without daylight saving. *)
Definition addDays (date n : Z) : Z := date + n * DAY_MS.

(* ------------------------------------------------------------------ *)
(** ** services/stat.service.ts *)

(** [StatChanges]: every field optional. *)
Record StatChanges : Type := mkStatChanges {
  ch_physical : option Q;
  ch_intelligence : option Q;
  ch_discipline : option Q;
  ch_charisma : option Q;
  ch_confidence : option Q;
  ch_creativity : option Q }.


(** [changes.stat || 0]. *)
Definition orZero (delta : option Q) : Q :=
  match delta with
  | Some q => q
  | None => 0%Q
  end.

Definition DAILY_DECAY_RATES (stat : StatType) : Q :=
  match stat with
  | discipline => - (2 # 10)
  | physical => - (1 # 10)
  | intelligence => - (5 # 100)
  | confidence => - (1 # 10)
  | charisma => - (5 # 100)
  | creativity => - (5 # 100)
  end%Q.

Definition clampStat (value : Q) : Z :=
  Z.max 0 (Z.min 100 (Math_round value)).

Definition hasCompletedDailyQuestToday (now playerId : Z) (db : DB) : bool :=
  existsb
    (fun l =>
       (tl_playerId l =? playerId)
       && TaskStatus_eqb (tl_status l) completed
       && (startOfDay now <=? tl_createdAt l)
       && (tl_createdAt l <=? endOfDay now)
       && match Task_findByPk (tl_taskId l) db with
          | Some t => TaskType_eqb (task_type t) daily
          | None => false
          end)
    (taskLogs db).

(** The object [updatedStats] that [applyStatChange] builds. *)
Definition updatedStats (stats : Stats) (changes : StatChanges) : Stats :=
  mkStats (stats_id stats) (stats_playerId stats)
    (clampStat (ofZ (stats_physical stats) + orZero (ch_physical changes)))
    (clampStat (ofZ (stats_intelligence stats) + orZero (ch_intelligence changes)))
    (clampStat (ofZ (stats_discipline stats) + orZero (ch_discipline changes)))
    (clampStat (ofZ (stats_charisma stats) + orZero (ch_charisma changes)))
    (clampStat (ofZ (stats_confidence stats) + orZero (ch_confidence changes)))
    (clampStat (ofZ (stats_creativity stats) + orZero (ch_creativity changes))).

Definition applyStatChange (playerId : Z) (changes : StatChanges) : M Stats :=
  found <- gets (Stats_findOne playerId) ;;
  match found with
  | None => throw (StatsNotFound playerId)
  | Some stats =>
      Stats_update (updatedStats stats changes) ;;;
      ret (updatedStats stats changes)
  end.

Definition applyDailyDecay (now playerId : Z) : M (option Stats) :=
  completedDaily <- gets (hasCompletedDailyQuestToday now playerId) ;;
  if (completedDaily : bool) then ret None
  else
    found <- gets (Stats_findOne playerId) ;;
    match found with
    | None => throw (StatsNotFound playerId)
    | Some _ =>
        let changes :=
          mkStatChanges (Some (DAILY_DECAY_RATES physical))
                        (Some (DAILY_DECAY_RATES intelligence))
                        (Some (DAILY_DECAY_RATES discipline))
                        (Some (DAILY_DECAY_RATES charisma))
                        (Some (DAILY_DECAY_RATES confidence))
                        (Some (DAILY_DECAY_RATES creativity)) in
        stats <- applyStatChange playerId changes ;;
        ret (Some stats)
    end.

(* ------------------------------------------------------------------ *)
(** ** services/xp.service.ts: the part that touches the database *)

Definition recalculateLevelAndRank (player : Player) : M Player :=
  newLevel <- liftResult (calculateLevel (player_totalXp player)) ;;
  newRank <- liftResult (calculateRank (player_totalXp player)) ;;
  let updated :=
    mkPlayer (player_id player) newRank newLevel (player_totalXp player) in
  Player_update updated ;;;
  ret updated.

Definition addXp (playerId xpAmount : Z) : M Player :=
  if xpAmount =? 0 then
    found <- gets (Player_findByPk playerId) ;;
    match found with
    | None => throw (PlayerNotFound playerId)
    | Some player => ret player
    end
  else
    found <- gets (Player_findByPk playerId) ;;
    match found with
    | None => throw (PlayerNotFound playerId)
    | Some player =>
        let newTotalXp := player_totalXp player + xpAmount in
        let player' :=
          mkPlayer (player_id player) (player_rank player)
                   (player_level player) newTotalXp in
        Player_update player' ;;;
        recalculateLevelAndRank player'
    end.

(* ------------------------------------------------------------------ *)
(** ** ai/validation.ts *)

#[local] Set Warnings "-register-all".

(** What [JSON.parse] returns.  An object is the list of its own
    properties, each key once, in insertion order. *)
Inductive JSON : Type :=
| JNull
| JBool (b : bool)
| JNumber (q : Q)
| JString (s : string)
| JArray (items : list JSON)
| JObject (fields : list (string * JSON)).

(** [response[key]], [None] when [!(key in response)]. *)
Fixpoint getField {V} (key : string) (fields : list (string * V)) : option V :=
  match fields with
  | [] => None
  | (k, v) :: rest => if String.eqb k key then Some v else getField key rest
  end.

Inductive Verdict : Type := verdict_success | verdict_fail.

Record JudgeResponse : Type := mkJudgeResponse {
  jr_verdict : Verdict;
  jr_xp : Z;
  jr_statChanges : list (string * Q);
  jr_comment : string }.

Definition statName (stat : StatType) : string :=
  match stat with
  | physical => "physical"
  | intelligence => "intelligence"
  | discipline => "discipline"
  | charisma => "charisma"
  | confidence => "confidence"
  | creativity => "creativity"
  end%string.

Definition VALID_STAT_NAMES : list string :=
  map statName
      [physical; intelligence; discipline; charisma; confidence; creativity].

(** The loop over [Object.entries(statChanges)] of a success verdict. *)
Fixpoint validateStatEntries (entries : list (string * JSON)) : Result unit :=
  match entries with
  | [] => Ok tt
  | (name, statValue) :: rest =>
      if negb (existsb (String.eqb name) VALID_STAT_NAMES)
      then Throw (InvalidStatName name)
      else match statValue with
           | JNumber q =>
               if Number_isInteger q then validateStatEntries rest
               else Throw (NonIntegerStatChange name)
           | _ => Throw (NonIntegerStatChange name)
           end
  end.

(** [statChanges as Record<string, number>]. *)
Definition asNumberRecord (entries : list (string * JSON)) : list (string * Q) :=
  flat_map (fun e => match snd e with
                     | JNumber q => [(fst e, q)]
                     | _ => []
                     end) entries.

Definition validateJudgeResponse (data : JSON) : Result JudgeResponse :=
  match data with
  | JObject response =>
      v <- required (getField "verdict" response) MissingVerdict ;;
      verdict <- match v with
                 | JString s =>
                     if String.eqb s "success" then Ok verdict_success
                     else if String.eqb s "fail" then Ok verdict_fail
                     else Throw BadVerdict
                 | _ => Throw BadVerdict
                 end ;;
      x <- required (getField "xp" response) MissingXp ;;
      xp <- match x with
            | JNumber n =>
                if negb (Qle_bool 0%Q n) || negb (Number_isInteger n)
                then Throw BadXp
                else Ok n
            | _ => Throw BadXp
            end ;;
      sc <- required (getField "statChanges" response) MissingStatChanges ;;
      statChanges <- match sc with
                     | JObject fields => Ok fields
                     | _ => Throw BadStatChanges
                     end ;;
      match verdict with
      | verdict_fail =>
          throwIf (negb (Qeq_bool xp 0%Q)) FailWithXp ;;;
          throwIf (0 <? Z.of_nat (List.length statChanges)) FailWithStatChanges
      | verdict_success => Ok tt
      end ;;;
      match verdict with
      | verdict_success =>
          throwIf (Qeq_bool xp 0%Q) SuccessWithoutXp ;;;
          validateStatEntries statChanges
      | verdict_fail => Ok tt
      end ;;;
      c <- required (getField "comment" response) MissingComment ;;
      comment <- match c with
                 | JString str => Ok str
                 | _ => Throw CommentNotString
                 end ;;
      Ok (mkJudgeResponse verdict (Qfloor xp)
            (asNumberRecord statChanges) comment)
  | JArray _ => Throw MissingVerdict
  | _ => Throw ResponseNotObject
  end%result.

(* ------------------------------------------------------------------ *)
(** ** ai/judge.ts *)

Definition DEFAULT_XP_BY_DIFFICULTY (d : Difficulty) : Z :=
  match d with
  | easy => 20
  | medium => 50
  | hard => 100
  | extreme => 200
  end.

(** What the chat-completion call comes back with, and what [JSON.parse]
    makes of its content. *)
Inductive OracleReply : Type :=
| ApiFailure
| EmptyContent
| Unparseable (content : string)
| Parsed (data : JSON).

Definition getDeterministicFallback (task : Task) : JudgeResponse :=
  let defaultXp := DEFAULT_XP_BY_DIFFICULTY (task_difficulty task) in
  mkJudgeResponse verdict_success defaultXp
    [(statName (task_targetStat task), 1%Q)]
    "Task evaluated using system fallback.".

(** The body of the [try] block of [judgeTask]. *)
Definition askJudge (reply : OracleReply) : Result JudgeResponse :=
  match reply with
  | ApiFailure => Throw OpenAICallFailed
  | EmptyContent => Throw NoResponseContent
  | Unparseable _ => Throw JsonParseFailed
  | Parsed parsedResponse => validateJudgeResponse parsedResponse
  end.

Definition judgeTask (reply : OracleReply) (task : Task) : JudgeResponse :=
  match askJudge reply with
  | Ok validatedResponse => validatedResponse
  | Throw _ => getDeterministicFallback task
  end.

(* ------------------------------------------------------------------ *)
(** ** services/penalty.service.ts *)

Definition DIFFICULTY_MULTIPLIERS (d : Difficulty) : Z :=
  match d with
  | easy => 1
  | medium => 2
  | hard => 3
  | extreme => 4
  end.

(** The missed task logs of the last seven days joined with their task
    ([required: true] drops a log whose task is gone). *)
Definition recentMissedTasks (now playerId : Z) (db : DB) : list (TaskLog * Task) :=
  let sevenDaysAgo := addDays now (-7) in
  flat_map
    (fun l =>
       if (tl_playerId l =? playerId)
          && TaskStatus_eqb (tl_status l) missed
          && (sevenDaysAgo <=? tl_createdAt l)
       then match Task_findByPk (tl_taskId l) db with
            | Some t => [(l, t)]
            | None => []
            end
       else [])
    (taskLogs db).

Definition calculatePSI (now playerId : Z) (db : DB) : Z :=
  let recent := recentMissedTasks now playerId db in
  if Z.of_nat (List.length recent) =? 0 then 0
  else
    let psi :=
      fold_left
        (fun acc lt => acc + DIFFICULTY_MULTIPLIERS (task_difficulty (snd lt)))
        recent 0 in
    let streakFactor :=
      Qmin (ofZ (Z.of_nat (List.length recent)) * (1 # 10) + 1) 2 in
    Math_floor (ofZ psi * streakFactor).

Definition applyPenalty (now playerId psi : Z) : M string :=
  if psi <? 5 then
    Penalty_create now playerId missed_task psi None ;;;
    ret "warning"%string
  else if (5 <=? psi) && (psi <? 10) then
    applyStatChange playerId
      (mkStatChanges None None (Some (- (1))%Q) None (Some (- (5 # 10))%Q) None) ;;;
    Penalty_create now playerId missed_task psi None ;;;
    ret "stat_decay"%string
  else if (10 <=? psi) && (psi <? 20) then
    addXp playerId (- Math_round (ofZ psi * 2)) ;;;
    Penalty_create now playerId xp_loss psi (Some (now + 24 * 60 * 60 * 1000)) ;;;
    ret "xp_loss"%string
  else if 20 <=? psi then
    let lockDays := Z.min (Math_floor (ofZ psi / 5)) 30 in
    let expiresAt := addDays now lockDays in
    Penalty_create now playerId rank_lock psi (Some expiresAt) ;;;
    ret "rank_lock"%string
  else ret "none"%string.

Record MissPenaltyResult : Type := mkMissPenaltyResult {
  mp_psi : Z;
  mp_penalty : string;
  mp_details : string }.

Definition applyMissPenalty (now playerId : Z) : M MissPenaltyResult :=
  psi <- gets (calculatePSI now playerId) ;;
  if psi =? 0 then
    ret (mkMissPenaltyResult psi "none" "No penalty applied.")
  else
    penalty <- applyPenalty now playerId psi ;;
    let details :=
      if String.eqb penalty "warning" then
        "Warning issued for missed tasks."
      else if String.eqb penalty "stat_decay" then
        "Stats reduced due to missed tasks."
      else if String.eqb penalty "xp_loss" then
        "Lost XP due to missed tasks. Penalty expires in 24 hours."
      else if String.eqb penalty "rank_lock" then
        "Rank progression locked due to severe penalties."
      else "No penalty applied." in
    ret (mkMissPenaltyResult psi penalty details%string).

(** [expiresAt: { [Op.gt]: now }]: a NULL column satisfies no comparison. *)
Definition expiresAfter (now : Z) (p : Penalty) : bool :=
  match penalty_expiresAt p with
  | Some e => now <? e
  | None => false
  end.

(** [expiresAt: { [Op.lt]: now }]. *)
Definition expiresBefore (now : Z) (p : Penalty) : bool :=
  match penalty_expiresAt p with
  | Some e => e <? now
  | None => false
  end.

(** [expiresAt: null]. *)
Definition expiresNever (p : Penalty) : bool :=
  match penalty_expiresAt p with
  | Some _ => false
  | None => true
  end.

Definition isRankLocked (now playerId : Z) (db : DB) : bool :=
  existsb
    (fun p =>
       (penalty_playerId p =? playerId)
       && PenaltyReason_eqb (penalty_reason p) rank_lock
       && expiresAfter now p)
    (penalties db).

(** [order: [['createdAt', 'DESC']]]. *)
Fixpoint insertByCreatedAtDesc (p : Penalty) (sorted : list Penalty) : list Penalty :=
  match sorted with
  | [] => [p]
  | q :: rest =>
      if penalty_createdAt q <? penalty_createdAt p then p :: q :: rest
      else q :: insertByCreatedAtDesc p rest
  end.

Definition orderByCreatedAtDesc (rows : list Penalty) : list Penalty :=
  fold_right insertByCreatedAtDesc [] rows.

Definition getActivePenalties (now playerId : Z) (db : DB) : list Penalty :=
  orderByCreatedAtDesc
    (filter
       (fun p =>
          (penalty_playerId p =? playerId)
          && (expiresNever p || expiresAfter now p))
       (penalties db)).

Definition cleanupExpiredPenalties (now : Z) : M Z :=
  fun db =>
    let expired := filter (expiresBefore now) (penalties db) in
    (Ok (Z.of_nat (List.length expired)),
     set_penalties (filter (fun p => negb (expiresBefore now p))) db).

(* ------------------------------------------------------------------ *)
(** ** services/task.service.ts *)

Record TaskResolution : Type := mkTaskResolution {
  res_success : bool;
  res_xpAwarded : Z;
  res_statChanges : StatChanges;
  res_feedback : option string }.

(** [TASK_TEMPLATES.daily[difficulty].xpRange]. *)
Definition xpRange (d : Difficulty) : Z * Z :=
  match d with
  | easy => (20, 30)
  | medium => (31, 35)
  | hard => (36, 40)
  | extreme => (50, 60)
  end.

Definition DAILY_QUEST_DESCRIPTIONS (stat : StatType) : list string :=
  match stat with
  | physical =>
      [ "Complete a 30-minute workout or exercise routine";
        "Take a 45-minute walk or run";
        "Do 50 push-ups or bodyweight exercises" ]
  | intelligence =>
      [ "Read for 45 minutes on a challenging topic";
        "Learn something new - tutorial, course, or book chapter";
        "Solve 5-10 logic puzzles or brain teasers" ]
  | discipline =>
      [ "Maintain a consistent routine for 2 hours";
        "Complete all planned tasks for the day";
        "Follow through on a commitment you made" ]
  | charisma =>
      [ "Have a meaningful conversation with someone new";
        "Practice public speaking or presentation skills";
        "Help someone with a problem or give advice" ]
  | confidence =>
      [ "Try something outside your comfort zone";
        "Speak up in a meeting or group setting";
        "Take initiative on a task without being asked" ]
  | creativity =>
      [ "Create something new - art, music, writing, or code";
        "Brainstorm solutions to a problem creatively";
        "Learn a new creative skill or technique" ]
  end.

(** The loop of [getWeakestStat] over the six entries, a strictly lower
    value replacing the current weakest. *)
Definition weakestOf (stats : Stats) : StatType :=
  let statValues :=
    [ (physical, stats_physical stats);
      (intelligence, stats_intelligence stats);
      (discipline, stats_discipline stats);
      (charisma, stats_charisma stats);
      (confidence, stats_confidence stats);
      (creativity, stats_creativity stats) ] in
  fst (fold_left
         (fun acc entry =>
            if snd entry <? snd acc then entry else acc)
         statValues (physical, stats_physical stats)).

Definition getWeakestStat (playerId : Z) : M StatType :=
  found <- gets (Stats_findOne playerId) ;;
  match found with
  | None => throw (StatsNotFound playerId)
  | Some stats => ret (weakestOf stats)
  end.

(** [Math.random()] is supplied by the caller. *)
Definition getRandomDescription (statType : StatType) (random : Q) : string :=
  let descriptions := DAILY_QUEST_DESCRIPTIONS statType in
  nth (Z.to_nat (Math_floor (random * ofZ (Z.of_nat (List.length descriptions)))))
      descriptions EmptyString.

Definition calculateXpReward (difficulty : Difficulty) (baseXp : Z) : Z :=
  let multiplier :=
    match difficulty with
    | easy => 1
    | medium => 15 # 10
    | hard => 25 # 10
    | extreme => 4
    end%Q in
  Math_round (ofZ baseXp * multiplier).

Definition getRecentTaskHistory (now playerId days : Z) (db : DB) : list TaskLog :=
  let cutoffDate := addDays now (- days) in
  filter
    (fun l =>
       (tl_playerId l =? playerId)
       && (cutoffDate <=? tl_createdAt l)
       && match Task_findByPk (tl_taskId l) db with
          | Some _ => true
          | None => false
          end)
    (taskLogs db).

Definition calculateDifficultyScaling (recentFailures : Z) (rank : Rank) : Difficulty :=
  if recentFailures =? 0 then
    match rank with
    | RankE | RankD => easy
    | RankC | RankB => medium
    | RankA | RankS => hard
    | RankSS => extreme
    end
  else if recentFailures <=? 2 then
    match rank with
    | RankE | RankD => easy
    | _ => medium
    end
  else if recentFailures <=? 5 then easy
  else easy.

Definition countRecentFailures (logs : list TaskLog) : Z :=
  Z.of_nat
    (List.length
       (filter (fun l => TaskStatus_eqb (tl_status l) failed
                         || TaskStatus_eqb (tl_status l) missed) logs)).

Record QuestSuggestion : Type := mkQuestSuggestion {
  qs_type : TaskType;
  qs_description : string;
  qs_difficulty : Difficulty;
  qs_targetStat : StatType }.

(** Everything a run takes from outside the database: the clock, the three
    AI collaborators and the two draws of [Math.random()]. *)
Record World : Type := mkWorld {
  w_now : Z;
  w_judge : TaskLog -> OracleReply;
  w_narrator : TaskLog -> Result string;
  w_quest : Z -> Result QuestSuggestion;
  w_randomDescription : Q;
  w_randomXp : Q }.

Definition generateDailyTask (w : World) (playerId : Z) : M Task :=
  weakestStat <- getWeakestStat playerId ;;
  foundPlayer <- gets (Player_findByPk playerId) ;;
  match foundPlayer with
  | None => throw (PlayerNotFound playerId)
  | Some player =>
      foundStats <- gets (Stats_findOne playerId) ;;
      match foundStats with
      | None => throw (StatsNotFound playerId)
      | Some _ =>
          recentTaskLogs <- gets (getRecentTaskHistory (w_now w) playerId 21) ;;
          let recentFailures := countRecentFailures recentTaskLogs in
          let desiredDifficulty :=
            calculateDifficultyScaling recentFailures (player_rank player) in
          let questSuggestion :=
            match w_quest w playerId with
            | Ok suggestion => suggestion
            | Throw _ =>
                mkQuestSuggestion daily
                  (getRandomDescription weakestStat (w_randomDescription w))
                  desiredDifficulty weakestStat
            end in
          let finalTargetStat :=
            if StatType_eqb (qs_targetStat questSuggestion) weakestStat
            then weakestStat else weakestStat in
          let finalDifficulty := qs_difficulty questSuggestion in
          let template := xpRange finalDifficulty in
          let baseXp :=
            Math_floor (w_randomXp w * ofZ (snd template - fst template + 1))
            + fst template in
          let xpReward := calculateXpReward finalDifficulty baseXp in
          let deadline := endOfDay (w_now w) in
          task <- Task_create (qs_type questSuggestion) finalDifficulty
                    (qs_description questSuggestion) finalTargetStat
                    xpReward deadline ;;
          TaskLog_create (w_now w) (task_id task) playerId pending None ;;;
          ret task
      end
  end.

(** [!log.evidence]: null or the empty string. *)
Definition noEvidence (evidence : option string) : bool :=
  match evidence with
  | None => true
  | Some text => String.eqb text EmptyString
  end.

Definition findPendingLog (taskId playerId : Z) (db : DB) : option TaskLog :=
  find (fun l => (tl_taskId l =? taskId)
                 && (tl_playerId l =? playerId)
                 && TaskStatus_eqb (tl_status l) pending)
       (taskLogs db).

Definition submitTask (now taskId playerId : Z) (evidence : string) : M TaskLog :=
  foundTask <- gets (Task_findByPk taskId) ;;
  match foundTask with
  | None => throw (TaskNotFound taskId)
  | Some task =>
      if task_deadline task <? now then throw TaskDeadlinePassed
      else
        existing <- gets (findPendingLog taskId playerId) ;;
        match existing with
        | Some existingTaskLog =>
            if noEvidence (tl_evidence existingTaskLog) then
              let updated :=
                mkTaskLog (tl_id existingTaskLog) (tl_taskId existingTaskLog)
                          (tl_playerId existingTaskLog)
                          (tl_status existingTaskLog) (Some evidence)
                          (tl_aiVerdict existingTaskLog)
                          (tl_createdAt existingTaskLog) in
              TaskLog_update updated ;;;
              ret updated
            else ret existingTaskLog
        | None =>
            TaskLog_create now taskId playerId pending (Some evidence)
        end
  end.

(** [statChanges as Partial<Record<StatType, number>>]. *)
Definition asStatChanges (changes : list (string * Q)) : StatChanges :=
  mkStatChanges (getField "physical" changes)
                (getField "intelligence" changes)
                (getField "discipline" changes)
                (getField "charisma" changes)
                (getField "confidence" changes)
                (getField "creativity" changes).

Definition convertJudgeResponseToResolution (judgeResponse : JudgeResponse)
    : TaskResolution :=
  mkTaskResolution
    (match jr_verdict judgeResponse with
     | verdict_success => true
     | verdict_fail => false
     end)
    (jr_xp judgeResponse)
    (asStatChanges (jr_statChanges judgeResponse))
    (Some (jr_comment judgeResponse)).

(** [Object.keys(statChanges).length > 0]. *)
Definition hasKeys (changes : StatChanges) : bool :=
  match changes with
  | mkStatChanges None None None None None None => false
  | _ => true
  end.

Definition resolveTask (taskLog : TaskLog) (resolution : TaskResolution)
    (narrative : option string) : M TaskLog :=
  let success := res_success resolution in
  let newStatus := if success then completed else failed in
  let aiVerdict :=
    match res_feedback resolution with
    | Some EmptyString | None =>
        if success then "Task completed successfully"
        else "Task requirements not met"
    | Some feedback => feedback
    end in
  let updated :=
    mkTaskLog (tl_id taskLog) (tl_taskId taskLog) (tl_playerId taskLog)
              newStatus (tl_evidence taskLog) (Some aiVerdict)
              (tl_createdAt taskLog) in
  TaskLog_update updated ;;;
  match narrative with
  | Some EmptyString | None => ret tt
  | Some text => Narrative_create (tl_id taskLog) text ;;; ret tt
  end ;;;
  (if success then
     addXp (tl_playerId taskLog) (res_xpAwarded resolution) ;;;
     if hasKeys (res_statChanges resolution) then
       applyStatChange (tl_playerId taskLog) (res_statChanges resolution) ;;;
       ret tt
     else ret tt
   else ret tt) ;;;
  ret updated.

(** [findByPk] joins the task with [required: true]: a log whose task is
    gone is not found at all. *)
Definition judgeAndResolveTask (w : World) (taskLogId : Z) : M TaskLog :=
  found <- gets (fun db =>
                   match TaskLog_findByPk taskLogId db with
                   | Some l =>
                       match Task_findByPk (tl_taskId l) db with
                       | Some t => Some (l, t)
                       | None => None
                       end
                   | None => None
                   end) ;;
  match found with
  | None => throw (TaskLogNotFound taskLogId)
  | Some (taskLog, task) =>
      if negb (TaskStatus_eqb (tl_status taskLog) pending)
      then throw (TaskLogNotPending taskLogId)
      else if noEvidence (tl_evidence taskLog)
      then throw (TaskLogNoEvidence taskLogId)
      else
        foundStats <- gets (Stats_findOne (tl_playerId taskLog)) ;;
        match foundStats with
        | None => throw (StatsNotFound (tl_playerId taskLog))
        | Some _ =>
            let judgeResponse := judgeTask (w_judge w taskLog) task in
            let resolution := convertJudgeResponseToResolution judgeResponse in
            let narrativeText :=
              match w_narrator w taskLog with
              | Ok text => Some text
              | Throw _ => None
              end in
            resolveTask taskLog resolution narrativeText
        end
  end.

Definition isOverdue (now : Z) (db : DB) (l : TaskLog) : bool :=
  match Task_findByPk (tl_taskId l) db with
  | Some t => task_deadline t <? now
  | None => false
  end.

Definition checkAndMarkMissedTasks (now playerId : Z) : M (list TaskLog) :=
  missedTaskLogs <-
    gets (fun db =>
            filter (fun l => (tl_playerId l =? playerId)
                             && TaskStatus_eqb (tl_status l) pending
                             && isOverdue now db l)
                   (taskLogs db)) ;;
  if Z.of_nat (List.length missedTaskLogs) =? 0 then ret []
  else
    let taskLogIds := map tl_id missedTaskLogs in
    let listed l := existsb (Z.eqb (tl_id l)) taskLogIds in
    modify (set_taskLogs
              (map (fun l =>
                      if listed l then
                        mkTaskLog (tl_id l) (tl_taskId l) (tl_playerId l)
                                  missed (tl_evidence l) (tl_aiVerdict l)
                                  (tl_createdAt l)
                      else l))) ;;;
    gets (fun db => filter listed (taskLogs db)).

(* ------------------------------------------------------------------ *)
(** ** jobs/dailyDecay.job.ts *)

(** An unmanaged Sequelize transaction: the writes issued with the
    [{ transaction }] option wait in it until [commit]; [rollback] drops
    them.  A query issued without the option runs on another connection
    of the pool and is committed at once. *)
Record Transaction : Type := mkTransaction { tx_writes : list (DB -> DB) }.

Definition sequelize_transaction : M Transaction := ret (mkTransaction []).

(** What a query carrying [{ transaction }] sees. *)
Definition transaction_view (t : Transaction) (db : DB) : DB :=
  fold_left (fun d write => write d) (tx_writes t) db.

Definition transaction_commit (t : Transaction) : M unit :=
  modify (transaction_view t).

Definition transaction_rollback (t : Transaction) : M unit := ret tt.

Definition findPendingTasksNearDeadline (now playerId : Z) (db : DB) : list TaskLog :=
  let oneHourFromNow := now + HOUR_MS in
  filter
    (fun l =>
       (tl_playerId l =? playerId)
       && TaskStatus_eqb (tl_status l) pending
       && match Task_findByPk (tl_taskId l) db with
          | Some t => (now <=? task_deadline t)
                      && (task_deadline t <=? oneHourFromNow)
          | None => false
          end)
    (taskLogs db).

(** The [try] block of [processPlayerDailyFlow]. *)
Definition dailyFlowSteps (w : World) (transaction : Transaction)
    (playerId : Z) : M unit :=
  (* Step 1: auto-judge pending tasks that are near deadline *)
  pendingTasksNearDeadline <-
    gets (findPendingTasksNearDeadline (w_now w) playerId) ;;
  forEach pendingTasksNearDeadline
    (fun taskLog =>
       tryCatch (judgeAndResolveTask w (tl_id taskLog) ;;; ret tt)
                (fun _ => ret tt)) ;;;
  (* Step 2: apply stat decay *)
  applyDailyDecay (w_now w) playerId ;;;
  (* Step 3: check and mark missed tasks *)
  missedTasks <- checkAndMarkMissedTasks (w_now w) playerId ;;
  (* Step 4: apply penalties for missed tasks *)
  (if 0 <? Z.of_nat (List.length missedTasks) then
     player <- gets (fun db =>
                       Player_findByPk playerId (transaction_view transaction db)) ;;
     match player with
     | Some _ => applyMissPenalty (w_now w) playerId ;;; ret tt
     | None => ret tt
     end
   else ret tt) ;;;
  (* Step 5: generate new daily task *)
  generateDailyTask w playerId ;;;
  transaction_commit transaction.

Definition processPlayerDailyFlow (w : World) (playerId : Z) : M unit :=
  transaction <- sequelize_transaction ;;
  tryCatch (dailyFlowSteps w transaction playerId)
           (fun error => transaction_rollback transaction ;;; throw error).

(** The loop of [runDailyDecayJob] over the players fetched at the start;
    the two counters are what the job logs when it is done. *)
Fixpoint processPlayers (w : World) (ps : list Player)
    (successCount errorCount : Z) : M (Z * Z) :=
  match ps with
  | [] => ret (successCount, errorCount)
  | player :: rest =>
      processed <- tryCatch (processPlayerDailyFlow w (player_id player) ;;; ret true)
                            (fun _ => ret false) ;;
      if (processed : bool)
      then processPlayers w rest (successCount + 1) errorCount
      else processPlayers w rest successCount (errorCount + 1)
  end.

Definition runDailyDecayJob (w : World) : M (Z * Z) :=
  allPlayers <- gets players ;;
  processPlayers w allPlayers 0 0.

(* ------------------------------------------------------------------ *)
(** ** services/xp.service.ts: progress helpers *)

(** [RANK_XP_THRESHOLDS[rank]]. *)
Definition thresholdOf (rank : Rank) : Threshold :=
  match find (fun entry => Rank_eqb (fst entry) rank) RANK_XP_THRESHOLDS with
  | Some entry => snd entry
  | None => mkThreshold 0 None
  end.

Definition getRankProgress (totalXp : Z) : Result Z :=
  (currentRank <- calculateRank totalXp ;;
   let threshold := thresholdOf currentRank in
   match t_max threshold with
   | None => Ok 100
   | Some rankEnd =>
       if rankEnd =? 0 then Ok 100
       else
         let rankStart := t_min threshold in
         let rankRange := rankEnd - rankStart in
         let currentProgress := totalXp - rankStart in
         Ok (Math_round (ofZ currentProgress / ofZ rankRange * 100))
   end)%result.

Definition getXpForNextLevel (currentLevel : Z) : Result Z :=
  calculateXpRequired (currentLevel + 1).

(* ------------------------------------------------------------------ *)
(** ** ai/quest-generator.ts *)

Inductive QuestError : Type :=
| QuestNotObject
| QuestBadType
| QuestBadDescription
| QuestBadDifficulty
| QuestBadTargetStat.

(** [s.trim().length === 0] on a string of ASCII characters: tab, line
    feed, vertical tab, form feed, carriage return and space are blank. *)
Definition isWhiteSpace (c : Ascii.ascii) : bool :=
  let n := Ascii.N_of_ascii c in
  ((9 <=? n) && (n <=? 13) || (n =? 32))%N.

Fixpoint trimIsEmpty (s : string) : bool :=
  match s with
  | EmptyString => true
  | String c rest => isWhiteSpace c && trimIsEmpty rest
  end.

Definition parseTaskType (v : JSON) : option TaskType :=
  match v with
  | JString s =>
      if String.eqb s "daily" then Some daily
      else if String.eqb s "weekly" then Some weekly
      else if String.eqb s "dungeon" then Some dungeon
      else if String.eqb s "boss" then Some boss
      else None
  | _ => None
  end.

Definition parseDifficulty (v : JSON) : option Difficulty :=
  match v with
  | JString s =>
      if String.eqb s "easy" then Some easy
      else if String.eqb s "medium" then Some medium
      else if String.eqb s "hard" then Some hard
      else if String.eqb s "extreme" then Some extreme
      else None
  | _ => None
  end.

Definition parseStatType (v : JSON) : option StatType :=
  match v with
  | JString s =>
      find (fun stat => String.eqb s (statName stat))
           [physical; intelligence; discipline; charisma; confidence; creativity]
  | _ => None
  end.

Definition validateQuestSuggestion (data : JSON) (requiredTargetStat : StatType)
    : QuestError + QuestSuggestion :=
  match data with
  | JObject response =>
      match option_map parseTaskType (getField "type" response) with
      | Some (Some type) =>
          match getField "description" response with
          | Some (JString description) =>
              if trimIsEmpty description then inl QuestBadDescription
              else
                match option_map parseDifficulty (getField "difficulty" response) with
                | Some (Some difficulty) =>
                    match option_map parseStatType (getField "targetStat" response) with
                    | Some (Some _) =>
                        inr (mkQuestSuggestion type description difficulty
                                               requiredTargetStat)
                    | _ => inl QuestBadTargetStat
                    end
                | _ => inl QuestBadDifficulty
                end
          | _ => inl QuestBadDescription
          end
      | _ => inl QuestBadType
      end
  | JArray _ => inl QuestBadType
  | _ => inl QuestNotObject
  end.

Definition fallbackDescriptions (targetStat : StatType) (difficulty : Difficulty)
    : string :=
  match targetStat, difficulty with
  | physical, easy => "Complete a 20-minute workout routine"
  | physical, medium => "Complete a 45-minute workout with strength training"
  | physical, hard => "Complete a 90-minute intensive workout session"
  | physical, extreme => "Complete a 2-hour cross-training session"
  | intelligence, easy => "Read for 30 minutes on a new topic"
  | intelligence, medium => "Read and take notes on a challenging chapter"
  | intelligence, hard => "Study for 2 hours and create detailed notes"
  | intelligence, extreme => "Complete an intensive 4-hour study session"
  | discipline, easy => "Maintain a consistent routine for 1 hour"
  | discipline, medium => "Follow a strict schedule for 3 hours"
  | discipline, hard => "Maintain discipline for 6 hours without deviation"
  | discipline, extreme => "Complete a full day of disciplined routine"
  | charisma, easy => "Have a meaningful conversation with someone"
  | charisma, medium => "Practice public speaking for 30 minutes"
  | charisma, hard => "Lead a group discussion or presentation"
  | charisma, extreme => "Organize and host a social event"
  | confidence, easy => "Try one new thing outside your comfort zone"
  | confidence, medium => "Take initiative on a challenging task"
  | confidence, hard => "Speak up in a high-stakes situation"
  | confidence, extreme => "Take on a leadership role in a difficult situation"
  | creativity, easy => "Create something new - art, writing, or code"
  | creativity, medium => "Complete a creative project with multiple components"
  | creativity, hard => "Create and refine a complex creative work"
  | creativity, extreme => "Complete a major creative project from concept to finish"
  end.

Definition getDeterministicQuestFallback (targetStat : StatType)
    (difficulty : Difficulty) : QuestSuggestion :=
  mkQuestSuggestion daily (fallbackDescriptions targetStat difficulty)
                    difficulty targetStat.

(** [generateQuestSuggestion], given what the chat-completion call comes
    back with. *)
Definition generateQuestSuggestion (reply : OracleReply)
    (weakestStat : StatType) (desiredDifficulty : Difficulty) : QuestSuggestion :=
  match reply with
  | Parsed parsedResponse =>
      match validateQuestSuggestion parsedResponse weakestStat with
      | inr validatedResponse => validatedResponse
      | inl _ => getDeterministicQuestFallback weakestStat desiredDifficulty
      end
  | _ => getDeterministicQuestFallback weakestStat desiredDifficulty
  end.

(** [validateNarrativeResponse] and [generateNarrative] of ai/narrator.ts. *)
Definition validateNarrativeResponse (data : JSON) : option string :=
  match data with
  | JObject response =>
      match getField "narrative" response with
      | Some (JString narrative) =>
          if trimIsEmpty narrative then None else Some narrative
      | _ => None
      end
  | _ => None
  end.

Definition getDeterministicNarrativeFallback (verdict : Verdict) : string :=
  match verdict with
  | verdict_success => "Task completed."
  | verdict_fail => "Task requirements not met."
  end.

Definition generateNarrative (reply : OracleReply) (verdict : Verdict) : string :=
  match reply with
  | Parsed parsedResponse =>
      match validateNarrativeResponse parsedResponse with
      | Some validatedResponse => validatedResponse
      | None => getDeterministicNarrativeFallback verdict
      end
  | _ => getDeterministicNarrativeFallback verdict
  end.

(* ------------------------------------------------------------------ *)
(** ** services/task.service.ts: getActiveTasks *)

(** The tasks whose deadline is still ahead and that have a pending log of
    the player (the inner join on [taskLogs]), in table order. *)
Definition getActiveTasks (now playerId : Z) (db : DB) : list Task :=
  filter
    (fun t =>
       (now <? task_deadline t)
       && existsb (fun l => (tl_taskId l =? task_id t)
                            && (tl_playerId l =? playerId)
                            && TaskStatus_eqb (tl_status l) pending)
                  (taskLogs db))
    (tasks db).

(* ------------------------------------------------------------------ *)
(** ** services/task.service.ts: getPlayerTaskStats *)

Record TaskCounts : Type := mkTaskCounts {
  tc_total : Z;
  tc_completed : Z;
  tc_failed : Z;
  tc_missed : Z;
  tc_successRate : Q }.

Record PlayerTaskStats : Type := mkPlayerTaskStats {
  pts_overall : TaskCounts;
  pts_recent : TaskCounts }.

(** [logs.filter(log => log.status === status).length]. *)
Definition countStatus (status : TaskStatus) (logs : list TaskLog) : Z :=
  Z.of_nat (List.length
              (filter (fun log => TaskStatus_eqb (tl_status log) status) logs)).

Definition getPlayerTaskStats (now playerId : Z) (db : DB) : PlayerTaskStats :=
  let twentyOneDaysAgo := now - 21 * 24 * 60 * 60 * 1000 in
  let allTaskLogs :=
    filter (fun l => tl_playerId l =? playerId) (taskLogs db) in
  let recentTaskLogs :=
    filter (fun l => (tl_playerId l =? playerId)
                     && (twentyOneDaysAgo <=? tl_createdAt l))
           (taskLogs db) in
  let totalTasks := Z.of_nat (List.length allTaskLogs) in
  let completedTasks := countStatus completed allTaskLogs in
  let failedTasks := countStatus failed allTaskLogs in
  let missedTasks := countStatus missed allTaskLogs in
  let recentTotal := Z.of_nat (List.length recentTaskLogs) in
  let recentCompleted := countStatus completed recentTaskLogs in
  let recentFailed := countStatus failed recentTaskLogs in
  let recentMissed := countStatus missed recentTaskLogs in
  mkPlayerTaskStats
    (mkTaskCounts totalTasks completedTasks failedTasks missedTasks
       (if 0 <? totalTasks
        then ofZ completedTasks / ofZ totalTasks * 100 else 0)%Q)
    (mkTaskCounts recentTotal recentCompleted recentFailed recentMissed
       (if 0 <? recentTotal
        then ofZ recentCompleted / ofZ recentTotal * 100 else 0)%Q).

(* ================================================================== *)
(** * The statements' vocabulary

    Accessors, the renderings of the specification's own formulas and the
    concrete databases the properties below are stated with. *)

(** The rank table as the specification words it: seven consecutive
    intervals, anything below the first one resolving to the lowest rank. *)
Definition rankOfTable (totalXp : Z) : Rank :=
  if totalXp <=? 999 then RankE
  else if totalXp <=? 4999 then RankD
  else if totalXp <=? 14999 then RankC
  else if totalXp <=? 39999 then RankB
  else if totalXp <=? 99999 then RankA
  else if totalXp <=? 249999 then RankS
  else RankSS.

Definition getStat (stats : Stats) (stat : StatType) : Z :=
  match stat with
  | physical => stats_physical stats
  | intelligence => stats_intelligence stats
  | discipline => stats_discipline stats
  | charisma => stats_charisma stats
  | confidence => stats_confidence stats
  | creativity => stats_creativity stats
  end.

Definition getDelta (changes : StatChanges) (stat : StatType) : option Q :=
  match stat with
  | physical => ch_physical changes
  | intelligence => ch_intelligence changes
  | discipline => ch_discipline changes
  | charisma => ch_charisma changes
  | confidence => ch_confidence changes
  | creativity => ch_creativity changes
  end.

(** The specification's formula, clamping before rounding. *)
Definition roundClamp (value : Q) : Z :=
  Math_round (Qmax 0 (Qmin 100 value)).

(** Applying one delta map after another. *)
Definition applyStatChanges (playerId : Z) (rounds : list StatChanges) : M unit :=
  forEach rounds (fun changes => applyStatChange playerId changes ;;; ret tt).

(** A well-formed success response whose comment is the empty string. *)
Definition emptyCommentResponse : JSON :=
  JObject [ ("verdict", JString "success"); ("xp", JNumber 30%Q);
            ("statChanges", JObject [("physical", JNumber 2%Q)]);
            ("comment", JString EmptyString) ].

(** The row [Penalty.create] inserts, and the database with it. *)
Definition newPenalty (db : DB) (now playerId : Z) (reason : PenaltyReason)
    (severity : Z) (expiresAt : option Z) : Penalty :=
  mkPenalty (nextId (map penalty_id (penalties db))) playerId reason severity
            expiresAt now.

Definition withPenalty (p : Penalty) (db : DB) : DB :=
  set_penalties (fun rows => (rows ++ [p])%list) db.

Definition missPenaltyChanges : StatChanges :=
  mkStatChanges None None (Some (- (1))%Q) None (Some (- (5 # 10))%Q) None.



Definition withEvidence (evidence : string) (l : TaskLog) : TaskLog :=
  mkTaskLog (tl_id l) (tl_taskId l) (tl_playerId l) (tl_status l)
            (Some evidence) (tl_aiVerdict l) (tl_createdAt l).


(** A run of the daily job: player 1 has no stats row, a log that is
    overdue and a daily quest completed today; player 2 has stats and no
    log.  The three AI collaborators are down. *)
Definition jobNow : Z := 1700000000000.

Definition jobWorld : World :=
  mkWorld jobNow (fun _ => ApiFailure) (fun _ => Throw OpenAICallFailed)
          (fun _ => Throw OpenAICallFailed) 0%Q 0%Q.

Definition overdueLog : TaskLog :=
  mkTaskLog 1 1 1 pending None None 1699900000000.

Definition completedToday : TaskLog :=
  mkTaskLog 2 2 1 completed (Some "done") (Some "Task completed successfully")
            1699950000000.

Definition jobTasks : list Task :=
  [ mkTask 1 daily easy "Take a 45-minute walk or run" physical 25
           1699919999999;
    mkTask 2 daily easy "Do 50 push-ups or bodyweight exercises" physical 25
           1700006399999 ].

Definition jobDB : DB :=
  mkDB [mkPlayer 1 RankE 1 0; mkPlayer 2 RankE 1 0]
       [mkStats 1 2 50 50 50 50 50 50]
       jobTasks [overdueLog; completedToday] [] [].

Definition overdueLogMissed : TaskLog :=
  mkTaskLog 1 1 1 missed None None 1699900000000.

Definition warningRow : Penalty := mkPenalty 1 1 missed_task 1 None jobNow.

(** The position of a rank on the ladder E < D < C < B < A < S < SS. *)
Definition rankIndex (rank : Rank) : Z :=
  match rank with
  | RankE => 0
  | RankD => 1
  | RankC => 2
  | RankB => 3
  | RankA => 4
  | RankS => 5
  | RankSS => 6
  end.

(** easy < medium < hard < extreme. *)
Definition difficultyIndex (d : Difficulty) : Z :=
  match d with
  | easy => 0
  | medium => 1
  | hard => 2
  | extreme => 3
  end.

(** The enumeration order of the six stats. *)
Definition statIndex (stat : StatType) : Z :=
  match stat with
  | physical => 0
  | intelligence => 1
  | discipline => 2
  | charisma => 3
  | confidence => 4
  | creativity => 5
  end.

(** One call of [applyDailyDecay] at each of the given moments. *)
Definition applyDecayAt (playerId : Z) (moments : list Z) : M unit :=
  forEach moments (fun now => applyDailyDecay now playerId ;;; ret tt).

Definition statsInRange (stats : Stats) : Prop :=
  forall stat, 0 <= getStat stats stat <= 100.

(** The verdict invariant: a fail carries no reward at all, a success a
    positive XP and whole-number deltas of known stats only. *)
Definition verdictInvariant (r : JudgeResponse) : Prop :=
  match jr_verdict r with
  | verdict_fail => jr_xp r = 0 /\ jr_statChanges r = []
  | verdict_success =>
      0 < jr_xp r
      /\ Forall (fun change =>
                   In (fst change) VALID_STAT_NAMES
                   /\ Number_isInteger (snd change) = true)
                (jr_statChanges r)
  end.

(** The JSON object of a stat-change map with whole-number deltas. *)
Definition encodeStatChanges (changes : list (StatType * Z)) : list (string * JSON) :=
  map (fun change => (statName (fst change), JNumber (inject_Z (snd change))))
      changes.

Definition decodedStatChanges (changes : list (StatType * Z)) : list (string * Q) :=
  map (fun change => (statName (fst change), inject_Z (snd change))) changes.

(** The difficulties of the missed tasks that count for the severity
    index, and the index as a function of them alone. *)
Definition missedDifficulties (now playerId : Z) (db : DB) : list Difficulty :=
  map (fun lt => task_difficulty (snd lt)) (recentMissedTasks now playerId db).

Definition weightSum (ds : list Difficulty) : Z :=
  fold_right Z.add 0 (map DIFFICULTY_MULTIPLIERS ds).

Definition psiOf (ds : list Difficulty) : Z :=
  let n := Z.of_nat (List.length ds) in
  if n =? 0 then 0
  else if n <=? 10 then weightSum ds * (n + 10) / 10
  else 2 * weightSum ds.

(** The rung of the penalty ladder a severity index falls on. *)
Definition penaltyBand (psi : Z) : string :=
  if psi <? 5 then "warning"
  else if psi <? 10 then "stat_decay"
  else if psi <? 20 then "xp_loss"
  else "rank_lock".

(** The bounds of the reward of a task of a given difficulty: the ends of
    its base range times its multiplier, rounded. *)
Definition rewardBounds (d : Difficulty) : Z * Z :=
  match d with
  | easy => (20, 30)
  | medium => (47, 53)
  | hard => (90, 100)
  | extreme => (200, 240)
  end.

(** No task log refers to a task that is not stored. *)
Definition logsReferToTasks (db : DB) : Prop :=
  forall l, In l (taskLogs db) -> In (tl_taskId l) (map task_id (tasks db)).

(** The task log as [resolveTask] rewrites it. *)
Definition resolvedLog (taskLog : TaskLog) (resolution : TaskResolution) : TaskLog :=
  mkTaskLog (tl_id taskLog) (tl_taskId taskLog) (tl_playerId taskLog)
            (if res_success resolution then completed else failed)
            (tl_evidence taskLog)
            (Some match res_feedback resolution with
                  | Some EmptyString | None =>
                      if res_success resolution then "Task completed successfully"
                      else "Task requirements not met"
                  | Some feedback => feedback
                  end)
            (tl_createdAt taskLog).

(** The database once [resolveTask] has rewritten the log and stored the
    narrative, before any reward. *)
Definition afterVerdict (taskLog : TaskLog) (resolution : TaskResolution)
    (narrative : option string) (db : DB) : DB :=
  let db1 := snd (TaskLog_update (resolvedLog taskLog resolution) db) in
  match narrative with
  | Some EmptyString | None => db1
  | Some text => snd (Narrative_create (tl_id taskLog) text db1)
  end.

(** A world whose judge is unreachable. *)
Definition judgeDown (w : World) : Prop :=
  forall taskLog, exists e, askJudge (w_judge w taskLog) = Throw e.

(** A pending log of the player whose task deadline has passed, and the
    log once it is marked missed. *)
Definition isMissable (now playerId : Z) (db : DB) (l : TaskLog) : bool :=
  (tl_playerId l =? playerId)
  && TaskStatus_eqb (tl_status l) pending
  && isOverdue now db l.

Definition markMissed (l : TaskLog) : TaskLog :=
  mkTaskLog (tl_id l) (tl_taskId l) (tl_playerId l) missed (tl_evidence l)
            (tl_aiVerdict l) (tl_createdAt l).

(** A service keeps a property of the database, whatever it returns. *)
Definition preserves (I : DB -> Prop) {A} (m : M A) : Prop :=
  forall db, I db -> I (snd (m db)).

(** A service throws from every database that has the property. *)
Definition throwsFrom (I : DB -> Prop) {A} (m : M A) : Prop :=
  forall db, I db -> exists e db', m db = (Throw e, db').

(** The player has no row in the stats table. *)
Definition noStatsRow (playerId : Z) (db : DB) : Prop :=
  Stats_findOne playerId db = None.

Definition lacksStats (db : DB) (p : Player) : bool :=
  match Stats_findOne (player_id p) db with
  | Some _ => false
  | None => true
  end.

(* ================================================================== *)
(** * Properties *)

(* ------------------------------------------------------------------ *)
(** ** Rank and level as functions of lifetime XP *)

Lemma calculateRank_rankOfTable (totalXp : Z) :
  calculateRank totalXp = Ok (rankOfTable totalXp).
Proof.
  unfold calculateRank, rankOfTable.
  destruct (totalXp <? 0) eqn:Hneg.
  - apply Z.ltb_lt in Hneg.
    destruct (totalXp <=? 999) eqn:H1; [reflexivity|].
    apply Z.leb_gt in H1. lia.
  - apply Z.ltb_ge in Hneg.
    cbn [findRank RANK_XP_THRESHOLDS].
    unfold inThreshold; cbn [t_min t_max].
    repeat match goal with
           | |- context [?a <=? ?b] =>
               let H := fresh "H" in
               destruct (Z.leb_spec a b) as [H|H]; cbn [andb]
           end; try reflexivity; lia.
Qed.

(** C6. [calculateRank] is the interval table E:[0,999], D:[1000,4999],
    C:[5000,14999], B:[15000,39999], A:[40000,99999], S:[100000,249999],
    SS:[250000,oo); it never throws on an integer; the four boundary values
    are as listed and every negative total resolves to E. *)
Theorem calculateRank_interval_table :
  (forall totalXp, calculateRank totalXp = Ok (rankOfTable totalXp))
  /\ (forall totalXp lo hi rank,
        In (rank, lo, hi)
           [ (RankE, 0, 999); (RankD, 1000, 4999); (RankC, 5000, 14999);
             (RankB, 15000, 39999); (RankA, 40000, 99999);
             (RankS, 100000, 249999) ] ->
        lo <= totalXp <= hi -> calculateRank totalXp = Ok rank)
  /\ (forall totalXp, 250000 <= totalXp -> calculateRank totalXp = Ok RankSS)
  /\ (forall totalXp, totalXp < 0 -> calculateRank totalXp = Ok RankE)
  /\ calculateRank 999 = Ok RankE
  /\ calculateRank 1000 = Ok RankD
  /\ calculateRank 249999 = Ok RankS
  /\ calculateRank 250000 = Ok RankSS.
Proof.
  split; [exact calculateRank_rankOfTable|].
  split.
  { intros totalXp lo hi rank Hin Hrange.
    rewrite calculateRank_rankOfTable. f_equal. unfold rankOfTable.
    cbn [In] in Hin.
    repeat match goal with
           | H : _ \/ _ |- _ => destruct H as [H|H]
           | H : (_, _, _) = (_, _, _) |- _ => injection H as <- <- <-
           | H : False |- _ => destruct H
           end;
    repeat match goal with
           | |- context [?a <=? ?b] =>
               let H := fresh "H" in
               destruct (Z.leb_spec a b) as [H|H]
           end; try reflexivity; lia. }
  split.
  { intros totalXp H. rewrite calculateRank_rankOfTable. f_equal.
    unfold rankOfTable.
    repeat match goal with
           | |- context [?a <=? ?b] =>
               let H := fresh "H" in
               destruct (Z.leb_spec a b) as [H|H]
           end; try reflexivity; lia. }
  split.
  { intros totalXp H. unfold calculateRank.
    apply Z.ltb_lt in H. rewrite H. reflexivity. }
  repeat split; reflexivity.
Qed.

Lemma calculateRank_interval_table_witness :
  calculateRank 1234 = Ok RankD
  /\ calculateRank 300000 = Ok RankSS
  /\ calculateRank (-40) = Ok RankE.
Proof.
  destruct calculateRank_interval_table as (_ & Hin & Hss & Hneg & _).
  split; [|split].
  - apply (Hin 1234 1000 4999 RankD); [cbn; tauto | lia].
  - apply (Hss 300000); lia.
  - apply (Hneg (-40)); lia.
Defined.

Lemma round_100_pow15_mono (a b : Z) :
  0 <= a <= b -> round_100_pow15 a <= round_100_pow15 b.
Proof.
  intros H. unfold round_100_pow15.
  apply Z.div_le_mono; [lia|].
  apply Z.add_le_mono_r.
  apply Z.sqrt_le_mono.
  apply Z.mul_le_mono_nonneg_l; [lia|].
  apply Z.pow_le_mono_l. lia.
Qed.

(** The integer formula brackets the real number it rounds:
    [(2r - 1)^2 <= 4 * 10000 * level^3 < (2r + 1)^2]. *)
Lemma round_100_pow15_bracket (level : Z) :
  1 <= level ->
  let r := round_100_pow15 level in
  1 <= r /\ (2 * r - 1) ^ 2 <= 40000 * level ^ 3 < (2 * r + 1) ^ 2.
Proof.
  intros Hl r. subst r. unfold round_100_pow15.
  set (n := 40000 * level ^ 3).
  assert (Hn : 40000 <= n) by (subst n; nia).
  pose proof (Z.sqrt_spec n ltac:(lia)) as [Hlo Hhi].
  assert (Hs : 200 <= Z.sqrt n).
  { apply Z.sqrt_le_square; lia. }
  set (s := Z.sqrt n) in *.
  pose proof (Z.div_mod (s + 1) 2 ltac:(lia)) as Hdm.
  pose proof (Z.mod_pos_bound (s + 1) 2 ltac:(lia)) as Hm.
  set (q := (s + 1) / 2) in *.
  split; [lia|].
  split; nia.
Qed.

(** [Math.round(100 * Math.pow(level, 1.5))] read over the real numbers. *)
Lemma round_100_pow15_real (level : Z) :
  1 <= level ->
  round_100_pow15 level
  = Int_part (100 * Rpower (IZR level) (3 / 2) + / 2)%R.
Proof.
  intros Hl.
  destruct (round_100_pow15_bracket level Hl) as (Hr1 & Hlo & Hhi).
  set (r := round_100_pow15 level) in *.
  assert (HlR : (1 <= IZR level)%R) by (apply IZR_le; exact Hl).
  set (y := Rpower (IZR level) (3 / 2)).
  assert (Hy0 : (0 < y)%R) by (unfold y, Rpower; apply exp_pos).
  assert (Hy2 : (y * y = IZR level * IZR level * IZR level)%R).
  { unfold y. rewrite <- Rpower_plus.
    replace (3 / 2 + 3 / 2)%R with (INR 3) by (simpl; lra).
    rewrite Rpower_pow by lra. simpl. ring. }
  apply IZR_le in Hlo. apply IZR_lt in Hhi.
  rewrite !Z.pow_2_r in Hlo, Hhi.
  replace (level ^ 3) with (level * level * level) in Hlo, Hhi by ring.
  rewrite ?mult_IZR, ?minus_IZR, ?mult_IZR in Hlo.
  rewrite ?mult_IZR, ?plus_IZR, ?mult_IZR in Hhi.
  rewrite <- Hy2 in Hlo, Hhi.
  assert (HrR : (1 <= IZR r)%R) by (apply IZR_le; exact Hr1).
  apply Int_part_spec. split.
  - destruct (Rlt_le_dec (200 * y) (2 * IZR r + 1)) as [Hc|Hc]; [lra|].
    exfalso.
    assert (Hsq : ((2 * IZR r + 1) * (2 * IZR r + 1)
                   <= (200 * y) * (200 * y))%R)
      by (apply Rmult_le_compat; lra).
    replace ((200 * y) * (200 * y))%R with (40000 * (y * y))%R in Hsq by ring.
    lra.
  - destruct (Rlt_le_dec (200 * y) (2 * IZR r - 1)) as [Hc|Hc]; [|lra].
    exfalso.
    assert (Hsq : ((200 * y) * (200 * y)
                   < (2 * IZR r - 1) * (2 * IZR r - 1))%R)
      by (apply Rmult_le_0_lt_compat; lra).
    replace ((200 * y) * (200 * y))%R with (40000 * (y * y))%R in Hsq by ring.
    lra.
Qed.

Lemma calculateXpRequired_Ok (level r : Z) :
  calculateXpRequired level = Ok r -> 1 <= level /\ r = round_100_pow15 level.
Proof.
  unfold calculateXpRequired.
  destruct (Z.ltb_spec level 1); [discriminate|].
  intros [= <-]. split; [assumption | reflexivity].
Qed.

Lemma calculateXpRequired_Throw (level : Z) (e : Error) :
  calculateXpRequired level = Throw e -> level < 1.
Proof.
  unfold calculateXpRequired.
  destruct (Z.ltb_spec level 1); [intros _; assumption | discriminate].
Qed.

Lemma calculateLevel_loop_spec (totalXp level : Z) :
  1 <= level ->
  exists L,
    calculateLevel_loop totalXp level = Ok L
    /\ level <= L
    /\ (L = level \/ round_100_pow15 L <= totalXp)
    /\ totalXp < round_100_pow15 (L + 1).
Proof.
  funelim (calculateLevel_loop totalXp level); intros Hlevel.
  - (* calculateXpRequired threw: impossible from level 1 on *)
    match goal with
    | Hx : calculateXpRequired _ = Throw _ |- _ =>
        pose proof (calculateXpRequired_Throw _ _ Hx)
    end. lia.
  - (* totalXp < nextXpRequired: the loop breaks *)
    destruct (calculateXpRequired_Ok _ _ Hreq) as [_ ->].
    exists level. repeat split; lia.
  - (* level++ *)
    destruct (calculateXpRequired_Ok _ _ Hreq) as [_ Hnext'].
    match goal with
    | IH : 1 <= level + 1 -> _ |- _ =>
        destruct (IH ltac:(lia)) as (L & HL & Hle & Hreach & Hnext)
    end.
    exists L. repeat split; try assumption; try lia.
    right. destruct Hreach as [-> | Hreach]; lia.
Qed.

(** C7. [calculateXpRequired level] is [100 * level^1.5] rounded to the
    nearest integer for every level from 1 on (100, 1118 and 8944 at levels
    1, 5 and 20); [calculateLevel] always returns, and what it returns is the
    largest level whose requirement the total covers, level 1 when the total
    covers none (below 100 XP, negative totals included). *)
Theorem calculateXpRequired_calculateLevel_formula :
  (forall level,
      1 <= level ->
      calculateXpRequired level
      = Ok (Int_part (100 * Rpower (IZR level) (3 / 2) + / 2)%R))
  /\ calculateXpRequired 1 = Ok 100
  /\ calculateXpRequired 5 = Ok 1118
  /\ calculateXpRequired 20 = Ok 8944
  /\ calculateLevel 1118 = Ok 5
  /\ (forall totalXp,
        exists L,
          calculateLevel totalXp = Ok L
          /\ 1 <= L
          /\ (forall level r,
                 1 <= level -> calculateXpRequired level = Ok r ->
                 r <= totalXp -> level <= L)
          /\ (100 <= totalXp ->
              exists r, calculateXpRequired L = Ok r /\ r <= totalXp)
          /\ (totalXp < 100 -> L = 1)).
Proof.
  split.
  { intros level Hl. unfold calculateXpRequired.
    destruct (Z.ltb_spec level 1); [lia|].
    f_equal. apply round_100_pow15_real. assumption. }
  split; [reflexivity|]. split; [reflexivity|]. split; [reflexivity|].
  split; [vm_compute; reflexivity|].
  intros totalXp. unfold calculateLevel.
  destruct (calculateLevel_loop_spec totalXp 1 ltac:(lia))
    as (L & HL & Hle & Hreach & Hnext).
  assert (H100 : round_100_pow15 1 = 100) by reflexivity.
  exists L. split; [exact HL|]. split; [exact Hle|]. split; [|split].
  - intros level r Hlevel Hr Hcover.
    destruct (calculateXpRequired_Ok _ _ Hr) as [_ ->].
    destruct (Z.le_gt_cases level L) as [|Hgt]; [assumption|].
    pose proof (round_100_pow15_mono (L + 1) level ltac:(lia)). lia.
  - intros Hxp. exists (round_100_pow15 L). split.
    + unfold calculateXpRequired. destruct (Z.ltb_spec L 1); [lia|reflexivity].
    + destruct Hreach as [-> | Hreach]; lia.
  - intros Hxp. destruct Hreach as [-> | Hreach]; [reflexivity|].
    pose proof (round_100_pow15_mono 1 L ltac:(lia)). lia.
Qed.

Lemma calculateXpRequired_calculateLevel_formula_witness :
  calculateXpRequired 5
  = Ok (Int_part (100 * Rpower (IZR 5) (3 / 2) + / 2)%R)
  /\ exists L, calculateLevel 2000 = Ok L /\ 1 <= L.
Proof.
  destruct calculateXpRequired_calculateLevel_formula
    as (Hreal & _ & _ & _ & _ & Hlevel).
  split.
  - apply (Hreal 5). lia.
  - destruct (Hlevel 2000) as (L & HL & Hone & _). exists L. split; assumption.
Defined.

(* ------------------------------------------------------------------ *)
(** ** addXp *)

Lemma calculateLevel_total (totalXp : Z) :
  exists level, calculateLevel totalXp = Ok level.
Proof.
  destruct (calculateLevel_loop_spec totalXp 1 ltac:(lia)) as (L & HL & _).
  exists L. exact HL.
Qed.

Lemma find_some_id {X} (key : X -> Z) (id : Z) (rows : list X) (x : X) :
  find (fun r => key r =? id) rows = Some x -> key x = id.
Proof.
  intros H. apply find_some in H. destruct H as [_ H].
  apply Z.eqb_eq in H. exact H.
Qed.

(** Updating a row by primary key and reading it back. *)
Lemma find_replace {X} (key : X -> Z) (rows : list X) (old new : X) :
  find (fun r => key r =? key new) rows = Some old ->
  find (fun r => key r =? key new)
       (map (fun r => if key r =? key new then new else r) rows)
  = Some new.
Proof.
  induction rows as [|r rows IH]; cbn [find map]; [discriminate|].
  destruct (key r =? key new) eqn:Hr.
  - intros _. rewrite Z.eqb_refl. reflexivity.
  - rewrite Hr. exact IH.
Qed.

(** Two updates of the same primary key: the second one stands. *)
Lemma replace_twice {X} (key : X -> Z) (rows : list X) (x1 x2 : X) :
  key x1 = key x2 ->
  map (fun r => if key r =? key x2 then x2 else r)
      (map (fun r => if key r =? key x1 then x1 else r) rows)
  = map (fun r => if key r =? key x2 then x2 else r) rows.
Proof.
  intros Hk. rewrite map_map. apply map_ext. intros r.
  rewrite Hk. destruct (key r =? key x2) eqn:Hr.
  - rewrite Hk, Z.eqb_refl. reflexivity.
  - rewrite Hr. reflexivity.
Qed.

(** What [addXp] does to a player that exists. *)
Lemma addXp_run
    (db : DB) (playerId xpAmount : Z) (player : Player) :
  Player_findByPk playerId db = Some player ->
  let totalXp' := player_totalXp player + xpAmount in
  exists level rank,
    calculateLevel totalXp' = Ok level
    /\ calculateRank totalXp' = Ok rank
    /\ if xpAmount =? 0
       then addXp playerId xpAmount db = (Ok player, db)
       else
         let updated := mkPlayer (player_id player) rank level totalXp' in
         addXp playerId xpAmount db = (Ok updated, snd (Player_update updated db))
         /\ Player_findByPk playerId (snd (Player_update updated db))
            = Some updated.
Proof.
  intros Hfound totalXp'.
  destruct (calculateLevel_total totalXp') as [level Hlevel].
  exists level, (rankOfTable totalXp').
  split; [exact Hlevel|]. split; [apply calculateRank_rankOfTable|].
  pose proof (find_some_id player_id playerId _ _ Hfound) as Hid.
  unfold addXp. destruct (xpAmount =? 0) eqn:Hzero.
  - unfold bind, gets, ret. rewrite Hfound. reflexivity.
  - cbn zeta. split.
    + unfold bind, gets. rewrite Hfound.
      unfold recalculateLevelAndRank, bind, liftResult, Player_update, modify, ret.
      cbn [player_totalXp player_id].
      fold totalXp'. rewrite Hlevel, calculateRank_rankOfTable.
      cbn [snd]. f_equal.
      unfold set_players. cbn [players statsTable tasks taskLogs penalties narratives].
      f_equal.
      apply (replace_twice player_id (players db)
               (mkPlayer (player_id player) (player_rank player)
                         (player_level player) totalXp')
               (mkPlayer (player_id player) (rankOfTable totalXp') level totalXp')).
      reflexivity.
    + unfold Player_update, modify, Player_findByPk. cbn [snd].
      unfold set_players. cbn [players player_id].
      rewrite <- Hid.
      apply (find_replace player_id (players db) player
               (mkPlayer (player_id player) (rankOfTable totalXp') level totalXp')).
      cbn [player_id]. rewrite Hid. exact Hfound.
Qed.

(** C5. For a player that exists and any integer amount, [addXp] with a
    non-zero amount stores [totalXp + amount] and, in one update, the level
    and the rank computed from that new total alone; with amount 0 it leaves
    the database as it is and returns the player as found. *)
Theorem addXp_recomputes_level_and_rank
    (db : DB) (playerId xpAmount : Z) (player : Player) :
  Player_findByPk playerId db = Some player ->
  let totalXp' := player_totalXp player + xpAmount in
  exists level rank,
    calculateLevel totalXp' = Ok level
    /\ calculateRank totalXp' = Ok rank
    /\ if xpAmount =? 0
       then addXp playerId xpAmount db = (Ok player, db)
       else
         let updated := mkPlayer (player_id player) rank level totalXp' in
         addXp playerId xpAmount db = (Ok updated, snd (Player_update updated db))
         /\ Player_findByPk playerId (snd (Player_update updated db))
            = Some updated.
Proof. exact (addXp_run db playerId xpAmount player). Qed.

Lemma addXp_recomputes_level_and_rank_witness :
  let db := mkDB [mkPlayer 1 RankE 1 900] [] [] [] [] [] in
  addXp 1 218 db
  = (Ok (mkPlayer 1 RankD 5 1118), mkDB [mkPlayer 1 RankD 5 1118] [] [] [] [] [])
  /\ addXp 1 0 db = (Ok (mkPlayer 1 RankE 1 900), db).
Proof.
  intros db. split.
  - destruct (addXp_recomputes_level_and_rank db 1 218 (mkPlayer 1 RankE 1 900)
                eq_refl) as (level & rank & Hl & Hr & Hrun & _).
    cbn [player_totalXp Z.add] in Hl, Hr.
    assert (level = 5) by (vm_compute in Hl; congruence).
    assert (rank = RankD) by (vm_compute in Hr; congruence).
    subst. exact Hrun.
  - destruct (addXp_recomputes_level_and_rank db 1 0 (mkPlayer 1 RankE 1 900)
                eq_refl) as (level & rank & _ & _ & Hrun).
    exact Hrun.
Defined.

(* ------------------------------------------------------------------ *)
(** ** The attribute engine *)

Lemma Math_round_mono (x y : Q) : (x <= y)%Q -> Math_round x <= Math_round y.
Proof.
  intros H. unfold Math_round. apply Qfloor_resp_le.
  apply Qplus_le_l. exact H.
Qed.

Lemma Math_round_ofZ (z : Z) : Math_round (ofZ z) = z.
Proof.
  unfold Math_round, ofZ.
  assert (Hlo : z <= Qfloor (inject_Z z + (1 # 2))).
  { rewrite <- (Qfloor_Z z) at 1. apply Qfloor_resp_le.
    rewrite <- (Qplus_0_r (inject_Z z)) at 1.
    apply Qplus_le_r. discriminate. }
  assert (Hhi : Qfloor (inject_Z z + (1 # 2)) < z + 1).
  { rewrite Zlt_Qlt.
    apply Qle_lt_trans with (inject_Z z + (1 # 2))%Q; [apply Qfloor_le|].
    rewrite inject_Z_plus. apply Qplus_lt_r. reflexivity. }
  lia.
Qed.

Lemma Math_round_Qeq (x y : Q) : (x == y)%Q -> Math_round x = Math_round y.
Proof.
  intros H. apply Z.le_antisymm; apply Math_round_mono; rewrite H; apply Qle_refl.
Qed.

(** Rounding and clamping commute: the code rounds first, the
    specification clamps first. *)
Lemma clampStat_roundClamp (value : Q) : clampStat value = roundClamp value.
Proof.
  unfold clampStat, roundClamp.
  assert (H0 : Math_round 0%Q = 0) by exact (Math_round_ofZ 0).
  assert (H100 : Math_round 100%Q = 100) by exact (Math_round_ofZ 100).
  destruct (Q.min_spec 100 value) as [[Hlt Hmin] | [Hle Hmin]].
  - (* 100 < value *)
    destruct (Q.max_spec 0 (Qmin 100 value)) as [[_ Hmax] | [Habs _]].
    + rewrite (Math_round_Qeq _ _ Hmax), (Math_round_Qeq _ _ Hmin), H100.
      pose proof (Math_round_mono 100 value (Qlt_le_weak _ _ Hlt)). lia.
    + exfalso. rewrite Hmin in Habs. unfold Qle in Habs. simpl in Habs. lia.
  - (* value <= 100 *)
    pose proof (Math_round_mono value 100 Hle) as Hr.
    destruct (Q.max_spec 0 (Qmin 100 value)) as [[Hpos Hmax] | [Hneg Hmax]].
    + rewrite (Math_round_Qeq _ _ Hmax), (Math_round_Qeq _ _ Hmin).
      rewrite Hmin in Hpos.
      pose proof (Math_round_mono 0 value (Qlt_le_weak _ _ Hpos)). lia.
    + rewrite (Math_round_Qeq _ _ Hmax), H0.
      rewrite Hmin in Hneg.
      pose proof (Math_round_mono value 0 Hneg). lia.
Qed.

Lemma clampStat_range (value : Q) : 0 <= clampStat value <= 100.
Proof. unfold clampStat. lia. Qed.

Lemma clampStat_unchanged (old : Z) :
  0 <= old <= 100 -> clampStat (ofZ old + 0) = old.
Proof.
  intros H. unfold clampStat.
  rewrite (Math_round_Qeq (ofZ old + 0) (ofZ old) (Qplus_0_r _)).
  rewrite Math_round_ofZ. lia.
Qed.

Lemma find_replace_by {X} (P : X -> bool) (key : X -> Z)
    (rows : list X) (old new : X) :
  find P rows = Some old ->
  key old = key new ->
  P new = true ->
  find P (map (fun r => if key r =? key new then new else r) rows) = Some new.
Proof.
  intros Hfind Hkey Hnew.
  induction rows as [|r rows IH]; cbn [find map] in *; [discriminate|].
  destruct (P r) eqn:Hr.
  - injection Hfind as ->. rewrite Hkey, Z.eqb_refl, Hnew. reflexivity.
  - destruct (key r =? key new).
    + rewrite Hnew. reflexivity.
    + rewrite Hr. apply IH. exact Hfind.
Qed.

Lemma applyStatChange_run (db : DB) (playerId : Z) (changes : StatChanges)
    (stats : Stats) :
  Stats_findOne playerId db = Some stats ->
  applyStatChange playerId changes db
  = (Ok (updatedStats stats changes),
     snd (Stats_update (updatedStats stats changes) db))
  /\ Stats_findOne playerId (snd (Stats_update (updatedStats stats changes) db))
     = Some (updatedStats stats changes).
Proof.
  intros Hfound. split.
  - unfold applyStatChange, bind, gets. rewrite Hfound. reflexivity.
  - unfold Stats_update, modify, Stats_findOne, set_statsTable.
    cbn [snd statsTable].
    apply (find_replace_by (fun s => stats_playerId s =? playerId) stats_id
             (statsTable db) stats (updatedStats stats changes)).
    + exact Hfound.
    + reflexivity.
    + cbn [updatedStats stats_playerId].
      apply find_some in Hfound. apply Hfound.
Qed.

Lemma updatedStats_getStat (stats : Stats) (changes : StatChanges)
    (stat : StatType) :
  getStat (updatedStats stats changes) stat
  = clampStat (ofZ (getStat stats stat) + orZero (getDelta changes stat)).
Proof. destruct stat; reflexivity. Qed.

Lemma applyStatChanges_in_range (playerId : Z) (rounds : list StatChanges) :
  forall db stats,
    Stats_findOne playerId db = Some stats ->
    (forall stat, 0 <= getStat stats stat <= 100) ->
    exists final db',
      applyStatChanges playerId rounds db = (Ok tt, db')
      /\ Stats_findOne playerId db' = Some final
      /\ forall stat, 0 <= getStat final stat <= 100.
Proof.
  induction rounds as [|changes rounds IH]; intros db stats Hfound Hrange.
  - exists stats, db. repeat split; try assumption; apply Hrange.
  - destruct (applyStatChange_run db playerId changes stats Hfound)
      as [Hrun Hback].
    destruct (IH _ _ Hback) as (final & db' & Hrest & Hfinal & Hfr).
    { intros stat. rewrite updatedStats_getStat. apply clampStat_range. }
    exists final, db'. split; [|split; assumption].
    unfold applyStatChanges in *. cbn [forEach].
    unfold bind at 1. unfold bind at 1. rewrite Hrun. unfold ret at 1.
    exact Hrest.
Qed.

(** C1. For a subject that has a stats row, [applyStatChange] stores, for
    each of the six attributes, [round (clamp (old + delta, 0, 100))], an
    integer of [0,100]; an attribute the delta map does not name keeps its
    value (stored values being in [0,100]); and the range holds after any
    sequence of delta maps, whatever their size and sign. *)
Theorem applyStatChange_round_clamp
    (db : DB) (playerId : Z) (changes : StatChanges) (stats : Stats) :
  Stats_findOne playerId db = Some stats ->
  exists stats' db',
    applyStatChange playerId changes db = (Ok stats', db')
    /\ Stats_findOne playerId db' = Some stats'
    /\ (forall stat,
           getStat stats' stat
           = roundClamp (ofZ (getStat stats stat) + orZero (getDelta changes stat))
           /\ 0 <= getStat stats' stat <= 100)
    /\ (forall stat,
           getDelta changes stat = None ->
           0 <= getStat stats stat <= 100 ->
           getStat stats' stat = getStat stats stat)
    /\ (forall rounds : list StatChanges,
           exists final db'',
             applyStatChanges playerId (changes :: rounds) db = (Ok tt, db'')
             /\ Stats_findOne playerId db'' = Some final
             /\ forall stat, 0 <= getStat final stat <= 100).
Proof.
  intros Hfound.
  destruct (applyStatChange_run db playerId changes stats Hfound) as [Hrun Hback].
  exists (updatedStats stats changes),
         (snd (Stats_update (updatedStats stats changes) db)).
  split; [exact Hrun|]. split; [exact Hback|]. split; [|split].
  - intros stat. rewrite updatedStats_getStat. split.
    + apply clampStat_roundClamp.
    + apply clampStat_range.
  - intros stat Hnone Hrange. rewrite updatedStats_getStat, Hnone.
    apply clampStat_unchanged. exact Hrange.
  - intros rounds.
    destruct (applyStatChanges_in_range playerId rounds _ _ Hback)
      as (final & db'' & Hrest & Hfinal & Hfr).
    { intros stat. rewrite updatedStats_getStat. apply clampStat_range. }
    exists final, db''. split; [|split; assumption].
    unfold applyStatChanges in *. cbn [forEach].
    unfold bind at 1. unfold bind at 1. rewrite Hrun. unfold ret at 1.
    exact Hrest.
Qed.

Lemma applyStatChange_round_clamp_witness :
  let stats := mkStats 1 7 50 50 95 50 3 50 in
  let db := mkDB [] [stats] [] [] [] [] in
  let changes :=
    mkStatChanges None None (Some 60%Q) None (Some (- (1000))%Q) (Some (1 # 2)) in
  exists stats' db',
    applyStatChange 7 changes db = (Ok stats', db')
    /\ getStat stats' discipline = 100
    /\ getStat stats' confidence = 0
    /\ getStat stats' creativity = 51
    /\ getStat stats' physical = 50.
Proof.
  intros stats db changes.
  destruct (applyStatChange_round_clamp db 7 changes stats eq_refl)
    as (stats' & db' & Hrun & _ & Hformula & Hsame & _).
  exists stats', db'. split; [exact Hrun|].
  split; [|split; [|split]].
  - rewrite (proj1 (Hformula discipline)). vm_compute. reflexivity.
  - rewrite (proj1 (Hformula confidence)). vm_compute. reflexivity.
  - rewrite (proj1 (Hformula creativity)). vm_compute. reflexivity.
  - rewrite (Hsame physical eq_refl); [reflexivity | cbn; lia].
Defined.

(* ------------------------------------------------------------------ *)
(** ** The judge: validation and fallback *)

(** C2. Whatever makes the oracle call fail (the API call throws, the reply
    has no content, the content does not parse, or validation rejects it),
    [judgeTask] returns the deterministic fallback: a success, the XP of the
    fixed table easy 20, medium 50, hard 100, extreme 200, the target stat
    raised by one, and the fixed comment. *)
Theorem judgeTask_failure_gives_fallback
    (reply : OracleReply) (task : Task) (e : Error) :
  askJudge reply = Throw e ->
  judgeTask reply task
  = mkJudgeResponse
      verdict_success
      (match task_difficulty task with
       | easy => 20
       | medium => 50
       | hard => 100
       | extreme => 200
       end)
      [(statName (task_targetStat task), 1%Q)]
      "Task evaluated using system fallback.".
Proof.
  intros Hfail. unfold judgeTask. rewrite Hfail.
  unfold getDeterministicFallback, DEFAULT_XP_BY_DIFFICULTY.
  destruct (task_difficulty task); reflexivity.
Qed.

Lemma judgeTask_failure_gives_fallback_witness :
  let task := mkTask 1 daily hard "Read for 45 minutes on a challenging topic"
                     intelligence 90 1000 in
  let invalid :=
    Parsed (JObject [ ("verdict", JString "fail"); ("xp", JNumber 10%Q);
                      ("statChanges", JObject []);
                      ("comment", JString "Evidence insufficient.") ]) in
  judgeTask invalid task
  = mkJudgeResponse verdict_success 100 [("intelligence", 1%Q)]
      "Task evaluated using system fallback."
  /\ judgeTask ApiFailure task = judgeTask invalid task
  /\ judgeTask EmptyContent task = judgeTask invalid task
  /\ judgeTask (Unparseable "not json") task = judgeTask invalid task.
Proof.
  intros task invalid.
  rewrite (judgeTask_failure_gives_fallback invalid task FailWithXp eq_refl).
  rewrite (judgeTask_failure_gives_fallback ApiFailure task _ eq_refl).
  rewrite (judgeTask_failure_gives_fallback EmptyContent task _ eq_refl).
  rewrite (judgeTask_failure_gives_fallback (Unparseable "not json") task _ eq_refl).
  repeat split; reflexivity.
Defined.

Lemma andThen_Ok {X Y} (r : Result X) (k : X -> Result Y) (y : Y) :
  andThen r k = Ok y -> exists x, r = Ok x /\ k x = Ok y.
Proof.
  destruct r as [x|e]; cbn [andThen]; [|discriminate].
  intros H. exists x. split; [reflexivity | exact H].
Qed.

Lemma required_Ok {X} (field : option X) (e : Error) (x : X) :
  required field e = Ok x -> field = Some x.
Proof. destruct field; cbn [required]; [intros [= ->]; reflexivity | discriminate]. Qed.

(** An accepted response carries a string comment, returned as it is. *)
Lemma validateJudgeResponse_comment (data : JSON) (r : JudgeResponse) :
  validateJudgeResponse data = Ok r ->
  exists fields,
    data = JObject fields
    /\ getField "comment" fields = Some (JString (jr_comment r)).
Proof.
  unfold validateJudgeResponse.
  destruct data as [| | | | |fields]; try discriminate.
  intros H. exists fields. split; [reflexivity|].
  repeat match goal with
         | H : andThen _ _ = Ok _ |- _ =>
             apply andThen_Ok in H; destruct H as (? & ? & H)
         end.
  match goal with
  | Hc : required (getField "comment" fields) _ = Ok ?c |- _ =>
      apply required_Ok in Hc; rewrite Hc
  end.
  match goal with
  | Hs : match ?c with JString _ => _ | _ => _ end = Ok ?s |- _ =>
      destruct c; try discriminate Hs; injection Hs as ->
  end.
  injection H as <-. reflexivity.
Qed.

(** C3, as stated, fails: the response with an empty comment is accepted
    and [judgeTask] passes it on instead of the fallback. *)
Lemma validateJudgeResponse_accepts_empty_comment :
  validateJudgeResponse emptyCommentResponse
  = Ok (mkJudgeResponse verdict_success 30 [("physical", 2%Q)] EmptyString)
  /\ forall task,
       judgeTask (Parsed emptyCommentResponse) task
       = mkJudgeResponse verdict_success 30 [("physical", 2%Q)] EmptyString.
Proof. split; [|intros task]; reflexivity. Qed.

(** C3, amended. [validateJudgeResponse] accepts a response only if its
    comment is a string, which it returns unchanged: a response whose
    comment field is missing or is not a string is rejected whole, and
    [judgeTask] substitutes the deterministic fallback.  (The empty string
    is a string: it is accepted.) *)
Theorem validateJudgeResponse_requires_string_comment (data : JSON) :
  (forall fields comment,
      data = JObject fields ->
      getField "comment" fields <> Some (JString comment)) ->
  (exists e, validateJudgeResponse data = Throw e)
  /\ forall task,
       judgeTask (Parsed data) task = getDeterministicFallback task.
Proof.
  intros Hbad.
  assert (Hrej : exists e, validateJudgeResponse data = Throw e).
  { destruct (validateJudgeResponse data) as [r|e] eqn:Hv.
    - exfalso.
      destruct (validateJudgeResponse_comment data r Hv) as (fields & -> & Hc).
      exact (Hbad fields (jr_comment r) eq_refl Hc).
    - exists e. reflexivity. }
  split; [exact Hrej|].
  intros task. destruct Hrej as [e He].
  unfold judgeTask, askJudge. rewrite He. reflexivity.
Qed.

Lemma validateJudgeResponse_requires_string_comment_witness :
  let noComment :=
    JObject [ ("verdict", JString "success"); ("xp", JNumber 30%Q);
              ("statChanges", JObject []) ] in
  let numericComment :=
    JObject [ ("verdict", JString "success"); ("xp", JNumber 30%Q);
              ("statChanges", JObject []); ("comment", JNumber 1%Q) ] in
  ((exists e, validateJudgeResponse noComment = Throw e)
   /\ forall task, judgeTask (Parsed noComment) task = getDeterministicFallback task)
  /\ ((exists e, validateJudgeResponse numericComment = Throw e)
      /\ forall task,
           judgeTask (Parsed numericComment) task = getDeterministicFallback task).
Proof.
  intros noComment numericComment. split.
  - apply (validateJudgeResponse_requires_string_comment noComment).
    intros fields comment [= <-]. vm_compute. discriminate.
  - apply (validateJudgeResponse_requires_string_comment numericComment).
    intros fields comment [= <-]. vm_compute. discriminate.
Defined.

(* ------------------------------------------------------------------ *)
(** ** The penalty ladder *)

Lemma Math_round_double (psi : Z) : Math_round (ofZ psi * 2) = 2 * psi.
Proof.
  rewrite <- (Math_round_ofZ (2 * psi)). apply Math_round_Qeq.
  unfold ofZ. rewrite inject_Z_mult. ring.
Qed.

Lemma Math_floor_fifth (psi : Z) : Math_floor (ofZ psi / 5) = psi / 5.
Proof.
  unfold Math_floor, ofZ, Qfloor, Qdiv, Qmult, Qinv, inject_Z.
  cbn [Qnum Qden]. rewrite Z.mul_1_r. reflexivity.
Qed.


Lemma applyPenalty_warning (db : DB) (now playerId psi : Z) :
  psi < 5 ->
  applyPenalty now playerId psi db
  = (Ok "warning",
     withPenalty (newPenalty db now playerId missed_task psi None) db).
Proof.
  intros H. unfold applyPenalty.
  apply Z.ltb_lt in H. rewrite H. reflexivity.
Qed.

Lemma applyPenalty_stat_decay (db : DB) (now playerId psi : Z) (stats : Stats) :
  5 <= psi < 10 ->
  Stats_findOne playerId db = Some stats ->
  let db1 := snd (Stats_update (updatedStats stats missPenaltyChanges) db) in
  applyPenalty now playerId psi db
  = (Ok "stat_decay",
     withPenalty (newPenalty db now playerId missed_task psi None) db1).
Proof.
  intros H Hstats db1. unfold applyPenalty.
  destruct (Z.ltb_spec psi 5); [lia|].
  destruct (Z.leb_spec 5 psi); [|lia].
  destruct (Z.ltb_spec psi 10); [|lia]. cbn [andb].
  destruct (applyStatChange_run db playerId missPenaltyChanges stats Hstats)
    as [Hrun _].
  unfold bind at 1. fold missPenaltyChanges. rewrite Hrun. reflexivity.
Qed.

Lemma applyPenalty_xp_loss (db : DB) (now playerId psi : Z) (player : Player) :
  10 <= psi < 20 ->
  Player_findByPk playerId db = Some player ->
  exists player' db1,
    addXp playerId (- Math_round (ofZ psi * 2)) db = (Ok player', db1)
    /\ player_totalXp player' = player_totalXp player - 2 * psi
    /\ applyPenalty now playerId psi db
       = (Ok "xp_loss",
          withPenalty
            (newPenalty db now playerId xp_loss psi
                        (Some (now + 24 * 60 * 60 * 1000))) db1).
Proof.
  intros H Hplayer.
  destruct (addXp_run db playerId (- Math_round (ofZ psi * 2)) player Hplayer)
    as (level & rank & _ & _ & Hrun).
  rewrite Math_round_double in *.
  destruct (Z.eqb_spec (- (2 * psi)) 0) as [|_]; [lia|].
  cbn zeta in Hrun. destruct Hrun as [Hrun _].
  eexists. eexists. split; [exact Hrun|]. split.
  - cbn [player_totalXp]. lia.
  - unfold applyPenalty.
    destruct (Z.ltb_spec psi 5); [lia|].
    destruct (Z.leb_spec 5 psi); [|lia].
    destruct (Z.ltb_spec psi 10); [lia|]. cbn [andb].
    destruct (Z.leb_spec 10 psi); [|lia].
    destruct (Z.ltb_spec psi 20); [|lia]. cbn [andb].
    unfold bind at 1. rewrite Math_round_double, Hrun. reflexivity.
Qed.

Lemma applyPenalty_rank_lock (db : DB) (now playerId psi : Z) :
  20 <= psi ->
  let lockDays := Z.min (psi / 5) 30 in
  applyPenalty now playerId psi db
  = (Ok "rank_lock",
     withPenalty
       (newPenalty db now playerId rank_lock psi
                   (Some (now + lockDays * DAY_MS))) db).
Proof.
  intros H lockDays. unfold applyPenalty.
  destruct (Z.ltb_spec psi 5); [lia|].
  destruct (Z.leb_spec 5 psi); [|lia].
  destruct (Z.ltb_spec psi 10); [lia|]. cbn [andb].
  destruct (Z.leb_spec 10 psi); [|lia].
  destruct (Z.ltb_spec psi 20); [lia|]. cbn [andb].
  destruct (Z.leb_spec 20 psi); [|lia].
  rewrite Math_floor_fifth. reflexivity.
Qed.



(* ------------------------------------------------------------------ *)
(** ** Sanctions without an expiry *)

Lemma insertByCreatedAtDesc_In (p x : Penalty) (sorted : list Penalty) :
  In x (insertByCreatedAtDesc p sorted) <-> x = p \/ In x sorted.
Proof.
  induction sorted as [|q rest IH]; cbn [insertByCreatedAtDesc In].
  - intuition congruence.
  - destruct (penalty_createdAt q <? penalty_createdAt p); cbn [In].
    + intuition congruence.
    + rewrite IH. intuition congruence.
Qed.

Lemma orderByCreatedAtDesc_In (x : Penalty) (rows : list Penalty) :
  In x (orderByCreatedAtDesc rows) <-> In x rows.
Proof.
  induction rows as [|p rows IH]; cbn [orderByCreatedAtDesc fold_right In].
  - reflexivity.
  - rewrite insertByCreatedAtDesc_In. fold (orderByCreatedAtDesc rows).
    rewrite IH. intuition congruence.
Qed.

Lemma applyStatChange_not_found (db : DB) (playerId : Z) (changes : StatChanges) :
  Stats_findOne playerId db = None ->
  applyStatChange playerId changes db = (Throw (StatsNotFound playerId), db).
Proof.
  intros H. unfold applyStatChange, bind, gets. rewrite H. reflexivity.
Qed.

(** C10. The sanction of the warning and stat_decay bands is stored with no
    [expiresAt]; a sanction without [expiresAt] is active at every moment
    and survives every cleanup, which removes exactly the rows whose
    [expiresAt] is earlier than the moment of the cleanup. *)
Theorem sanction_without_expiry_is_permanent :
  (forall db now playerId psi kind db',
      psi < 10 ->
      applyPenalty now playerId psi db = (Ok kind, db') ->
      let sanction := newPenalty db now playerId missed_task psi None in
      In sanction (penalties db')
      /\ penalty_expiresAt sanction = None
      /\ forall later,
           In sanction (getActivePenalties later playerId db')
           /\ In sanction (penalties (snd (cleanupExpiredPenalties later db'))))
  /\ (forall db later p,
         In p (penalties db) ->
         penalty_expiresAt p = None ->
         In p (getActivePenalties later (penalty_playerId p) db)
         /\ In p (penalties (snd (cleanupExpiredPenalties later db))))
  /\ (forall db later p,
         In p (penalties db) ->
         (In p (penalties (snd (cleanupExpiredPenalties later db)))
          <-> ~ exists e, penalty_expiresAt p = Some e /\ e < later)).
Proof.
  assert (Hperm : forall db later p,
             In p (penalties db) ->
             penalty_expiresAt p = None ->
             In p (getActivePenalties later (penalty_playerId p) db)
             /\ In p (penalties (snd (cleanupExpiredPenalties later db)))).
  { intros db later p Hin Hnone. split.
    - unfold getActivePenalties. apply orderByCreatedAtDesc_In.
      apply filter_In. split; [exact Hin|].
      unfold expiresNever. rewrite Hnone, Z.eqb_refl. reflexivity.
    - unfold cleanupExpiredPenalties, set_penalties. cbn [snd penalties].
      apply filter_In. split; [exact Hin|].
      unfold expiresBefore. rewrite Hnone. reflexivity. }
  split; [|split; [exact Hperm|]].
  - intros db now playerId psi kind db' Hpsi Hrun sanction.
    assert (Hin : In sanction (penalties db')).
    { destruct (Z.lt_ge_cases psi 5) as [Hlow|Hmid].
      - rewrite applyPenalty_warning in Hrun by exact Hlow.
        injection Hrun as _ <-.
        unfold withPenalty, set_penalties. cbn [penalties].
        apply in_or_app. right. left. reflexivity.
      - destruct (Stats_findOne playerId db) as [stats|] eqn:Hstats.
        + rewrite (applyPenalty_stat_decay db now playerId psi stats) in Hrun
            by (lia || exact Hstats).
          injection Hrun as _ <-.
          unfold withPenalty, set_penalties. cbn [penalties].
          apply in_or_app. right. left. reflexivity.
        + exfalso. unfold applyPenalty in Hrun.
          destruct (Z.ltb_spec psi 5); [lia|].
          destruct (Z.leb_spec 5 psi); [|lia].
          destruct (Z.ltb_spec psi 10); [|lia]. cbn [andb] in Hrun.
          unfold bind at 1 in Hrun.
          rewrite applyStatChange_not_found in Hrun by exact Hstats.
          discriminate Hrun. }
    split; [exact Hin|]. split; [reflexivity|].
    intros later. exact (Hperm db' later sanction Hin eq_refl).
  - intros db later p Hin.
    unfold cleanupExpiredPenalties, set_penalties. cbn [snd penalties].
    rewrite filter_In. unfold expiresBefore.
    destruct (penalty_expiresAt p) as [e|].
    + destruct (Z.ltb_spec e later); cbn [negb]; split.
      * intros [_ Habs]. discriminate.
      * intros Hno. exfalso. apply Hno. exists e. split; [reflexivity | assumption].
      * intros _ (e' & [= <-] & Hlt). lia.
      * intros _. split; [exact Hin | reflexivity].
    + split.
      * intros _ (e' & Habs & _). discriminate.
      * intros _. split; [exact Hin | reflexivity].
Qed.

Lemma sanction_without_expiry_is_permanent_witness :
  let stats := mkStats 1 1 50 50 50 50 50 50 in
  let db := mkDB [mkPlayer 1 RankE 1 100] [stats] [] [] [] [] in
  let now := 1700000000000 in
  let sanction := mkPenalty 1 1 missed_task 7 None now in
  let db' := snd (applyPenalty now 1 7 db) in
  In sanction (penalties db')
  /\ In sanction (getActivePenalties (now + 1000 * DAY_MS) 1 db')
  /\ In sanction
        (penalties (snd (cleanupExpiredPenalties (now + 1000 * DAY_MS) db'))).
Proof.
  intros stats db now sanction db'.
  destruct sanction_without_expiry_is_permanent as (Hband & _ & _).
  destruct (Hband db now 1 7 "stat_decay" db' ltac:(lia) eq_refl)
    as (Hin & _ & Hlater).
  split; [exact Hin|]. exact (Hlater (now + 1000 * DAY_MS)).
Defined.

(* ------------------------------------------------------------------ *)
(** ** Submitting evidence *)

Lemma nextId_above (ids : list Z) (id : Z) : In id ids -> id < nextId ids.
Proof.
  unfold nextId. induction ids as [|x ids IH]; cbn [In fold_right]; [tauto|].
  intros [-> | Hin]; [lia|]. specialize (IH Hin). lia.
Qed.

Lemma nextId_fresh (ids : list Z) : ~ In (nextId ids) ids.
Proof. intros H. apply nextId_above in H. lia. Qed.

Lemma NoDup_map_eq {X} (key : X -> Z) (rows : list X) (x y : X) :
  NoDup (map key rows) -> In x rows -> In y rows -> key x = key y -> x = y.
Proof.
  induction rows as [|r rows IH]; cbn [map In]; [tauto|].
  intros Hnd Hx Hy Hk. inversion Hnd as [|? ? Hnotin Hnd']; subst.
  destruct Hx as [-> | Hx], Hy as [-> | Hy].
  - reflexivity.
  - exfalso. apply Hnotin. rewrite Hk. apply in_map. exact Hy.
  - exfalso. apply Hnotin. rewrite <- Hk. apply in_map. exact Hx.
  - apply IH; assumption.
Qed.



Lemma submitTask_existing (db : DB) (now taskId playerId : Z) (evidence : string)
    (task : Task) (existing : TaskLog) :
  Task_findByPk taskId db = Some task ->
  now <= task_deadline task ->
  findPendingLog taskId playerId db = Some existing ->
  submitTask now taskId playerId evidence db
  = if noEvidence (tl_evidence existing)
    then (Ok (withEvidence evidence existing),
          snd (TaskLog_update (withEvidence evidence existing) db))
    else (Ok existing, db).
Proof.
  intros Htask Hdeadline Hexisting.
  unfold submitTask, bind, gets. rewrite Htask.
  destruct (Z.ltb_spec (task_deadline task) now); [lia|].
  rewrite Hexisting. destruct (noEvidence (tl_evidence existing)); reflexivity.
Qed.





(* ------------------------------------------------------------------ *)
(** ** The daily job *)

(** The transaction of the daily flow never receives a write, so the
    [try]/[catch] around the steps changes nothing: outcome and database are
    those of the bare steps, whether they fail or not. *)
Lemma processPlayerDailyFlow_is_its_steps (w : World) (playerId : Z) (db : DB) :
  processPlayerDailyFlow w playerId db
  = dailyFlowSteps w (mkTransaction []) playerId db.
Proof.
  unfold processPlayerDailyFlow, sequelize_transaction, bind at 1, ret at 1.
  unfold tryCatch.
  destruct (dailyFlowSteps w (mkTransaction []) playerId db) as [[u|e] db'];
    reflexivity.
Qed.

(** The job itself never throws: every player is counted once, as a success
    or as an error, and the loop goes on after an error. *)
Lemma processPlayers_counts (w : World) (ps : list Player) :
  forall successCount errorCount db,
  exists s e db',
    processPlayers w ps successCount errorCount db = (Ok (s, e), db')
    /\ s + e = successCount + errorCount + Z.of_nat (List.length ps).
Proof.
  induction ps as [|player ps IH]; intros successCount errorCount db.
  - exists successCount, errorCount, db. split; [reflexivity | cbn; lia].
  - cbn [processPlayers]. unfold bind at 1, tryCatch.
    destruct ((processPlayerDailyFlow w (player_id player);;; ret true) db)
      as [[b|err] db1] eqn:Hflow.
    + destruct b.
      * destruct (IH (successCount + 1) errorCount db1) as (s & e & db' & Hrun & Hsum).
        exists s, e, db'. split; [exact Hrun|]. cbn [List.length]. lia.
      * destruct (IH successCount (errorCount + 1) db1) as (s & e & db' & Hrun & Hsum).
        exists s, e, db'. split; [exact Hrun|]. cbn [List.length]. lia.
    + unfold ret at 1.
      destruct (IH successCount (errorCount + 1) db1) as (s & e & db' & Hrun & Hsum).
      exists s, e, db'. split; [exact Hrun|]. cbn [List.length]. lia.
Qed.

(** C4 on the code.  The transaction of [processPlayerDailyFlow] holds none
    of the steps' writes, so a failing flow leaves the database as the
    failing step found it: here the flow of player 1 fails at step 5 (no
    stats row) after step 3 has marked the overdue log missed and step 4 has
    recorded a sanction, and the rollback undoes neither.  What does hold:
    the job never throws, counts every player once, and goes on to player
    2, whose task is generated. *)
Theorem dailyFlow_failure_keeps_earlier_writes :
  (forall w playerId db,
      processPlayerDailyFlow w playerId db
      = dailyFlowSteps w (mkTransaction []) playerId db)
  /\ processPlayerDailyFlow jobWorld 1 jobDB
     = (Throw (StatsNotFound 1),
        mkDB (players jobDB) (statsTable jobDB) jobTasks
             [overdueLogMissed; completedToday] [warningRow] [])
  /\ snd (processPlayerDailyFlow jobWorld 1 jobDB) <> jobDB
  /\ (forall w db,
        exists successCount errorCount db',
          runDailyDecayJob w db = (Ok (successCount, errorCount), db')
          /\ successCount + errorCount = Z.of_nat (List.length (players db)))
  /\ exists db',
       runDailyDecayJob jobWorld jobDB = (Ok (1, 1), db')
       /\ taskLogs db'
          = [overdueLogMissed; completedToday;
             mkTaskLog 3 3 2 pending None None jobNow]
       /\ penalties db' = [warningRow].
Proof.
  split; [exact processPlayerDailyFlow_is_its_steps|].
  split; [vm_compute; reflexivity|].
  split; [vm_compute; discriminate|].
  split.
  { intros w db. unfold runDailyDecayJob, bind at 1, gets at 1.
    destruct (processPlayers_counts w (players db) 0 0 db)
      as (s & e & db' & Hrun & Hsum).
    exists s, e, db'. split; [exact Hrun | lia]. }
  eexists. split; [vm_compute; reflexivity|].
  split; reflexivity.
Qed.

(* ================================================================== *)
(** * Further properties of the services *)

(* ------------------------------------------------------------------ *)
(** ** Level, rank and progress *)

Lemma round_100_pow15_strict (level : Z) :
  1 <= level -> round_100_pow15 level + 1 <= round_100_pow15 (level + 1).
Proof.
  intros Hl. unfold round_100_pow15.
  set (n := 40000 * level ^ 3).
  assert (Hn : 0 <= n) by (subst n; nia).
  pose proof (Z.sqrt_spec n Hn) as [Hlo _].
  pose proof (Z.sqrt_nonneg n) as Hs0.
  set (s := Z.sqrt n) in *.
  assert (Hs : s <= 200 * level ^ 2).
  { destruct (Z.le_gt_cases s (200 * level ^ 2)) as [|Hgt]; [assumption|].
    exfalso. assert (n < s * s) by (subst n; nia). lia. }
  assert (Hnext : s + 2 <= Z.sqrt (40000 * (level + 1) ^ 3)).
  { apply Z.sqrt_le_square; [nia | lia |]. subst n. nia. }
  rewrite <- (Z.div_add (s + 1) 1 2) by lia.
  apply Z.div_le_mono; lia.
Qed.

Lemma calculateRank_monotone (xp1 xp2 : Z) :
  xp1 <= xp2 -> rankIndex (rankOfTable xp1) <= rankIndex (rankOfTable xp2).
Proof.
  intros H. unfold rankOfTable.
  repeat match goal with
         | |- context [?a <=? ?b] =>
             let Hc := fresh "Hc" in destruct (Z.leb_spec a b) as [Hc|Hc]
         end; cbn [rankIndex]; lia.
Qed.

(** X1. Level and rank never go down when the lifetime XP goes up: both
    [calculateLevel] and [calculateRank] are non-decreasing in the total. *)
Theorem level_and_rank_monotone (xp1 xp2 : Z) :
  xp1 <= xp2 ->
  exists level1 level2 rank1 rank2,
    calculateLevel xp1 = Ok level1
    /\ calculateLevel xp2 = Ok level2
    /\ calculateRank xp1 = Ok rank1
    /\ calculateRank xp2 = Ok rank2
    /\ level1 <= level2
    /\ rankIndex rank1 <= rankIndex rank2.
Proof.
  intros H. unfold calculateLevel.
  destruct (calculateLevel_loop_spec xp1 1 ltac:(lia))
    as (L1 & HL1 & Hle1 & Hreach1 & Hnext1).
  destruct (calculateLevel_loop_spec xp2 1 ltac:(lia))
    as (L2 & HL2 & Hle2 & Hreach2 & Hnext2).
  exists L1, L2, (rankOfTable xp1), (rankOfTable xp2).
  repeat split; try assumption; try apply calculateRank_rankOfTable.
  - destruct Hreach1 as [-> | Hreach1]; [lia|].
    destruct (Z.le_gt_cases L1 L2) as [|Hgt]; [assumption|].
    pose proof (round_100_pow15_mono (L2 + 1) L1 ltac:(lia)). lia.
  - apply calculateRank_monotone. exact H.
Qed.

Lemma level_and_rank_monotone_witness :
  exists level1 level2 rank1 rank2,
    calculateLevel 999 = Ok level1
    /\ calculateLevel 5000 = Ok level2
    /\ calculateRank 999 = Ok rank1
    /\ calculateRank 5000 = Ok rank2
    /\ level1 <= level2
    /\ rankIndex rank1 <= rankIndex rank2.
Proof. apply (level_and_rank_monotone 999 5000). lia. Defined.

(** X2. At the level [calculateLevel] returns, the requirement of the next
    level, [getXpForNextLevel], is not yet covered by the total and is
    greater than the requirement of the level itself; [getXpForNextLevel]
    throws for a level below 0. *)
Theorem next_level_is_ahead (totalXp : Z) :
  exists level current next,
    calculateLevel totalXp = Ok level
    /\ calculateXpRequired level = Ok current
    /\ getXpForNextLevel level = Ok next
    /\ totalXp < next
    /\ current < next
    /\ forall below, below < 0 ->
         getXpForNextLevel below = Throw LevelMustBeAtLeastOne.
Proof.
  unfold calculateLevel.
  destruct (calculateLevel_loop_spec totalXp 1 ltac:(lia))
    as (L & HL & Hle & _ & Hnext).
  exists L, (round_100_pow15 L), (round_100_pow15 (L + 1)).
  unfold getXpForNextLevel, calculateXpRequired.
  destruct (Z.ltb_spec L 1); [lia|].
  destruct (Z.ltb_spec (L + 1) 1); [lia|].
  repeat split; try assumption; try reflexivity.
  - pose proof (round_100_pow15_strict L ltac:(lia)). lia.
  - intros below Hb. destruct (Z.ltb_spec (below + 1) 1); [reflexivity | lia].
Qed.

Lemma next_level_is_ahead_witness :
  getXpForNextLevel (-3) = Throw LevelMustBeAtLeastOne.
Proof.
  destruct (next_level_is_ahead 0) as (level & current & next & _ & _ & _ & _ & _ & Hthrow).
  apply Hthrow. lia.
Defined.

Lemma Ok_inj {X} (a b : X) : Ok a = Ok b -> a = b.
Proof. intros H. injection H as H. exact H. Qed.

(** The percentage of [getRankProgress] in integers. *)
Lemma Math_round_percentage (c r : Z) :
  0 < r -> Math_round (ofZ c / ofZ r * 100) = (200 * c + r) / (2 * r).
Proof.
  intros Hr. destruct r as [|r|]; try lia.
  unfold Math_round.
  assert (Heq : (ofZ c / ofZ (Z.pos r) * 100 + (1 # 2)
                 == (200 * c + Z.pos r) # (2 * r))%Q).
  { unfold Qeq, Qdiv, Qmult, Qinv, Qplus, ofZ, inject_Z. cbn [Qnum Qden].
    rewrite ?Pos2Z.inj_mul. ring. }
  rewrite Heq. unfold Qfloor. rewrite Pos2Z.inj_mul. reflexivity.
Qed.

Lemma getRankProgress_in_rank (totalXp lo hi : Z) (rank : Rank) :
  In (rank, mkThreshold lo (Some hi)) RANK_XP_THRESHOLDS ->
  lo <= totalXp <= hi ->
  getRankProgress totalXp
  = Ok ((200 * (totalXp - lo) + (hi - lo)) / (2 * (hi - lo))).
Proof.
  intros Hin Hrange. unfold getRankProgress.
  rewrite calculateRank_rankOfTable. cbn [andThen].
  cbn [In RANK_XP_THRESHOLDS] in Hin.
  repeat match goal with
         | H : _ \/ _ |- _ => destruct H as [H|H]
         | H : (_, _) = (_, _) |- _ => injection H as <- <- <-
         | H : (_, _) = (_, _) |- _ => discriminate H
         | H : False |- _ => destruct H
         end;
    unfold rankOfTable;
    repeat match goal with
           | |- context [?a <=? ?b] =>
               let Hc := fresh "Hc" in destruct (Z.leb_spec a b) as [Hc|Hc]
           end; try lia;
    cbn [thresholdOf find RANK_XP_THRESHOLDS fst snd Rank_eqb t_max t_min Z.eqb];
    rewrite Math_round_percentage by lia; reflexivity.
Qed.

(** X3. [getRankProgress] is a percentage for every non-negative total: it
    lies in [0,100], is 0 at the first XP of a rank and 100 at the last, is
    100 throughout SS, and does not decrease inside a rank.  (A negative
    total gives a progress of at most 0.) *)
Theorem getRankProgress_is_percentage :
  (forall totalXp,
      0 <= totalXp ->
      exists progress,
        getRankProgress totalXp = Ok progress /\ 0 <= progress <= 100)
  /\ (forall rank lo hi,
         In (rank, mkThreshold lo (Some hi)) RANK_XP_THRESHOLDS ->
         getRankProgress lo = Ok 0 /\ getRankProgress hi = Ok 100
         /\ forall xp1 xp2 p1 p2,
              lo <= xp1 -> xp1 <= xp2 -> xp2 <= hi ->
              getRankProgress xp1 = Ok p1 -> getRankProgress xp2 = Ok p2 ->
              p1 <= p2)
  /\ (forall totalXp, 250000 <= totalXp -> getRankProgress totalXp = Ok 100)
  /\ (forall totalXp,
         totalXp < 0 ->
         exists progress,
           getRankProgress totalXp = Ok progress /\ progress <= 0).
Proof.
  assert (Hbounds : forall rank lo hi,
             In (rank, mkThreshold lo (Some hi)) RANK_XP_THRESHOLDS -> lo < hi).
  { intros rank lo hi Hin. cbn [In RANK_XP_THRESHOLDS] in Hin.
    repeat match goal with
           | H : _ \/ _ |- _ => destruct H as [H|H]
           | H : (_, _) = (_, _) |- _ => injection H as <- <- <-
           | H : (_, _) = (_, _) |- _ => discriminate H
           | H : False |- _ => destruct H
           end; lia. }
  assert (Hform : forall c r, 0 < r -> 0 <= c <= r ->
             0 <= (200 * c + r) / (2 * r) <= 100).
  { intros c r Hr Hc. split.
    - apply Z.div_pos; lia.
    - apply Z.lt_succ_r. apply Z.div_lt_upper_bound; lia. }
  split; [|split; [|split]].
  - intros totalXp Hpos.
    destruct (Z.le_gt_cases 250000 totalXp) as [Hss|Hlow].
    + exists 100. split; [|lia]. unfold getRankProgress.
      rewrite calculateRank_rankOfTable. unfold rankOfTable.
      repeat match goal with
             | |- context [?a <=? ?b] =>
                 let Hc := fresh "Hc" in destruct (Z.leb_spec a b) as [Hc|Hc]
             end; try lia. reflexivity.
    + assert (Hcase : exists rank lo hi,
                 In (rank, mkThreshold lo (Some hi)) RANK_XP_THRESHOLDS
                 /\ lo <= totalXp <= hi).
      { destruct (Z.le_gt_cases totalXp 999);
          [exists RankE, 0, 999; split; [cbn; tauto | lia]|].
        destruct (Z.le_gt_cases totalXp 4999);
          [exists RankD, 1000, 4999; split; [cbn; tauto | lia]|].
        destruct (Z.le_gt_cases totalXp 14999);
          [exists RankC, 5000, 14999; split; [cbn; tauto | lia]|].
        destruct (Z.le_gt_cases totalXp 39999);
          [exists RankB, 15000, 39999; split; [cbn; tauto | lia]|].
        destruct (Z.le_gt_cases totalXp 99999);
          [exists RankA, 40000, 99999; split; [cbn; tauto | lia]|].
        exists RankS, 100000, 249999; split; [cbn; tauto | lia]. }
      destruct Hcase as (rank & lo & hi & Hin & Hrange).
      rewrite (getRankProgress_in_rank totalXp lo hi rank Hin Hrange).
      eexists. split; [reflexivity|].
      pose proof (Hbounds rank lo hi Hin).
      apply Hform; lia.
  - intros rank lo hi Hin. pose proof (Hbounds rank lo hi Hin) as Hlt.
    split; [|split].
    + rewrite (getRankProgress_in_rank lo lo hi rank Hin) by lia.
      f_equal. replace (200 * (lo - lo) + (hi - lo)) with (hi - lo) by lia.
      apply Z.div_small. lia.
    + rewrite (getRankProgress_in_rank hi lo hi rank Hin) by lia.
      f_equal. replace (200 * (hi - lo) + (hi - lo))
                 with (100 * (2 * (hi - lo)) + (hi - lo)) by lia.
      rewrite Z.add_comm, Z.div_add by lia.
      rewrite Z.div_small by lia. reflexivity.
    + intros xp1 xp2 p1 p2 H1 H12 H2 Hp1 Hp2.
      rewrite (getRankProgress_in_rank xp1 lo hi rank Hin) in Hp1 by lia.
      rewrite (getRankProgress_in_rank xp2 lo hi rank Hin) in Hp2 by lia.
      apply Ok_inj in Hp1. apply Ok_inj in Hp2. subst p1 p2.
      apply Z.div_le_mono; lia.
  - intros totalXp Hss. unfold getRankProgress.
    rewrite calculateRank_rankOfTable. unfold rankOfTable.
    repeat match goal with
           | |- context [?a <=? ?b] =>
               let Hc := fresh "Hc" in destruct (Z.leb_spec a b) as [Hc|Hc]
           end; try lia. reflexivity.
  - intros totalXp Hneg. unfold getRankProgress.
    rewrite calculateRank_rankOfTable. unfold rankOfTable.
    destruct (Z.leb_spec totalXp 999); [|lia].
    cbn [andThen thresholdOf find RANK_XP_THRESHOLDS fst snd Rank_eqb t_max
         t_min Z.eqb].
    rewrite Math_round_percentage by lia.
    eexists. split; [reflexivity|].
    apply Z.lt_succ_r. apply Z.div_lt_upper_bound; lia.
Qed.

Lemma getRankProgress_is_percentage_witness :
  (exists progress, getRankProgress 3000 = Ok progress /\ 0 <= progress <= 100)
  /\ getRankProgress 1000 = Ok 0
  /\ getRankProgress 4999 = Ok 100
  /\ getRankProgress 1000000 = Ok 100.
Proof.
  destruct getRankProgress_is_percentage as (Hpct & Hrank & Hss & _).
  split; [apply Hpct; lia|].
  destruct (Hrank RankD 1000 4999 ltac:(cbn; tauto)) as (Hlo & Hhi & _).
  split; [exact Hlo|]. split; [exact Hhi|].
  apply Hss. lia.
Defined.

(* ------------------------------------------------------------------ *)
(** ** Sequences of XP changes *)

Lemma addXp_not_found (db : DB) (playerId xpAmount : Z) :
  Player_findByPk playerId db = None ->
  addXp playerId xpAmount db = (Throw (PlayerNotFound playerId), db).
Proof.
  intros H. unfold addXp, bind, gets.
  destruct (xpAmount =? 0); rewrite H; reflexivity.
Qed.

(** What [addXp] leaves behind, in one statement for both branches. *)
Lemma addXp_result (db : DB) (playerId xpAmount : Z) (player : Player) :
  Player_findByPk playerId db = Some player ->
  exists player' db',
    addXp playerId xpAmount db = (Ok player', db')
    /\ Player_findByPk playerId db' = Some player'
    /\ player_id player' = player_id player
    /\ player_totalXp player' = player_totalXp player + xpAmount
    /\ (xpAmount <> 0 ->
        calculateLevel (player_totalXp player') = Ok (player_level player')
        /\ calculateRank (player_totalXp player') = Ok (player_rank player'))
    /\ (xpAmount = 0 -> player' = player /\ db' = db)
    /\ statsTable db' = statsTable db
    /\ tasks db' = tasks db
    /\ taskLogs db' = taskLogs db
    /\ penalties db' = penalties db
    /\ narratives db' = narratives db.
Proof.
  intros Hfound.
  destruct (addXp_run db playerId xpAmount player Hfound)
    as (level & rank & Hlevel & Hrank & Hrun).
  destruct (Z.eqb_spec xpAmount 0) as [->|Hnz].
  - exists player, db. rewrite Z.add_0_r.
    split; [exact Hrun|]. split; [exact Hfound|].
    split; [reflexivity|]. split; [reflexivity|].
    split; [intros Habs; now elim Habs|].
    split; [intros _; split; reflexivity|].
    repeat split; reflexivity.
  - cbn zeta in Hrun. destruct Hrun as [Hrun Hback].
    eexists. eexists. split; [exact Hrun|]. split; [exact Hback|].
    cbn [player_id player_totalXp player_level player_rank].
    split; [reflexivity|]. split; [reflexivity|].
    split; [intros _; split; assumption|].
    split; [intros Habs; now elim Hnz|].
    repeat split; reflexivity.
Qed.

(** X4. Two calls of [addXp], not both with amount 0, leave the player with
    the sum added and with the level and rank of the final total, whatever
    the signs of the two amounts; a call for a player that does not exist
    throws and changes nothing. *)
Theorem addXp_twice (db : DB) (playerId a b : Z) (player : Player) :
  Player_findByPk playerId db = Some player ->
  a <> 0 \/ b <> 0 ->
  (exists p1 db1 p2 db2,
      addXp playerId a db = (Ok p1, db1)
      /\ addXp playerId b db1 = (Ok p2, db2)
      /\ Player_findByPk playerId db2 = Some p2
      /\ player_totalXp p2 = player_totalXp player + a + b
      /\ calculateLevel (player_totalXp player + a + b) = Ok (player_level p2)
      /\ calculateRank (player_totalXp player + a + b) = Ok (player_rank p2))
  /\ forall missing,
       Player_findByPk missing db = None ->
       addXp missing a db = (Throw (PlayerNotFound missing), db).
Proof.
  intros Hfound Hnz. split; [|intros missing; apply addXp_not_found].
  destruct (addXp_result db playerId a player Hfound)
    as (p1 & db1 & Hrun1 & Hback1 & _ & Htot1 & Hcalc1 & Hzero1 & _).
  destruct (addXp_result db1 playerId b p1 Hback1)
    as (p2 & db2 & Hrun2 & Hback2 & _ & Htot2 & Hcalc2 & Hzero2 & _).
  exists p1, db1, p2, db2.
  split; [exact Hrun1|]. split; [exact Hrun2|]. split; [exact Hback2|].
  assert (Htot : player_totalXp p2 = player_totalXp player + a + b) by lia.
  split; [exact Htot|]. rewrite <- Htot.
  destruct (Z.eq_dec b 0) as [->|Hb].
  - destruct (Hzero2 eq_refl) as [-> _].
    apply Hcalc1. destruct Hnz as [Ha|Hb]; [exact Ha | now elim Hb].
  - apply Hcalc2. exact Hb.
Qed.

Lemma addXp_twice_witness :
  let db := mkDB [mkPlayer 1 RankE 1 0] [] [] [] [] [] in
  exists p1 db1 p2 db2,
    addXp 1 500 db = (Ok p1, db1)
    /\ addXp 1 500 db1 = (Ok p2, db2)
    /\ Player_findByPk 1 db2 = Some p2
    /\ player_totalXp p2 = 0 + 500 + 500
    /\ calculateLevel (0 + 500 + 500) = Ok (player_level p2)
    /\ calculateRank (0 + 500 + 500) = Ok (player_rank p2).
Proof.
  intros db.
  apply (proj1 (addXp_twice db 1 500 500 (mkPlayer 1 RankE 1 0) eq_refl
                  ltac:(left; lia))).
Defined.

(* ------------------------------------------------------------------ *)
(** ** Daily decay *)

Lemma Math_round_near (z : Z) (r : Q) :
  (- (1 # 2) <= r)%Q -> (r < 1 # 2)%Q -> Math_round (ofZ z + r) = z.
Proof.
  intros Hlo Hhi. unfold Math_round, ofZ.
  assert (H1 : z <= Qfloor (inject_Z z + r + (1 # 2))).
  { rewrite <- (Qfloor_Z z) at 1. apply Qfloor_resp_le.
    setoid_replace (inject_Z z) with (inject_Z z + (- (1 # 2)) + (1 # 2))%Q at 1
      by ring.
    apply Qplus_le_l. apply Qplus_le_r. exact Hlo. }
  assert (H2 : Qfloor (inject_Z z + r + (1 # 2)) < z + 1).
  { rewrite Zlt_Qlt.
    apply Qle_lt_trans with (inject_Z z + r + (1 # 2))%Q; [apply Qfloor_le|].
    rewrite inject_Z_plus.
    setoid_replace (inject_Z z + inject_Z 1)%Q
      with (inject_Z z + (1 # 2) + (1 # 2))%Q by ring.
    apply Qplus_lt_l. apply Qplus_lt_r. exact Hhi. }
  lia.
Qed.

Lemma decay_rate_small (stat : StatType) :
  (- (1 # 2) <= DAILY_DECAY_RATES stat)%Q /\ (DAILY_DECAY_RATES stat < 1 # 2)%Q.
Proof. destruct stat; split; reflexivity || discriminate. Qed.

Lemma clampStat_decay (old : Z) (stat : StatType) :
  0 <= old <= 100 -> clampStat (ofZ old + DAILY_DECAY_RATES stat) = old.
Proof.
  intros H. unfold clampStat.
  destruct (decay_rate_small stat) as [Hlo Hhi].
  rewrite (Math_round_near old _ Hlo Hhi). lia.
Qed.

Lemma applyDailyDecay_run (now playerId : Z) (db : DB) (stats : Stats) :
  hasCompletedDailyQuestToday now playerId db = false ->
  Stats_findOne playerId db = Some stats ->
  statsInRange stats ->
  applyDailyDecay now playerId db
  = (Ok (Some stats), snd (Stats_update stats db))
  /\ Stats_findOne playerId (snd (Stats_update stats db)) = Some stats.
Proof.
  intros Hday Hstats Hrange.
  set (changes := mkStatChanges (Some (DAILY_DECAY_RATES physical))
                    (Some (DAILY_DECAY_RATES intelligence))
                    (Some (DAILY_DECAY_RATES discipline))
                    (Some (DAILY_DECAY_RATES charisma))
                    (Some (DAILY_DECAY_RATES confidence))
                    (Some (DAILY_DECAY_RATES creativity))).
  assert (Hsame : updatedStats stats changes = stats).
  { pose proof (Hrange physical). pose proof (Hrange intelligence).
    pose proof (Hrange discipline). pose proof (Hrange charisma).
    pose proof (Hrange confidence). pose proof (Hrange creativity).
    destruct stats. cbn [getStat stats_physical stats_intelligence
      stats_discipline stats_charisma stats_confidence stats_creativity] in *.
    unfold updatedStats, changes.
    cbn [stats_id stats_playerId stats_physical stats_intelligence
         stats_discipline stats_charisma stats_confidence stats_creativity
         ch_physical ch_intelligence ch_discipline ch_charisma ch_confidence
         ch_creativity orZero].
    rewrite !clampStat_decay by assumption. reflexivity. }
  destruct (applyStatChange_run db playerId changes stats Hstats) as [Hrun Hback].
  rewrite Hsame in Hrun, Hback.
  split; [|exact Hback].
  unfold applyDailyDecay, bind at 1, gets at 1. rewrite Hday.
  unfold bind at 1, gets at 1. rewrite Hstats.
  unfold bind at 1. fold changes. rewrite Hrun. reflexivity.
Qed.

Lemma hasCompletedDailyQuestToday_Stats_update (now playerId : Z) (s : Stats)
    (db : DB) :
  hasCompletedDailyQuestToday now playerId (snd (Stats_update s db))
  = hasCompletedDailyQuestToday now playerId db.
Proof. reflexivity. Qed.

(** X5. [applyDailyDecay] returns null and touches nothing when a daily
    quest was completed today, and throws when the player has no stats row.
    Otherwise it rewrites the row with the values it had: every daily rate
    is smaller than a half, so each attribute rounds back to itself, and
    this remains so however many days the decay is applied. *)
Theorem applyDailyDecay_never_visible (db : DB) (playerId : Z) :
  (forall now,
      hasCompletedDailyQuestToday now playerId db = true ->
      applyDailyDecay now playerId db = (Ok None, db))
  /\ (forall now,
         hasCompletedDailyQuestToday now playerId db = false ->
         Stats_findOne playerId db = None ->
         applyDailyDecay now playerId db = (Throw (StatsNotFound playerId), db))
  /\ (forall stats moments,
         Stats_findOne playerId db = Some stats ->
         statsInRange stats ->
         exists db',
           applyDecayAt playerId moments db = (Ok tt, db')
           /\ Stats_findOne playerId db' = Some stats
           /\ players db' = players db
           /\ taskLogs db' = taskLogs db
           /\ penalties db' = penalties db).
Proof.
  split; [|split].
  - intros now Hday. unfold applyDailyDecay, bind, gets. rewrite Hday. reflexivity.
  - intros now Hday Hnone. unfold applyDailyDecay, bind, gets.
    rewrite Hday, Hnone. reflexivity.
  - intros stats moments Hstats Hrange. revert db Hstats.
    induction moments as [|now moments IH]; intros db Hstats.
    + exists db. repeat split; try reflexivity; assumption.
    + unfold applyDecayAt in *. cbn [forEach].
      destruct (hasCompletedDailyQuestToday now playerId db) eqn:Hday.
      * destruct (IH db Hstats) as (db' & Hrest & Hfinal).
        exists db'. split; [|exact Hfinal].
        unfold bind at 1. unfold bind at 1.
        unfold applyDailyDecay, bind at 1, gets at 1. rewrite Hday.
        unfold ret at 1. unfold ret at 1. exact Hrest.
      * destruct (applyDailyDecay_run now playerId db stats Hday Hstats Hrange)
          as [Hrun Hback].
        destruct (IH _ Hback) as (db' & Hrest & Hfinal & Hp & Hl & Hpen).
        exists db'. split; [|split; [exact Hfinal|]].
        -- unfold bind at 1. unfold bind at 1. rewrite Hrun.
           unfold ret at 1. exact Hrest.
        -- rewrite Hp, Hl, Hpen. repeat split; reflexivity.
Qed.

Lemma applyDailyDecay_never_visible_witness :
  let stats := mkStats 1 1 50 0 100 37 50 50 in
  let db := mkDB [mkPlayer 1 RankE 1 0] [stats] [] [] [] [] in
  exists db',
    applyDecayAt 1 [0; DAY_MS; 2 * DAY_MS; 3 * DAY_MS; 4 * DAY_MS; 5 * DAY_MS] db
    = (Ok tt, db')
    /\ Stats_findOne 1 db' = Some stats.
Proof.
  intros stats db.
  destruct (applyDailyDecay_never_visible db 1) as (_ & _ & Hdays).
  destruct (Hdays stats [0; DAY_MS; 2 * DAY_MS; 3 * DAY_MS; 4 * DAY_MS; 5 * DAY_MS]
              eq_refl) as (db' & Hrun & Hfound & _).
  { intros stat. destruct stat; cbn; lia. }
  exists db'. split; assumption.
Defined.

(* ------------------------------------------------------------------ *)
(** ** What the judge hands to the task service *)

Lemma validateStatEntries_Ok (entries : list (string * JSON)) :
  validateStatEntries entries = Ok tt ->
  Forall (fun change =>
            In (fst change) VALID_STAT_NAMES
            /\ Number_isInteger (snd change) = true)
         (asNumberRecord entries).
Proof.
  induction entries as [|[name value] rest IH]; cbn [validateStatEntries].
  - intros _. constructor.
  - destruct (existsb (String.eqb name) VALID_STAT_NAMES) eqn:Hname;
      cbn [negb]; [|discriminate].
    destruct value as [| |q| | |]; try discriminate.
    destruct (Number_isInteger q) eqn:Hint; [|discriminate].
    intros Hrest. unfold asNumberRecord. cbn [flat_map fst snd app].
    constructor.
    + cbn [fst snd]. split; [|exact Hint].
      apply existsb_exists in Hname. destruct Hname as (n & Hin & Heq).
      apply String.eqb_eq in Heq. subst n. exact Hin.
    + apply IH. exact Hrest.
Qed.

Lemma integer_xp_positive (n : Q) :
  Qle_bool 0 n = true -> Number_isInteger n = true -> Qeq_bool n 0 = false ->
  0 < Qfloor n.
Proof.
  destruct n as [a d]. unfold Qle_bool, Number_isInteger, Qeq_bool, Qfloor.
  cbn [Qnum Qden]. intros Hle Hint Hne.
  apply Z.leb_le in Hle. apply Z.eqb_eq in Hint.
  rewrite Z.mul_1_r in *. cbn in Hle.
  assert (Ha : a <> 0).
  { intros ->. cbn in Hne. discriminate. }
  pose proof (Z.div_mod a (Z.pos d) ltac:(lia)) as Hdm.
  rewrite Hint in Hdm.
  destruct (Z.le_gt_cases (a / Z.pos d) 0) as [Hq|]; [|assumption].
  exfalso. nia.
Qed.

Lemma zero_xp_floor (n : Q) : Qeq_bool n 0 = true -> Qfloor n = 0.
Proof.
  intros H. apply Qeq_bool_iff in H.
  destruct n as [a d]. unfold Qeq in H. unfold Qfloor. cbn [Qnum Qden] in *.
  rewrite Z.mul_1_r in H. cbn in H. subst a. reflexivity.
Qed.

Lemma throwIf_Ok (cond : bool) (e : Error) (u : unit) :
  throwIf cond e = Ok u -> cond = false.
Proof. destruct cond; [discriminate | reflexivity]. Qed.

Lemma validateJudgeResponse_invariant (data : JSON) (r : JudgeResponse) :
  validateJudgeResponse data = Ok r -> verdictInvariant r.
Proof.
  unfold validateJudgeResponse.
  destruct data as [| | | | |fields]; try discriminate.
  intros H.
  repeat match goal with
         | H : andThen _ _ = Ok _ |- _ =>
             apply andThen_Ok in H; destruct H as (? & ? & H)
         end.
  match goal with
  | Hx : match ?x with JNumber _ => _ | _ => _ end = Ok ?xp |- _ =>
      destruct x as [| |n| | |]; try discriminate Hx;
      destruct (negb (Qle_bool 0 n) || negb (Number_isInteger n)) eqn:Hchk;
      [discriminate Hx | apply Ok_inj in Hx; subst xp]
  end.
  apply orb_false_iff in Hchk. destruct Hchk as [Hle Hint].
  apply negb_false_iff in Hle. apply negb_false_iff in Hint.
  injection H as <-. unfold verdictInvariant.
  cbn [jr_verdict jr_xp jr_statChanges].
  match goal with
  | Hf : match ?verdict with verdict_success => _ | verdict_fail => _ end = Ok _,
    Hs : match ?verdict with verdict_success => _ | verdict_fail => _ end = Ok _
    |- _ => destruct verdict
  end.
  - (* success *)
    match goal with
    | Hs : andThen (throwIf (Qeq_bool n 0) _) _ = Ok _ |- _ =>
        apply andThen_Ok in Hs; destruct Hs as (u & Hz & Hentries)
    end.
    apply throwIf_Ok in Hz. split.
    + apply integer_xp_positive; assumption.
    + apply validateStatEntries_Ok.
      match goal with u : unit |- _ => destruct u end.
      match goal with
      | Hv : validateStatEntries _ = Ok ?t |- _ => destruct t; exact Hv
      end.
  - (* fail *)
    match goal with
    | Hf : andThen (throwIf (negb (Qeq_bool n 0)) _) _ = Ok _ |- _ =>
        apply andThen_Ok in Hf; destruct Hf as (u & Hz & Hempty)
    end.
    apply throwIf_Ok in Hz. apply negb_false_iff in Hz.
    apply throwIf_Ok in Hempty. apply Z.ltb_ge in Hempty.
    split; [apply zero_xp_floor; exact Hz|].
    match goal with
    | |- asNumberRecord ?l = [] => destruct l; [reflexivity | cbn in Hempty; lia]
    end.
Qed.

(** X6. Whatever the oracle answers, the response [judgeTask] returns obeys
    the verdict invariant: a fail has XP 0 and no stat changes; a success
    has a positive XP and changes only known stats, by whole numbers.  The
    fallback is such a success. *)
Theorem judgeTask_verdict_invariant (reply : OracleReply) (task : Task) :
  verdictInvariant (judgeTask reply task)
  /\ verdictInvariant (getDeterministicFallback task)
  /\ forall data r, validateJudgeResponse data = Ok r -> verdictInvariant r.
Proof.
  assert (Hfb : verdictInvariant (getDeterministicFallback task)).
  { unfold verdictInvariant, getDeterministicFallback.
    cbn [jr_verdict jr_xp jr_statChanges]. split.
    - destruct (task_difficulty task); reflexivity.
    - constructor; [|constructor]. cbn [fst snd]. split; [|reflexivity].
      destruct (task_targetStat task); cbn; tauto. }
  split; [|split; [exact Hfb | exact validateJudgeResponse_invariant]].
  unfold judgeTask. destruct (askJudge reply) as [r|e] eqn:Hask; [|exact Hfb].
  destruct reply; try discriminate Hask.
  exact (validateJudgeResponse_invariant _ _ Hask).
Qed.

Lemma judgeTask_verdict_invariant_witness :
  verdictInvariant
    (mkJudgeResponse verdict_success 30 [("physical", 2%Q)] EmptyString).
Proof.
  destruct (judgeTask_verdict_invariant ApiFailure
              (mkTask 1 daily easy "Take a 45-minute walk or run" physical 25 0))
    as (_ & _ & Hvalid).
  apply (Hvalid emptyCommentResponse). reflexivity.
Defined.

Lemma statName_valid (stat : StatType) :
  existsb (String.eqb (statName stat)) VALID_STAT_NAMES = true.
Proof. destruct stat; reflexivity. Qed.

Lemma Number_isInteger_inject_Z (z : Z) : Number_isInteger (inject_Z z) = true.
Proof.
  unfold Number_isInteger, inject_Z. cbn [Qnum Qden].
  rewrite Z.mod_1_r. reflexivity.
Qed.

Lemma validateStatEntries_encode (changes : list (StatType * Z)) :
  validateStatEntries (encodeStatChanges changes) = Ok tt
  /\ asNumberRecord (encodeStatChanges changes) = decodedStatChanges changes.
Proof.
  induction changes as [|[stat delta] rest [IHv IHa]]; [split; reflexivity|].
  split.
  - cbn [encodeStatChanges map validateStatEntries fst snd].
    rewrite statName_valid, Number_isInteger_inject_Z. cbn [negb]. exact IHv.
  - unfold asNumberRecord, encodeStatChanges, decodedStatChanges in *.
    cbn [map flat_map fst snd app]. f_equal. exact IHa.
Qed.

(** X7. A response object is accepted, and returned field by field, when
    it is a success with a positive whole XP, a stat-change object of known
    stats with whole-number deltas and a string comment, or a fail with XP
    0, an empty stat-change object and a string comment; fields may come in
    any order and further fields are ignored. *)
Theorem validateJudgeResponse_accepts
    (fields : list (string * JSON)) (comment : string) :
  getField "comment" fields = Some (JString comment) ->
  (forall xp changes,
      getField "verdict" fields = Some (JString "success") ->
      getField "xp" fields = Some (JNumber (inject_Z xp)) ->
      0 < xp ->
      getField "statChanges" fields = Some (JObject (encodeStatChanges changes)) ->
      validateJudgeResponse (JObject fields)
      = Ok (mkJudgeResponse verdict_success xp (decodedStatChanges changes) comment))
  /\ (getField "verdict" fields = Some (JString "fail") ->
      getField "xp" fields = Some (JNumber 0%Q) ->
      getField "statChanges" fields = Some (JObject []) ->
      validateJudgeResponse (JObject fields)
      = Ok (mkJudgeResponse verdict_fail 0 [] comment)).
Proof.
  intros Hcomment. split.
  - intros xp changes Hverdict Hxp Hpos Hchanges.
    unfold validateJudgeResponse.
    rewrite Hverdict, Hxp, Hchanges, Hcomment.
    cbn [required andThen String.eqb Ascii.eqb Bool.eqb].
    rewrite Number_isInteger_inject_Z.
    assert (Hle : Qle_bool 0 (inject_Z xp) = true).
    { unfold Qle_bool, inject_Z. cbn [Qnum Qden]. apply Z.leb_le. lia. }
    assert (Hne : Qeq_bool (inject_Z xp) 0 = false).
    { destruct (Qeq_bool (inject_Z xp) 0) eqn:Heq; [|reflexivity].
      apply Qeq_bool_iff in Heq. unfold Qeq, inject_Z in Heq.
      cbn [Qnum Qden] in Heq. lia. }
    rewrite Hle. cbn [negb orb andThen required].
    rewrite Hne. cbn [negb andThen throwIf].
    destruct (validateStatEntries_encode changes) as [Hv Ha].
    rewrite Hv, Ha. cbn [andThen]. rewrite Qfloor_Z. reflexivity.
  - intros Hverdict Hxp Hchanges.
    unfold validateJudgeResponse.
    rewrite Hverdict, Hxp, Hchanges, Hcomment. reflexivity.
Qed.

Lemma validateJudgeResponse_accepts_witness :
  validateJudgeResponse
    (JObject [ ("comment", JString "Task completed satisfactorily.");
               ("model", JString "gpt-4.1-mini");
               ("statChanges", JObject (encodeStatChanges [(physical, 2)]));
               ("xp", JNumber (inject_Z 30));
               ("verdict", JString "success") ])
  = Ok (mkJudgeResponse verdict_success 30 [("physical", 2%Q)]
          "Task completed satisfactorily.").
Proof.
  apply (proj1 (validateJudgeResponse_accepts
                  [ ("comment", JString "Task completed satisfactorily.");
                    ("model", JString "gpt-4.1-mini");
                    ("statChanges", JObject (encodeStatChanges [(physical, 2)]));
                    ("xp", JNumber (inject_Z 30));
                    ("verdict", JString "success") ]
                  "Task completed satisfactorily." eq_refl)
               30 [(physical, 2)]);
    reflexivity.
Defined.

(* ------------------------------------------------------------------ *)
(** ** The severity index *)

Lemma fold_left_weights (recent : list (TaskLog * Task)) (acc : Z) :
  fold_left
    (fun a lt => a + DIFFICULTY_MULTIPLIERS (task_difficulty (snd lt)))
    recent acc
  = acc + weightSum (map (fun lt => task_difficulty (snd lt)) recent).
Proof.
  revert acc. induction recent as [|lt rest IH]; intros acc.
  - cbn. lia.
  - cbn [fold_left map]. rewrite IH. unfold weightSum. cbn [map fold_right]. lia.
Qed.

Lemma streak_floor (sum n : Z) :
  0 <= n ->
  Math_floor (ofZ sum * Qmin (ofZ n * (1 # 10) + 1) 2)
  = if n <=? 10 then sum * (n + 10) / 10 else 2 * sum.
Proof.
  intros Hn. unfold Math_floor.
  assert (Hform : (ofZ n * (1 # 10) + 1 == (n + 10) # 10)%Q).
  { unfold Qeq, Qplus, Qmult, ofZ, inject_Z. cbn [Qnum Qden]. cbn. lia. }
  destruct (Q.min_spec (ofZ n * (1 # 10) + 1) 2) as [[Hlt Hmin] | [Hle Hmin]].
  - rewrite Hmin, Hform.
    rewrite Hform in Hlt. unfold Qlt in Hlt. cbn in Hlt.
    destruct (Z.leb_spec n 10); [|lia].
    unfold Qfloor, Qmult, ofZ, inject_Z. cbn [Qnum Qden]. reflexivity.
  - rewrite Hmin. rewrite Hform in Hle. unfold Qle in Hle. cbn in Hle.
    assert (Hq : Qfloor (ofZ sum * 2) = 2 * sum).
    { unfold Qfloor, Qmult, ofZ, inject_Z. cbn [Qnum Qden].
      rewrite Z.div_1_r. lia. }
    rewrite Hq.
    destruct (Z.leb_spec n 10); [|reflexivity].
    assert (n = 10) by lia. subst n.
    replace (sum * (10 + 10)) with ((2 * sum) * 10) by lia.
    rewrite Z.div_mul by lia. reflexivity.
Qed.

Lemma calculatePSI_psiOf (now playerId : Z) (db : DB) :
  calculatePSI now playerId db = psiOf (missedDifficulties now playerId db).
Proof.
  unfold calculatePSI, psiOf, missedDifficulties.
  rewrite length_map.
  destruct (Z.of_nat (List.length (recentMissedTasks now playerId db)) =? 0);
    [reflexivity|].
  rewrite fold_left_weights, Z.add_0_l.
  apply streak_floor. lia.
Qed.

Lemma weightSum_bounds (ds : list Difficulty) :
  Z.of_nat (List.length ds) <= weightSum ds <= 4 * Z.of_nat (List.length ds).
Proof.
  unfold weightSum. induction ds as [|d ds IH]; [cbn; lia|].
  cbn [map fold_right List.length]. rewrite Nat2Z.inj_succ.
  destruct d; cbn [DIFFICULTY_MULTIPLIERS]; lia.
Qed.

Lemma weightSum_app (ds more : list Difficulty) :
  weightSum (ds ++ more) = weightSum ds + weightSum more.
Proof.
  unfold weightSum. induction ds as [|d ds IH]; [cbn; lia|].
  cbn [app map fold_right]. rewrite IH. lia.
Qed.

Lemma weightSum_harder (ds ds' : list Difficulty) :
  Forall2 (fun d d' => difficultyIndex d <= difficultyIndex d') ds ds' ->
  weightSum ds <= weightSum ds' /\ List.length ds = List.length ds'.
Proof.
  unfold weightSum. induction 1 as [|d d' ds ds' Hd _ [IHw IHl]]; [split; cbn; lia|].
  cbn [map fold_right List.length]. split; [|lia].
  destruct d, d'; cbn [DIFFICULTY_MULTIPLIERS difficultyIndex] in *; lia.
Qed.

Lemma psiOf_monotone (ds ds1 more : list Difficulty) :
  Forall2 (fun d d' => difficultyIndex d <= difficultyIndex d') ds ds1 ->
  psiOf ds <= psiOf (ds1 ++ more).
Proof.
  intros Hharder.
  destruct (weightSum_harder ds ds1 Hharder) as [Hw Hl].
  pose proof (weightSum_bounds ds) as Hb.
  pose proof (weightSum_bounds more) as Hm.
  unfold psiOf. rewrite weightSum_app, length_app, Nat2Z.inj_add, <- Hl.
  set (n := Z.of_nat (List.length ds)) in *.
  set (m := Z.of_nat (List.length more)) in *.
  assert (0 <= n) by (subst n; lia). assert (0 <= m) by (subst m; lia).
  set (s := weightSum ds) in *. set (s1 := weightSum ds1) in *.
  set (sm := weightSum more) in *.
  destruct (Z.eqb_spec n 0) as [Hn0|Hn0].
  - destruct (Z.eqb_spec (n + m) 0); [lia|].
    destruct (Z.leb_spec (n + m) 10); [apply Z.div_pos; nia | lia].
  - destruct (Z.eqb_spec (n + m) 0); [lia|].
    destruct (Z.leb_spec n 10), (Z.leb_spec (n + m) 10); try lia.
    + apply Z.div_le_mono; [lia | nia].
    + apply Z.div_le_upper_bound; [lia | nia].
Qed.

(** X8. The severity index is 0 exactly when no missed task counts, and is
    otherwise at least the number of missed tasks and at most eight times
    that number; it never decreases when missed tasks become harder or more
    numerous. *)
Theorem calculatePSI_monotone (now playerId : Z) (db : DB) :
  (calculatePSI now playerId db = 0 <-> missedDifficulties now playerId db = [])
  /\ Z.of_nat (List.length (missedDifficulties now playerId db))
     <= calculatePSI now playerId db
     <= 8 * Z.of_nat (List.length (missedDifficulties now playerId db))
  /\ forall now' db' harder more,
       Forall2 (fun d d' => difficultyIndex d <= difficultyIndex d')
               (missedDifficulties now playerId db) harder ->
       missedDifficulties now' playerId db' = (harder ++ more)%list ->
       calculatePSI now playerId db <= calculatePSI now' playerId db'.
Proof.
  rewrite calculatePSI_psiOf.
  set (ds := missedDifficulties now playerId db).
  pose proof (weightSum_bounds ds) as Hb.
  assert (Hrange : Z.of_nat (List.length ds) <= psiOf ds
                   <= 8 * Z.of_nat (List.length ds)).
  { unfold psiOf. set (n := Z.of_nat (List.length ds)) in *.
    assert (0 <= n) by (subst n; lia).
    destruct (Z.eqb_spec n 0); [lia|].
    destruct (Z.leb_spec n 10); [|lia]. split.
    - apply Z.div_le_lower_bound; [lia | nia].
    - apply Z.div_le_upper_bound; [lia | nia]. }
  split; [|split; [exact Hrange|]].
  - split.
    + intros Hz. destruct ds as [|d ds']; [reflexivity|].
      cbn [List.length] in Hrange. lia.
    + intros ->. reflexivity.
  - intros now' db' harder more Hharder Hmore.
    rewrite calculatePSI_psiOf, Hmore. apply psiOf_monotone. exact Hharder.
Qed.

Lemma calculatePSI_monotone_witness :
  let now := 1700000000000 in
  let log id taskId := mkTaskLog id taskId 1 missed None None (now - 1000) in
  let task id difficulty :=
    mkTask id daily difficulty "Take a 45-minute walk or run" physical 25
           (now - 2000) in
  let db := mkDB [] [] [task 1 easy] [log 1 1] [] [] in
  let db' := mkDB [] [] [task 1 medium; task 2 hard] [log 1 1; log 2 2] [] [] in
  calculatePSI now 1 db <= calculatePSI now 1 db'.
Proof.
  intros now log task db db'.
  apply (proj2 (proj2 (calculatePSI_monotone now 1 db)) now db' [medium] [hard]).
  - constructor; [cbn; lia | constructor].
  - reflexivity.
Defined.

(* ------------------------------------------------------------------ *)
(** ** Applying a penalty *)

Lemma applyPenalty_no_stats (db : DB) (now playerId psi : Z) :
  5 <= psi < 10 ->
  Stats_findOne playerId db = None ->
  applyPenalty now playerId psi db = (Throw (StatsNotFound playerId), db).
Proof.
  intros H Hnone. unfold applyPenalty.
  destruct (Z.ltb_spec psi 5); [lia|].
  destruct (Z.leb_spec 5 psi); [|lia].
  destruct (Z.ltb_spec psi 10); [|lia]. cbn [andb].
  unfold bind at 1. rewrite applyStatChange_not_found by exact Hnone.
  reflexivity.
Qed.

Lemma applyPenalty_no_player (db : DB) (now playerId psi : Z) :
  10 <= psi < 20 ->
  Player_findByPk playerId db = None ->
  applyPenalty now playerId psi db = (Throw (PlayerNotFound playerId), db).
Proof.
  intros H Hnone. unfold applyPenalty.
  destruct (Z.ltb_spec psi 5); [lia|].
  destruct (Z.leb_spec 5 psi); [|lia].
  destruct (Z.ltb_spec psi 10); [lia|]. cbn [andb].
  destruct (Z.leb_spec 10 psi); [|lia].
  destruct (Z.ltb_spec psi 20); [|lia]. cbn [andb].
  unfold bind at 1. rewrite addXp_not_found by exact Hnone.
  reflexivity.
Qed.

(** A penalty that is applied records one sanction, named by its band. *)
Lemma applyPenalty_Ok (db db' : DB) (now playerId psi : Z) (kind : string) :
  applyPenalty now playerId psi db = (Ok kind, db') ->
  kind = penaltyBand psi
  /\ exists reason expiresAt,
       penalties db'
       = (penalties db ++ [newPenalty db now playerId reason psi expiresAt])%list.
Proof.
  intros Hrun. unfold penaltyBand.
  destruct (Z.ltb_spec psi 5) as [H5|H5].
  { rewrite applyPenalty_warning in Hrun by exact H5.
    injection Hrun as <- <-. split; [reflexivity|].
    exists missed_task, None. reflexivity. }
  destruct (Z.ltb_spec psi 10) as [H10|H10].
  { destruct (Stats_findOne playerId db) as [stats|] eqn:Hstats.
    - rewrite (applyPenalty_stat_decay db now playerId psi stats) in Hrun
        by (lia || exact Hstats).
      injection Hrun as <- <-. split; [reflexivity|].
      exists missed_task, None. reflexivity.
    - rewrite applyPenalty_no_stats in Hrun by (lia || exact Hstats).
      discriminate Hrun. }
  destruct (Z.ltb_spec psi 20) as [H20|H20].
  { destruct (Player_findByPk playerId db) as [player|] eqn:Hplayer.
    - destruct (applyPenalty_xp_loss db now playerId psi player ltac:(lia) Hplayer)
        as (player' & db1 & Hadd & _ & Happly).
      destruct (addXp_result db playerId (- Math_round (ofZ psi * 2)) player Hplayer)
        as (p2 & db2 & Hadd2 & _ & _ & _ & _ & _ & _ & _ & _ & Hpen & _).
      rewrite Hadd in Hadd2. injection Hadd2 as _ <-.
      rewrite Happly in Hrun. injection Hrun as <- <-.
      split; [reflexivity|].
      exists xp_loss, (Some (now + 24 * 60 * 60 * 1000)).
      unfold withPenalty, set_penalties. cbn [penalties]. rewrite Hpen.
      reflexivity.
    - rewrite applyPenalty_no_player in Hrun by (lia || exact Hplayer).
      discriminate Hrun. }
  rewrite applyPenalty_rank_lock in Hrun by lia.
  injection Hrun as <- <-. split; [reflexivity|].
  eexists rank_lock, _. reflexivity.
Qed.

(** X9. A penalty whose effect cannot be applied is not recorded: in the
    stat_decay band without a stats row, and in the xp_loss band without the
    player, [applyPenalty] throws and leaves the database as it was.  When
    it returns, it has added exactly one sanction row, of the given
    severity, and returns the name of the band. *)
Theorem applyPenalty_records_one_sanction (db : DB) (now playerId psi : Z) :
  (5 <= psi < 10 ->
   Stats_findOne playerId db = None ->
   applyPenalty now playerId psi db = (Throw (StatsNotFound playerId), db))
  /\ (10 <= psi < 20 ->
      Player_findByPk playerId db = None ->
      applyPenalty now playerId psi db = (Throw (PlayerNotFound playerId), db))
  /\ (forall kind db',
         applyPenalty now playerId psi db = (Ok kind, db') ->
         kind = penaltyBand psi
         /\ exists sanction,
              penalties db' = (penalties db ++ [sanction])%list
              /\ penalty_playerId sanction = playerId
              /\ penalty_severity sanction = psi
              /\ penalty_createdAt sanction = now).
Proof.
  split; [apply applyPenalty_no_stats|].
  split; [apply applyPenalty_no_player|].
  intros kind db' Hrun.
  destruct (applyPenalty_Ok db db' now playerId psi kind Hrun)
    as (Hkind & reason & expiresAt & Hrows).
  split; [exact Hkind|].
  exists (newPenalty db now playerId reason psi expiresAt).
  repeat split; try reflexivity. exact Hrows.
Qed.

Lemma applyPenalty_records_one_sanction_witness :
  let db := mkDB [mkPlayer 1 RankE 1 100] [] [] [] [] [] in
  applyPenalty 1700000000000 1 7 db = (Throw (StatsNotFound 1), db)
  /\ applyPenalty 1700000000000 2 15 db = (Throw (PlayerNotFound 2), db)
  /\ exists sanction,
       penalties (snd (applyPenalty 1700000000000 1 15 db)) = ([] ++ [sanction])%list
       /\ penalty_severity sanction = 15.
Proof.
  intros db.
  destruct (applyPenalty_records_one_sanction db 1700000000000 1 7) as (Hs & _).
  destruct (applyPenalty_records_one_sanction db 1700000000000 2 15) as (_ & Hp & _).
  destruct (applyPenalty_records_one_sanction db 1700000000000 1 15) as (_ & _ & Hok).
  split; [apply Hs; [lia | reflexivity]|].
  split; [apply Hp; [lia | reflexivity]|].
  destruct (Hok "xp_loss" (snd (applyPenalty 1700000000000 1 15 db)) eq_refl)
    as (_ & sanction & Hrows & _ & Hsev & _).
  exists sanction. split; [exact Hrows | exact Hsev].
Defined.

(** X10. [applyMissPenalty] reports the severity index it computed.  With
    no missed task in the window it reports "none" and writes nothing.
    Otherwise, when it returns, the index is positive, the penalty reported
    is the band of the index (never "none") and exactly one sanction row has
    been added. *)
Theorem applyMissPenalty_outcomes (db : DB) (now playerId : Z) :
  (missedDifficulties now playerId db = [] ->
   applyMissPenalty now playerId db
   = (Ok (mkMissPenaltyResult 0 "none" "No penalty applied."), db))
  /\ (forall result db',
         applyMissPenalty now playerId db = (Ok result, db') ->
         missedDifficulties now playerId db <> [] ->
         mp_psi result = calculatePSI now playerId db
         /\ 0 < mp_psi result
         /\ mp_penalty result = penaltyBand (mp_psi result)
         /\ mp_penalty result <> "none"
         /\ exists sanction,
              penalties db' = (penalties db ++ [sanction])%list
              /\ penalty_severity sanction = mp_psi result).
Proof.
  destruct (calculatePSI_monotone now playerId db) as (Hzero & Hrange & _).
  split.
  - intros Hnone. unfold applyMissPenalty, bind at 1, gets at 1.
    rewrite (proj2 Hzero Hnone). reflexivity.
  - intros result db' Hrun Hsome.
    assert (Hpos : 0 < calculatePSI now playerId db).
    { destruct (missedDifficulties now playerId db); [now elim Hsome|].
      cbn [List.length] in Hrange. lia. }
    unfold applyMissPenalty, bind at 1, gets at 1 in Hrun.
    destruct (Z.eqb_spec (calculatePSI now playerId db) 0) as [|_]; [lia|].
    unfold bind at 1 in Hrun.
    destruct (applyPenalty now playerId (calculatePSI now playerId db) db)
      as [[kind|e] db1] eqn:Happly; [|discriminate Hrun].
    unfold ret in Hrun. injection Hrun as <- <-.
    cbn [mp_psi mp_penalty].
    destruct (applyPenalty_Ok _ _ _ _ _ _ Happly) as (Hkind & reason & exp & Hrows).
    split; [reflexivity|]. split; [exact Hpos|]. split; [exact Hkind|].
    split.
    + rewrite Hkind. unfold penaltyBand.
      destruct (_ <? 5); [discriminate|].
      destruct (_ <? 10); [discriminate|].
      destruct (_ <? 20); discriminate.
    + eexists. split; [exact Hrows | reflexivity].
Qed.

Lemma applyMissPenalty_outcomes_witness :
  let now := 1700000000000 in
  let db := mkDB [mkPlayer 1 RankE 1 0] []
                 [mkTask 1 daily hard "Take a 45-minute walk or run" physical 25
                         (now - 2000)]
                 [mkTaskLog 1 1 1 missed None None (now - 1000)] [] [] in
  applyMissPenalty now 2 db
  = (Ok (mkMissPenaltyResult 0 "none" "No penalty applied."), db)
  /\ mp_penalty
       (match fst (applyMissPenalty now 1 db) with
        | Ok result => result
        | Throw _ => mkMissPenaltyResult 0 "none" "No penalty applied."
        end)
     = "warning".
Proof.
  intros now db. split.
  - apply (proj1 (applyMissPenalty_outcomes db now 2)). reflexivity.
  - destruct (applyMissPenalty now 1 db) as [[result|e] db'] eqn:Hrun;
      [|vm_compute in Hrun; discriminate Hrun].
    destruct (proj2 (applyMissPenalty_outcomes db now 1) result db' Hrun)
      as (Hpsi & _ & Hband & _).
    { vm_compute. discriminate. }
    cbn [fst]. rewrite Hband, Hpsi. vm_compute. reflexivity.
Defined.

(* ------------------------------------------------------------------ *)
(** ** Active sanctions and their cleanup *)

Lemma insertByCreatedAtDesc_sorted (p : Penalty) (sorted : list Penalty) :
  Sorted (fun a b => penalty_createdAt b <= penalty_createdAt a) sorted ->
  Sorted (fun a b => penalty_createdAt b <= penalty_createdAt a)
         (insertByCreatedAtDesc p sorted).
Proof.
  induction sorted as [|q rest IH]; intros Hs; cbn [insertByCreatedAtDesc].
  - repeat constructor.
  - destruct (Z.ltb_spec (penalty_createdAt q) (penalty_createdAt p)).
    + constructor; [exact Hs|]. constructor. lia.
    + inversion Hs as [|? ? Hrest Hhd]; subst.
      constructor; [apply IH; exact Hrest|].
      destruct rest as [|r rest']; cbn [insertByCreatedAtDesc].
      * constructor. lia.
      * destruct (penalty_createdAt r <? penalty_createdAt p);
          constructor; [lia|]. inversion Hhd; assumption.
Qed.

Lemma orderByCreatedAtDesc_sorted (rows : list Penalty) :
  Sorted (fun a b => penalty_createdAt b <= penalty_createdAt a)
         (orderByCreatedAtDesc rows).
Proof.
  induction rows as [|p rows IH]; cbn [orderByCreatedAtDesc fold_right].
  - constructor.
  - apply insertByCreatedAtDesc_sorted. exact IH.
Qed.

Lemma insertByCreatedAtDesc_length (p : Penalty) (sorted : list Penalty) :
  List.length (insertByCreatedAtDesc p sorted) = S (List.length sorted).
Proof.
  induction sorted as [|q rest IH]; cbn [insertByCreatedAtDesc]; [reflexivity|].
  destruct (penalty_createdAt q <? penalty_createdAt p); cbn [List.length];
    [reflexivity | rewrite IH; reflexivity].
Qed.

Lemma orderByCreatedAtDesc_length (rows : list Penalty) :
  List.length (orderByCreatedAtDesc rows) = List.length rows.
Proof.
  induction rows as [|p rows IH]; cbn [orderByCreatedAtDesc fold_right];
    [reflexivity|].
  rewrite insertByCreatedAtDesc_length. fold (orderByCreatedAtDesc rows).
  rewrite IH. reflexivity.
Qed.

Lemma insertByCreatedAtDesc_Permutation (p : Penalty) (sorted : list Penalty) :
  Permutation (insertByCreatedAtDesc p sorted) (p :: sorted).
Proof.
  induction sorted as [|q rest IH]; cbn [insertByCreatedAtDesc].
  - apply Permutation_refl.
  - destruct (penalty_createdAt q <? penalty_createdAt p).
    + apply Permutation_refl.
    + apply Permutation_trans with (q :: p :: rest).
      * apply perm_skip. exact IH.
      * apply perm_swap.
Qed.

Lemma orderByCreatedAtDesc_Permutation (rows : list Penalty) :
  Permutation (orderByCreatedAtDesc rows) rows.
Proof.
  induction rows as [|p rows IH]; cbn [orderByCreatedAtDesc fold_right].
  - apply Permutation_refl.
  - apply Permutation_trans with (p :: orderByCreatedAtDesc rows).
    + apply insertByCreatedAtDesc_Permutation.
    + apply perm_skip. exact IH.
Qed.

(** X11. [getActivePenalties] lists exactly the player's sanctions that
    have no expiry or expire after the given moment, each as often as it is
    stored, the most recently created first. *)
Theorem getActivePenalties_newest_first (db : DB) (now playerId : Z) :
  (forall p,
      In p (getActivePenalties now playerId db)
      <-> In p (penalties db)
          /\ penalty_playerId p = playerId
          /\ (penalty_expiresAt p = None
              \/ exists e, penalty_expiresAt p = Some e /\ now < e))
  /\ Sorted (fun a b => penalty_createdAt b <= penalty_createdAt a)
            (getActivePenalties now playerId db)
  /\ (List.length (getActivePenalties now playerId db)
      <= List.length (penalties db))%nat
  /\ Permutation
       (getActivePenalties now playerId db)
       (filter (fun p => (penalty_playerId p =? playerId)
                         && (expiresNever p || expiresAfter now p))
               (penalties db)).
Proof.
  split; [|split; [|split]].
  - intros p. unfold getActivePenalties.
    rewrite orderByCreatedAtDesc_In, filter_In.
    unfold expiresNever, expiresAfter.
    split.
    + intros [Hin Hsel]. split; [exact Hin|].
      apply andb_true_iff in Hsel. destruct Hsel as [Hid Hexp].
      apply Z.eqb_eq in Hid. split; [exact Hid|].
      destruct (penalty_expiresAt p) as [e|]; [|left; reflexivity].
      right. exists e. split; [reflexivity|].
      cbn [orb] in Hexp. apply Z.ltb_lt. exact Hexp.
    + intros (Hin & Hid & Hexp). split; [exact Hin|].
      apply andb_true_iff. split; [apply Z.eqb_eq; exact Hid|].
      destruct Hexp as [-> | (e & -> & Hlt)]; [reflexivity|].
      cbn [orb]. apply Z.ltb_lt. exact Hlt.
  - apply orderByCreatedAtDesc_sorted.
  - unfold getActivePenalties. rewrite orderByCreatedAtDesc_length.
    apply filter_length_le.
  - apply orderByCreatedAtDesc_Permutation.
Qed.

Lemma filter_split_length {X} (P : X -> bool) (rows : list X) :
  (List.length (filter P rows)
   + List.length (filter (fun x => negb (P x)) rows))%nat
  = List.length rows.
Proof.
  induction rows as [|r rows IH]; [reflexivity|].
  cbn [filter]. destruct (P r); cbn [negb List.length]; lia.
Qed.

Lemma filter_filter_implied {X} (P Q : X -> bool) (rows : list X) :
  (forall x, In x rows -> P x = true -> Q x = true) ->
  filter P (filter Q rows) = filter P rows.
Proof.
  induction rows as [|r rows IH]; intros H; [reflexivity|].
  cbn [filter].
  destruct (Q r) eqn:HQ; cbn [filter].
  - destruct (P r); rewrite IH; auto; intros; apply H; auto; now right.
  - destruct (P r) eqn:HP.
    + rewrite (H r (or_introl eq_refl) HP) in HQ. discriminate.
    + apply IH. intros; apply H; auto; now right.
Qed.

Lemma existsb_filter_implied {X} (P Q : X -> bool) (rows : list X) :
  (forall x, In x rows -> P x = true -> Q x = true) ->
  existsb P (filter Q rows) = existsb P rows.
Proof.
  induction rows as [|r rows IH]; intros H; [reflexivity|].
  cbn [filter existsb].
  destruct (Q r) eqn:HQ; cbn [existsb].
  - rewrite IH; auto; intros; apply H; auto; now right.
  - destruct (P r) eqn:HP.
    + rewrite (H r (or_introl eq_refl) HP) in HQ. discriminate.
    + cbn [orb]. apply IH. intros; apply H; auto; now right.
Qed.

(** X12. [cleanupExpiredPenalties] returns the number of rows it removes
    and touches no other table; a second cleanup at the same moment removes
    nothing; and from the moment of the cleanup on, the active sanctions of
    every player and every rank lock are what they were without it. *)
Theorem cleanupExpiredPenalties_keeps_active (db : DB) (now : Z) :
  let result := cleanupExpiredPenalties now db in
  let db' := snd result in
  (exists count,
      fst result = Ok count
      /\ count
         = Z.of_nat (List.length (penalties db))
           - Z.of_nat (List.length (penalties db')))
  /\ (players db' = players db /\ statsTable db' = statsTable db
      /\ tasks db' = tasks db /\ taskLogs db' = taskLogs db
      /\ narratives db' = narratives db)
  /\ cleanupExpiredPenalties now db' = (Ok 0, db')
  /\ forall later playerId,
       now <= later ->
       getActivePenalties later playerId db' = getActivePenalties later playerId db
       /\ isRankLocked later playerId db' = isRankLocked later playerId db.
Proof.
  intros result db'. subst result db'.
  unfold cleanupExpiredPenalties, set_penalties.
  cbn [fst snd players statsTable tasks taskLogs narratives penalties].
  split; [|split; [repeat split | split]].
  - eexists. split; [reflexivity|].
    pose proof (filter_split_length (expiresBefore now) (penalties db)). lia.
  - assert (Hnone : filter (expiresBefore now)
                      (filter (fun p => negb (expiresBefore now p)) (penalties db))
                    = []).
    { induction (penalties db) as [|p rows IH]; [reflexivity|].
      cbn [filter]. destruct (expiresBefore now p) eqn:Hp; cbn [negb filter].
      - exact IH.
      - rewrite Hp. exact IH. }
    rewrite Hnone. cbn [List.length Z.of_nat]. f_equal. f_equal.
    apply filter_filter_implied. intros; assumption.
  - intros later playerId Hlater.
    assert (Hkeep : forall p,
               (expiresNever p || expiresAfter later p) = true ->
               negb (expiresBefore now p) = true).
    { intros p. unfold expiresNever, expiresAfter, expiresBefore.
      destruct (penalty_expiresAt p) as [e|]; [|reflexivity].
      cbn [orb]. intros H. apply Z.ltb_lt in H.
      apply negb_true_iff. apply Z.ltb_ge. lia. }
    split.
    + unfold getActivePenalties. cbn [penalties]. f_equal.
      apply filter_filter_implied. intros p _ Hsel.
      apply andb_true_iff in Hsel. apply Hkeep. apply Hsel.
    + unfold isRankLocked. cbn [penalties].
      apply existsb_filter_implied. intros p _ Hsel.
      apply andb_true_iff in Hsel. destruct Hsel as [_ Hexp].
      apply Hkeep. rewrite Hexp. apply orb_true_r.
Qed.

Lemma cleanupExpiredPenalties_keeps_active_witness :
  let now := 1700000000000 in
  let db := mkDB [] [] [] []
                 [ mkPenalty 1 1 xp_loss 12 (Some (now - 60000)) (now - DAY_MS);
                   mkPenalty 2 1 rank_lock 25 (Some (now + 5 * DAY_MS)) (now - 1000);
                   mkPenalty 3 1 missed_task 2 None (now - 500) ] [] in
  fst (cleanupExpiredPenalties now db) = Ok 1
  /\ isRankLocked (now + DAY_MS) 1 (snd (cleanupExpiredPenalties now db))
     = isRankLocked (now + DAY_MS) 1 db.
Proof.
  intros now db.
  destruct (cleanupExpiredPenalties_keeps_active db now)
    as ((count & Hcount & Hval) & _ & _ & Hlater).
  split.
  - rewrite Hcount. f_equal. rewrite Hval. reflexivity.
  - apply (Hlater (now + DAY_MS) 1). unfold now, DAY_MS. lia.
Defined.

(* ------------------------------------------------------------------ *)
(** ** Generating the daily task *)

Lemma weakestOf_spec (stats : Stats) (stat : StatType) :
  getStat stats (weakestOf stats) <= getStat stats stat
  /\ (getStat stats stat = getStat stats (weakestOf stats) ->
      statIndex (weakestOf stats) <= statIndex stat).
Proof.
  unfold weakestOf. cbn [fold_left fst snd].
  rewrite Z.ltb_irrefl. cbn [fst snd].
  destruct (Z.ltb_spec (stats_intelligence stats) (stats_physical stats));
    cbn [fst snd];
    match goal with
    | |- context [stats_discipline stats <? ?b] =>
        destruct (Z.ltb_spec (stats_discipline stats) b)
    end; cbn [fst snd];
    match goal with
    | |- context [stats_charisma stats <? ?b] =>
        destruct (Z.ltb_spec (stats_charisma stats) b)
    end; cbn [fst snd];
    match goal with
    | |- context [stats_confidence stats <? ?b] =>
        destruct (Z.ltb_spec (stats_confidence stats) b)
    end; cbn [fst snd];
    match goal with
    | |- context [stats_creativity stats <? ?b] =>
        destruct (Z.ltb_spec (stats_creativity stats) b)
    end; cbn [fst snd];
    destruct stat; cbn [getStat statIndex]; lia.
Qed.

(** X13. [getWeakestStat] returns a stat of the lowest value, and among
    several of that value the first in the order physical, intelligence,
    discipline, charisma, confidence, creativity; it throws when the player
    has no stats row. *)
Theorem getWeakestStat_lowest_first (db : DB) (playerId : Z) :
  (Stats_findOne playerId db = None ->
   getWeakestStat playerId db = (Throw (StatsNotFound playerId), db))
  /\ forall stats,
       Stats_findOne playerId db = Some stats ->
       exists weakest,
         getWeakestStat playerId db = (Ok weakest, db)
         /\ forall stat,
              getStat stats weakest <= getStat stats stat
              /\ (getStat stats stat = getStat stats weakest ->
                  statIndex weakest <= statIndex stat).
Proof.
  split.
  - intros H. unfold getWeakestStat, bind, gets. rewrite H. reflexivity.
  - intros stats H. exists (weakestOf stats). split.
    + unfold getWeakestStat, bind, gets. rewrite H. reflexivity.
    + apply weakestOf_spec.
Qed.

Lemma getWeakestStat_lowest_first_witness :
  let db := mkDB [] [mkStats 1 1 40 30 50 30 50 50] [] [] [] [] in
  getWeakestStat 1 db = (Ok intelligence, db)
  /\ getWeakestStat 2 db = (Throw (StatsNotFound 2), db).
Proof.
  intros db.
  destruct (getWeakestStat_lowest_first db 1) as (_ & Hsome).
  destruct (getWeakestStat_lowest_first db 2) as (Hnone & _).
  split; [|apply Hnone; reflexivity].
  destruct (Hsome (mkStats 1 1 40 30 50 30 50 50) eq_refl) as (weakest & Hrun & Hlow).
  rewrite Hrun. f_equal. f_equal.
  pose proof (Hlow intelligence) as [H1 H2].
  pose proof (Hlow physical) as [H3 _].
  destruct weakest; cbn [getStat stats_physical stats_intelligence
    stats_discipline stats_charisma stats_confidence stats_creativity statIndex]
    in *; try lia; try reflexivity.
Defined.

(** X14. More recent failures never make the next task harder, a higher
    rank never makes it easier, and from three recent failures on the task
    is easy whatever the rank. *)
Theorem calculateDifficultyScaling_monotone :
  (forall failures failures' rank,
      0 <= failures -> failures <= failures' ->
      difficultyIndex (calculateDifficultyScaling failures' rank)
      <= difficultyIndex (calculateDifficultyScaling failures rank))
  /\ (forall failures rank rank',
         rankIndex rank <= rankIndex rank' ->
         difficultyIndex (calculateDifficultyScaling failures rank)
         <= difficultyIndex (calculateDifficultyScaling failures rank'))
  /\ (forall failures rank,
         3 <= failures -> calculateDifficultyScaling failures rank = easy).
Proof.
  split; [|split].
  - intros failures failures' rank H0 Hle. unfold calculateDifficultyScaling.
    destruct (Z.eqb_spec failures 0), (Z.eqb_spec failures' 0),
      (Z.leb_spec failures 2), (Z.leb_spec failures' 2),
      (Z.leb_spec failures 5), (Z.leb_spec failures' 5);
      try lia; destruct rank; cbn [difficultyIndex]; lia.
  - intros failures rank rank' Hle. unfold calculateDifficultyScaling.
    destruct (failures =? 0), (failures <=? 2), (failures <=? 5);
      destruct rank, rank'; cbn [difficultyIndex rankIndex] in *; lia.
  - intros failures rank H. unfold calculateDifficultyScaling.
    destruct (Z.eqb_spec failures 0); [lia|].
    destruct (Z.leb_spec failures 2); [lia|].
    destruct (failures <=? 5); reflexivity.
Qed.

Lemma calculateDifficultyScaling_monotone_witness :
  difficultyIndex (calculateDifficultyScaling 2 RankSS)
  <= difficultyIndex (calculateDifficultyScaling 0 RankSS)
  /\ difficultyIndex (calculateDifficultyScaling 0 RankD)
     <= difficultyIndex (calculateDifficultyScaling 0 RankA)
  /\ calculateDifficultyScaling 4 RankSS = easy.
Proof.
  destruct calculateDifficultyScaling_monotone as (Hf & Hr & He).
  split; [apply Hf; lia|]. split; [apply Hr; cbn; lia | apply He; lia].
Defined.

Lemma Math_round_times (b : Z) (p q : positive) :
  Math_round (ofZ b * (Z.pos p # q)) = (2 * Z.pos p * b + Z.pos q) / (2 * Z.pos q).
Proof.
  unfold Math_round.
  assert (Heq : (ofZ b * (Z.pos p # q) + (1 # 2)
                 == (2 * Z.pos p * b + Z.pos q) # (2 * q))%Q).
  { unfold Qeq, Qmult, Qplus, ofZ, inject_Z. cbn [Qnum Qden].
    rewrite ?Pos2Z.inj_mul. ring. }
  rewrite Heq. unfold Qfloor. rewrite Pos2Z.inj_mul. reflexivity.
Qed.

Lemma random_floor (random : Q) (k : Z) :
  (0 <= random)%Q -> (random < 1)%Q -> 0 < k ->
  0 <= Math_floor (random * ofZ k) <= k - 1.
Proof.
  intros H0 H1 Hk. unfold Math_floor, ofZ. split.
  - rewrite <- (Qfloor_Z 0). apply Qfloor_resp_le.
    apply Qmult_le_0_compat; [exact H0|].
    change 0%Q with (inject_Z 0). rewrite <- Zle_Qle. lia.
  - apply Z.lt_succ_r. replace (Z.succ (k - 1)) with k by lia.
    rewrite Zlt_Qlt.
    apply Qle_lt_trans with (random * inject_Z k)%Q; [apply Qfloor_le|].
    rewrite <- (Qmult_1_l (inject_Z k)) at 2.
    apply Qmult_lt_compat_r; [|exact H1].
    change 0%Q with (inject_Z 0). rewrite <- Zlt_Qlt. lia.
Qed.

Lemma xpReward_bounds (d : Difficulty) (random : Q) :
  (0 <= random)%Q -> (random < 1)%Q ->
  let template := xpRange d in
  let baseXp :=
    Math_floor (random * ofZ (snd template - fst template + 1)) + fst template in
  fst (rewardBounds d) <= calculateXpReward d baseXp <= snd (rewardBounds d).
Proof.
  intros H0 H1 template baseXp. subst template baseXp.
  unfold calculateXpReward.
  destruct d; cbn [xpRange fst snd rewardBounds];
    match goal with
    | |- context [Math_floor (random * ofZ ?k)] =>
        pose proof (random_floor random k H0 H1 ltac:(lia)) as Hb;
        set (f := Math_floor (random * ofZ k)) in *; clearbody f
    end;
    rewrite Math_round_times;
    match goal with
    | |- context [(2 * Z.pos ?p * ?b + Z.pos ?q) / (2 * Z.pos ?q)] =>
        let c := eval compute in (2 * Z.pos p) in
        let d := eval compute in (2 * Z.pos q) in
        change (2 * Z.pos p) with c; change (2 * Z.pos q) with d
    end; Z.div_mod_to_equations; lia.
Qed.

Lemma endOfDay_bounds (now : Z) : now <= endOfDay now < now + DAY_MS.
Proof.
  unfold endOfDay, startOfDay.
  pose proof (Z.mod_pos_bound now DAY_MS ltac:(reflexivity)). lia.
Qed.

Lemma generateDailyTask_run (w : World) (playerId : Z) (db : DB)
    (stats : Stats) (player : Player) :
  Stats_findOne playerId db = Some stats ->
  Player_findByPk playerId db = Some player ->
  exists type description difficulty xpReward,
    let task :=
      mkTask (nextId (map task_id (tasks db))) type difficulty description
             (weakestOf stats) xpReward (endOfDay (w_now w)) in
    let log :=
      mkTaskLog (nextId (map tl_id (taskLogs db))) (task_id task) playerId
                pending None None (w_now w) in
    generateDailyTask w playerId db
    = (Ok task,
       mkDB (players db) (statsTable db) (tasks db ++ [task])%list
            (taskLogs db ++ [log])%list (penalties db) (narratives db))
    /\ (forall suggestion,
           w_quest w playerId = Ok suggestion ->
           type = qs_type suggestion
           /\ description = qs_description suggestion
           /\ difficulty = qs_difficulty suggestion)
    /\ (forall e,
           w_quest w playerId = Throw e ->
           type = daily
           /\ difficulty
              = calculateDifficultyScaling
                  (countRecentFailures
                     (getRecentTaskHistory (w_now w) playerId 21 db))
                  (player_rank player)
           /\ ((0 <= w_randomDescription w)%Q ->
               (w_randomDescription w < 1)%Q ->
               In description (DAILY_QUEST_DESCRIPTIONS (weakestOf stats))))
    /\ ((0 <= w_randomXp w)%Q -> (w_randomXp w < 1)%Q ->
        fst (rewardBounds difficulty) <= xpReward <= snd (rewardBounds difficulty)).
Proof.
  intros Hstats Hplayer.
  unfold generateDailyTask, getWeakestStat.
  unfold bind at 1. unfold bind at 1. unfold gets at 1. rewrite Hstats.
  unfold ret at 1. unfold bind at 1. unfold gets at 1. rewrite Hplayer.
  unfold bind at 1. unfold gets at 1. rewrite Hstats.
  unfold bind at 1. unfold gets at 1.
  cbv zeta.
  match goal with
  | |- context [Task_create ?ty ?di ?de ?ts ?xp ?dl] =>
      exists ty, de, di, xp
  end.
  split; [|split; [|split]].
  - replace (if StatType_eqb _ (weakestOf stats) then weakestOf stats
             else weakestOf stats) with (weakestOf stats)
      by (destruct (StatType_eqb _ _); reflexivity).
    reflexivity.
  - intros suggestion Hq. rewrite Hq. repeat split; reflexivity.
  - intros e Hq. rewrite Hq. cbn [qs_type qs_difficulty qs_description].
    split; [reflexivity|]. split; [reflexivity|].
    intros Hr0 Hr1. unfold getRandomDescription. apply nth_In.
    assert (Hlen : 0 < Z.of_nat (List.length
                           (DAILY_QUEST_DESCRIPTIONS (weakestOf stats))))
      by (destruct (weakestOf stats); reflexivity).
    pose proof (random_floor (w_randomDescription w) _ Hr0 Hr1 Hlen). lia.
  - intros Hr0 Hr1. apply xpReward_bounds; assumption.
Qed.

(** X15. [generateDailyTask] throws, writing nothing, when the player has
    no stats row or does not exist.  Otherwise it stores one task: aimed at
    the player's weakest stat whatever the quest suggestion says, due at the
    end of the current day, with a reward inside the bounds of its
    difficulty; and one pending log of that task for the player, without
    evidence. *)
Theorem generateDailyTask_targets_weakest (w : World) (playerId : Z) (db : DB) :
  (Stats_findOne playerId db = None ->
   generateDailyTask w playerId db = (Throw (StatsNotFound playerId), db))
  /\ (forall stats,
         Stats_findOne playerId db = Some stats ->
         Player_findByPk playerId db = None ->
         generateDailyTask w playerId db = (Throw (PlayerNotFound playerId), db))
  /\ (forall stats player,
         Stats_findOne playerId db = Some stats ->
         Player_findByPk playerId db = Some player ->
         exists task log db',
           generateDailyTask w playerId db = (Ok task, db')
           /\ task_targetStat task = weakestOf stats
           /\ task_deadline task = endOfDay (w_now w)
           /\ w_now w <= task_deadline task < w_now w + DAY_MS
           /\ tasks db' = (tasks db ++ [task])%list
           /\ taskLogs db' = (taskLogs db ++ [log])%list
           /\ log = mkTaskLog (nextId (map tl_id (taskLogs db))) (task_id task)
                              playerId pending None None (w_now w)
           /\ players db' = players db
           /\ statsTable db' = statsTable db
           /\ penalties db' = penalties db
           /\ (forall suggestion,
                  w_quest w playerId = Ok suggestion ->
                  task_difficulty task = qs_difficulty suggestion
                  /\ task_description task = qs_description suggestion)
           /\ ((0 <= w_randomXp w)%Q -> (w_randomXp w < 1)%Q ->
               fst (rewardBounds (task_difficulty task))
               <= task_xpReward task
               <= snd (rewardBounds (task_difficulty task)))).
Proof.
  split; [|split].
  - intros Hnone. unfold generateDailyTask, getWeakestStat, bind, gets.
    rewrite Hnone. reflexivity.
  - intros stats Hstats Hnone.
    unfold generateDailyTask, getWeakestStat, bind, gets, ret.
    rewrite Hstats, Hnone. reflexivity.
  - intros stats player Hstats Hplayer.
    destruct (generateDailyTask_run w playerId db stats player Hstats Hplayer)
      as (type & description & difficulty & xpReward & Hrun & Hsugg & _ & Hxp).
    cbv zeta in Hrun.
    eexists. eexists. eexists. split; [exact Hrun|].
    cbn [task_targetStat task_deadline task_id task_difficulty task_description
         task_xpReward tasks taskLogs players statsTable penalties].
    split; [reflexivity|]. split; [reflexivity|].
    split; [apply endOfDay_bounds|].
    split; [reflexivity|]. split; [reflexivity|]. split; [reflexivity|].
    split; [reflexivity|]. split; [reflexivity|]. split; [reflexivity|].
    split; [|exact Hxp].
    intros suggestion Hq. destruct (Hsugg suggestion Hq) as (_ & -> & ->).
    split; reflexivity.
Qed.

Lemma generateDailyTask_targets_weakest_witness :
  let stats := mkStats 1 1 50 50 30 50 50 50 in
  let db := mkDB [mkPlayer 1 RankSS 1 0] [stats] [] [] [] [] in
  let w := mkWorld 1700000000000 (fun _ => ApiFailure)
                   (fun _ => Throw OpenAICallFailed)
                   (fun _ => Ok (mkQuestSuggestion boss "Run a marathon" extreme
                                                   physical))
                   0%Q (1 # 2) in
  exists task db',
    generateDailyTask w 1 db = (Ok task, db')
    /\ task_targetStat task = discipline
    /\ 200 <= task_xpReward task <= 240
    /\ generateDailyTask w 2 db = (Throw (StatsNotFound 2), db).
Proof.
  intros stats db w.
  destruct (generateDailyTask_targets_weakest w 1 db) as (_ & _ & Hok).
  destruct (generateDailyTask_targets_weakest w 2 db) as (Hnone & _).
  destruct (Hok stats (mkPlayer 1 RankSS 1 0) eq_refl eq_refl)
    as (task & log & db' & Hrun & Htarget & _ & _ & _ & _ & _ & _ & _ & _
        & Hsugg & Hxp).
  exists task, db'. split; [exact Hrun|]. split; [exact Htarget|].
  destruct (Hsugg _ eq_refl) as [Hdiff _].
  rewrite Hdiff in Hxp. cbn [qs_difficulty rewardBounds fst snd] in Hxp.
  split; [apply Hxp; [discriminate | reflexivity]|].
  apply Hnone. reflexivity.
Defined.

Lemma find_app_last {X} (P : X -> bool) (rows : list X) (x : X) :
  (forall r, In r rows -> P r = false) ->
  P x = true ->
  find P (rows ++ [x]) = Some x.
Proof.
  induction rows as [|r rows IH]; intros Hnone Hx; cbn [app find].
  - rewrite Hx. reflexivity.
  - rewrite (Hnone r (or_introl eq_refl)). apply IH; [|exact Hx].
    intros; apply Hnone; now right.
Qed.

Lemma map_replace_fresh {X} (key : X -> Z) (rows : list X) (new : X) :
  (forall r, In r rows -> key r <> key new) ->
  map (fun r => if key r =? key new then new else r) rows = rows.
Proof.
  induction rows as [|r rows IH]; intros H; [reflexivity|].
  cbn [map]. destruct (Z.eqb_spec (key r) (key new)) as [Heq|_].
  - now elim (H r (or_introl eq_refl)).
  - f_equal. apply IH. intros; apply H; now right.
Qed.

(** X16. Evidence submitted for a task that [generateDailyTask] has just
    created goes onto the pending log created with the task: [submitTask]
    does not fail on the deadline, adds no row, and returns that log with
    the evidence; a later submission with other evidence returns the same
    log and changes nothing.  (No stored log refers to a task that does not
    exist.) *)
Theorem submit_after_generate
    (w : World) (playerId : Z) (db : DB) (stats : Stats) (player : Player)
    (evidence other : string) :
  Stats_findOne playerId db = Some stats ->
  Player_findByPk playerId db = Some player ->
  logsReferToTasks db ->
  evidence <> EmptyString ->
  exists task db1 log db2,
    generateDailyTask w playerId db = (Ok task, db1)
    /\ submitTask (w_now w) (task_id task) playerId evidence db1 = (Ok log, db2)
    /\ log = mkTaskLog (nextId (map tl_id (taskLogs db))) (task_id task)
                       playerId pending (Some evidence) None (w_now w)
    /\ taskLogs db2 = (taskLogs db ++ [log])%list
    /\ tasks db2 = tasks db1
    /\ submitTask (w_now w) (task_id task) playerId other db2 = (Ok log, db2).
Proof.
  intros Hstats Hplayer Hrefer Hevidence.
  destruct (generateDailyTask_run w playerId db stats player Hstats Hplayer)
    as (type & description & difficulty & xpReward & Hrun & _).
  cbv zeta in Hrun.
  set (task := mkTask (nextId (map task_id (tasks db))) type difficulty
                      description (weakestOf stats) xpReward
                      (endOfDay (w_now w))) in *.
  set (initial := mkTaskLog (nextId (map tl_id (taskLogs db))) (task_id task)
                            playerId pending None None (w_now w)) in *.
  set (db1 := mkDB (players db) (statsTable db) (tasks db ++ [task])%list
                   (taskLogs db ++ [initial])%list (penalties db)
                   (narratives db)) in *.
  set (log := mkTaskLog (nextId (map tl_id (taskLogs db))) (task_id task)
                        playerId pending (Some evidence) None (w_now w)).
  assert (Hfresh : forall t, In t (tasks db) -> task_id t <> task_id task).
  { intros t Hin Heq. apply (nextId_fresh (map task_id (tasks db))).
    change (nextId (map task_id (tasks db))) with (task_id task).
    rewrite <- Heq. apply in_map. exact Hin. }
  assert (Hlogs : forall l, In l (taskLogs db) -> tl_taskId l <> task_id task).
  { intros l Hin Heq. apply (nextId_fresh (map task_id (tasks db))).
    change (nextId (map task_id (tasks db))) with (task_id task).
    rewrite <- Heq. apply Hrefer. exact Hin. }
  assert (Hlogids : forall l, In l (taskLogs db) -> tl_id l <> tl_id log).
  { intros l Hin Heq. apply (nextId_fresh (map tl_id (taskLogs db))).
    change (nextId (map tl_id (taskLogs db))) with (tl_id log).
    rewrite <- Heq. apply in_map. exact Hin. }
  assert (Htask : forall rows, Task_findByPk (task_id task)
             (mkDB (players db) (statsTable db) (tasks db ++ [task])%list
                   rows (penalties db) (narratives db)) = Some task).
  { intros rows. unfold Task_findByPk. cbn [tasks].
    apply find_app_last; [|apply Z.eqb_refl].
    intros t Hin. apply Z.eqb_neq. apply Hfresh. exact Hin. }
  assert (Hpending : forall l0 rows',
             tl_taskId l0 = task_id task -> tl_playerId l0 = playerId ->
             tl_status l0 = pending ->
             findPendingLog (task_id task) playerId
               (mkDB (players db) (statsTable db) rows'
                     (taskLogs db ++ [l0])%list (penalties db) (narratives db))
             = Some l0).
  { intros l0 rows' Ht Hp Hs. unfold findPendingLog. cbn [taskLogs].
    apply find_app_last.
    - intros l Hin. apply andb_false_iff. left. apply andb_false_iff. left.
      apply Z.eqb_neq. apply Hlogs. exact Hin.
    - rewrite Ht, Hp, Hs, !Z.eqb_refl. reflexivity. }
  pose proof (endOfDay_bounds (w_now w)) as Hday.
  assert (Hsubmit : submitTask (w_now w) (task_id task) playerId evidence db1
                    = (Ok log, snd (TaskLog_update log db1))).
  { rewrite (submitTask_existing db1 (w_now w) (task_id task) playerId evidence
               task initial (Htask _)).
    - reflexivity.
    - cbn [task task_deadline]. lia.
    - apply Hpending; reflexivity. }
  assert (Hdb2 : snd (TaskLog_update log db1)
                 = mkDB (players db) (statsTable db) (tasks db ++ [task])%list
                        (taskLogs db ++ [log])%list (penalties db)
                        (narratives db)).
  { unfold TaskLog_update, modify, set_taskLogs, db1.
    cbn [snd players statsTable tasks taskLogs penalties narratives].
    f_equal. rewrite map_app.
    rewrite (map_replace_fresh tl_id (taskLogs db) log Hlogids).
    cbn [map initial log tl_id]. rewrite Z.eqb_refl. reflexivity. }
  exists task, db1, log, (snd (TaskLog_update log db1)).
  split; [exact Hrun|]. split; [exact Hsubmit|]. split; [reflexivity|].
  rewrite Hdb2. cbn [taskLogs tasks]. split; [reflexivity|].
  split; [reflexivity|].
  rewrite (submitTask_existing _ (w_now w) (task_id task) playerId other
             task log (Htask _)).
  - assert (Hhas : noEvidence (tl_evidence log) = false).
    { cbn [log tl_evidence noEvidence].
      destruct (String.eqb_spec evidence EmptyString); [contradiction | reflexivity]. }
    rewrite Hhas. reflexivity.
  - cbn [task task_deadline]. lia.
  - apply Hpending; reflexivity.
Qed.

Lemma submit_after_generate_witness :
  let stats := mkStats 1 1 30 50 50 50 50 50 in
  let db := mkDB [mkPlayer 1 RankE 1 0] [stats] [] [] [] [] in
  let w := mkWorld 1700000000000 (fun _ => ApiFailure)
                   (fun _ => Throw OpenAICallFailed)
                   (fun _ => Throw OpenAICallFailed) 0%Q 0%Q in
  exists task db1 log db2,
    generateDailyTask w 1 db = (Ok task, db1)
    /\ submitTask 1700000000000 (task_id task) 1 "Completed my workout routine" db1
       = (Ok log, db2)
    /\ tl_evidence log = Some "Completed my workout routine"
    /\ List.length (taskLogs db2) = 1%nat.
Proof.
  intros stats db w.
  destruct (submit_after_generate w 1 db stats (mkPlayer 1 RankE 1 0)
              "Completed my workout routine" "again" eq_refl eq_refl)
    as (task & db1 & log & db2 & Hgen & Hsub & Hlog & Hrows & _).
  - intros l [].
  - discriminate.
  - exists task, db1, log, db2. split; [exact Hgen|]. split; [exact Hsub|].
    split; [rewrite Hlog; reflexivity | rewrite Hrows; reflexivity].
Defined.

(* ------------------------------------------------------------------ *)
(** ** Resolving a task *)

Lemma resolveTask_steps (taskLog : TaskLog) (resolution : TaskResolution)
    (narrative : option string) (db : DB) :
  resolveTask taskLog resolution narrative db
  = let db2 := afterVerdict taskLog resolution narrative db in
    let log' := resolvedLog taskLog resolution in
    if res_success resolution then
      match addXp (tl_playerId taskLog) (res_xpAwarded resolution) db2 with
      | (Ok _, db3) =>
          if hasKeys (res_statChanges resolution) then
            match applyStatChange (tl_playerId taskLog)
                    (res_statChanges resolution) db3 with
            | (Ok _, db4) => (Ok log', db4)
            | (Throw e, db4) => (Throw e, db4)
            end
          else (Ok log', db3)
      | (Throw e, db3) => (Throw e, db3)
      end
    else (Ok log', db2).
Proof.
  unfold resolveTask, afterVerdict, resolvedLog. cbv zeta.
  destruct (res_success resolution);
    destruct narrative as [[|c text]|];
    unfold bind, TaskLog_update, Narrative_create, modify, ret; cbn [snd fst];
    try reflexivity;
    match goal with
    | |- context [addXp ?p ?x ?d] =>
        destruct (addXp p x d) as [[pl|e] db3]; [|reflexivity]
    end;
    (destruct (hasKeys (res_statChanges resolution)); [|reflexivity]);
    match goal with
    | |- context [applyStatChange ?p ?c ?d] =>
        destruct (applyStatChange p c d) as [[st|e] db4]; reflexivity
    end.
Qed.

Lemma afterVerdict_frame (taskLog : TaskLog) (resolution : TaskResolution)
    (narrative : option string) (db : DB) :
  let db2 := afterVerdict taskLog resolution narrative db in
  players db2 = players db
  /\ statsTable db2 = statsTable db
  /\ tasks db2 = tasks db
  /\ penalties db2 = penalties db
  /\ taskLogs db2
     = map (fun r => if tl_id r =? tl_id taskLog
                     then resolvedLog taskLog resolution else r)
           (taskLogs db).
Proof.
  unfold afterVerdict. destruct narrative as [[|c text]|]; repeat split; reflexivity.
Qed.

Lemma afterVerdict_stores_log (taskLog : TaskLog) (resolution : TaskResolution)
    (narrative : option string) (db : DB) (stored : TaskLog) :
  TaskLog_findByPk (tl_id taskLog) db = Some stored ->
  TaskLog_findByPk (tl_id taskLog) (afterVerdict taskLog resolution narrative db)
  = Some (resolvedLog taskLog resolution).
Proof.
  intros Hfound. unfold TaskLog_findByPk.
  destruct (afterVerdict_frame taskLog resolution narrative db)
    as (_ & _ & _ & _ & ->).
  apply (find_replace tl_id (taskLogs db) stored (resolvedLog taskLog resolution)).
  exact Hfound.
Qed.



(* ------------------------------------------------------------------ *)
(** ** Judging a submission *)

Lemma judgeAndResolveTask_run (w : World) (taskLogId : Z) (db : DB)
    (taskLog : TaskLog) (task : Task) (stats : Stats) :
  TaskLog_findByPk taskLogId db = Some taskLog ->
  Task_findByPk (tl_taskId taskLog) db = Some task ->
  tl_status taskLog = pending ->
  noEvidence (tl_evidence taskLog) = false ->
  Stats_findOne (tl_playerId taskLog) db = Some stats ->
  judgeAndResolveTask w taskLogId db
  = resolveTask taskLog
      (convertJudgeResponseToResolution (judgeTask (w_judge w taskLog) task))
      (match w_narrator w taskLog with
       | Ok text => Some text
       | Throw _ => None
       end) db.
Proof.
  intros Hlog Htask Hpending Hevidence Hstats.
  unfold judgeAndResolveTask, bind at 1, gets at 1.
  rewrite Hlog, Htask, Hpending, Hevidence. cbn [TaskStatus_eqb negb].
  unfold bind at 1, gets at 1. rewrite Hstats. reflexivity.
Qed.

(** A call that returns went through [resolveTask]. *)
Lemma judgeAndResolveTask_Ok (w : World) (taskLogId : Z) (db db' : DB)
    (log : TaskLog) :
  judgeAndResolveTask w taskLogId db = (Ok log, db') ->
  exists taskLog task resolution narrative,
    TaskLog_findByPk taskLogId db = Some taskLog
    /\ Task_findByPk (tl_taskId taskLog) db = Some task
    /\ tl_playerId taskLog = tl_playerId log
    /\ resolveTask taskLog resolution narrative db = (Ok log, db').
Proof.
  intros Hrun. unfold judgeAndResolveTask, bind at 1, gets at 1 in Hrun.
  destruct (TaskLog_findByPk taskLogId db) as [taskLog|] eqn:Hlog;
    [|discriminate Hrun].
  destruct (Task_findByPk (tl_taskId taskLog) db) as [task|] eqn:Htask;
    [|discriminate Hrun].
  destruct (negb (TaskStatus_eqb (tl_status taskLog) pending)); [discriminate Hrun|].
  destruct (noEvidence (tl_evidence taskLog)); [discriminate Hrun|].
  unfold bind at 1, gets at 1 in Hrun.
  destruct (Stats_findOne (tl_playerId taskLog) db); [|discriminate Hrun].
  eexists taskLog, task, _, _.
  split; [reflexivity|]. split; [exact Htask|]. split; [|exact Hrun].
  rewrite resolveTask_steps in Hrun. cbv zeta in Hrun.
  assert (Hpid : forall r, tl_playerId (resolvedLog taskLog r) = tl_playerId taskLog)
    by reflexivity.
  repeat match type of Hrun with
         | (if ?c then _ else _) = _ => destruct c
         | match ?x with _ => _ end = _ => destruct x as [[?|?] ?]
         end;
    try discriminate Hrun; injection Hrun as <- _; reflexivity.
Qed.

Lemma resolveTask_Ok_frame (taskLog : TaskLog) (resolution : TaskResolution)
    (narrative : option string) (db db' : DB) (log stored : TaskLog) :
  TaskLog_findByPk (tl_id taskLog) db = Some stored ->
  resolveTask taskLog resolution narrative db = (Ok log, db') ->
  log = resolvedLog taskLog resolution
  /\ tasks db' = tasks db
  /\ TaskLog_findByPk (tl_id taskLog) db' = Some log.
Proof.
  intros Hstored Hrun.
  pose proof (afterVerdict_stores_log taskLog resolution narrative db stored
                Hstored) as Hlog.
  destruct (afterVerdict_frame taskLog resolution narrative db)
    as (Hplayers & _ & Htasks & _ & _).
  rewrite resolveTask_steps in Hrun. cbv zeta in Hrun.
  destruct (res_success resolution).
  - destruct (Player_findByPk (tl_playerId taskLog)
                (afterVerdict taskLog resolution narrative db))
      as [player|] eqn:Hplayer.
    + destruct (addXp_result _ (tl_playerId taskLog) (res_xpAwarded resolution)
                  player Hplayer)
        as (player' & db3 & Hadd & _ & _ & _ & _ & _ & _ & Ht3 & Htl3 & _).
      rewrite Hadd in Hrun.
      destruct (hasKeys (res_statChanges resolution)).
      * destruct (Stats_findOne (tl_playerId taskLog) db3) as [stats|] eqn:Hstats.
        -- destruct (applyStatChange_run db3 (tl_playerId taskLog)
                       (res_statChanges resolution) stats Hstats) as [Hchange _].
           rewrite Hchange in Hrun. injection Hrun as <- <-.
           split; [reflexivity|].
           unfold TaskLog_findByPk in *. cbn [snd Stats_update modify
             set_statsTable tasks taskLogs].
           rewrite Ht3, Htl3. split; assumption.
        -- rewrite applyStatChange_not_found in Hrun by exact Hstats.
           discriminate Hrun.
      * injection Hrun as <- <-. split; [reflexivity|].
        unfold TaskLog_findByPk in *. rewrite Ht3, Htl3. split; assumption.
    + rewrite addXp_not_found in Hrun by exact Hplayer. discriminate Hrun.
  - injection Hrun as <- <-. split; [reflexivity|]. split; assumption.
Qed.

(** X18. A task log is judged at most once: it must exist with its task,
    be pending and carry evidence, otherwise [judgeAndResolveTask] throws
    and writes nothing; and once a call has returned, the log is completed
    or failed and every further call for it throws "not pending", whatever
    the oracle would say. *)
Theorem judgeAndResolveTask_once (w : World) (taskLogId : Z) (db : DB) :
  (TaskLog_findByPk taskLogId db = None ->
   judgeAndResolveTask w taskLogId db = (Throw (TaskLogNotFound taskLogId), db))
  /\ (forall taskLog task,
         TaskLog_findByPk taskLogId db = Some taskLog ->
         Task_findByPk (tl_taskId taskLog) db = Some task ->
         tl_status taskLog <> pending ->
         judgeAndResolveTask w taskLogId db
         = (Throw (TaskLogNotPending taskLogId), db))
  /\ (forall taskLog task,
         TaskLog_findByPk taskLogId db = Some taskLog ->
         Task_findByPk (tl_taskId taskLog) db = Some task ->
         tl_status taskLog = pending ->
         noEvidence (tl_evidence taskLog) = true ->
         judgeAndResolveTask w taskLogId db
         = (Throw (TaskLogNoEvidence taskLogId), db))
  /\ (forall log db' w',
         judgeAndResolveTask w taskLogId db = (Ok log, db') ->
         (tl_status log = completed \/ tl_status log = failed)
         /\ judgeAndResolveTask w' taskLogId db'
            = (Throw (TaskLogNotPending taskLogId), db')).
Proof.
  split; [|split; [|split]].
  - intros Hnone. unfold judgeAndResolveTask, bind, gets. rewrite Hnone.
    reflexivity.
  - intros taskLog task Hlog Htask Hstatus.
    unfold judgeAndResolveTask, bind, gets. rewrite Hlog, Htask.
    destruct (tl_status taskLog); try reflexivity. now elim Hstatus.
  - intros taskLog task Hlog Htask Hstatus Hnone.
    unfold judgeAndResolveTask, bind, gets. rewrite Hlog, Htask, Hstatus, Hnone.
    reflexivity.
  - intros log db' w' Hrun.
    destruct (judgeAndResolveTask_Ok w taskLogId db db' log Hrun)
      as (taskLog & task & resolution & narrative & Hlog & Htask & _ & Hres).
    pose proof (find_some_id tl_id taskLogId _ _ Hlog) as Hid.
    rewrite <- Hid in Hlog.
    destruct (resolveTask_Ok_frame taskLog resolution narrative db db' log taskLog
                Hlog Hres) as (Hshape & Htasks & Hstored).
    assert (Hstatus : tl_status log = completed \/ tl_status log = failed).
    { rewrite Hshape. unfold resolvedLog. cbn [tl_status].
      destruct (res_success resolution); [left | right]; reflexivity. }
    split; [exact Hstatus|].
    rewrite Hid in Hstored.
    unfold judgeAndResolveTask, bind at 1, gets at 1. rewrite Hstored.
    assert (Htask' : Task_findByPk (tl_taskId log) db' = Some task).
    { unfold Task_findByPk in *. rewrite Htasks, Hshape. exact Htask. }
    rewrite Htask'.
    destruct Hstatus as [-> | ->]; reflexivity.
Qed.

Lemma judgeAndResolveTask_once_witness :
  let log := mkTaskLog 1 1 1 pending (Some "Walked for an hour") None 0 in
  let task := mkTask 1 daily easy "Take a 45-minute walk or run" physical 25 1000 in
  let db := mkDB [mkPlayer 1 RankE 1 0] [mkStats 1 1 30 50 50 50 50 50] [task]
                 [log; mkTaskLog 2 1 1 missed None None 0;
                  mkTaskLog 3 1 1 pending None None 0] [] [] in
  let w := mkWorld 500 (fun _ => ApiFailure) (fun _ => Throw OpenAICallFailed)
                   (fun _ => Throw OpenAICallFailed) 0%Q 0%Q in
  judgeAndResolveTask w 9 db = (Throw (TaskLogNotFound 9), db)
  /\ judgeAndResolveTask w 2 db = (Throw (TaskLogNotPending 2), db)
  /\ judgeAndResolveTask w 3 db = (Throw (TaskLogNoEvidence 3), db)
  /\ judgeAndResolveTask w 1 (snd (judgeAndResolveTask w 1 db))
     = (Throw (TaskLogNotPending 1), snd (judgeAndResolveTask w 1 db)).
Proof.
  intros log task db w.
  destruct (judgeAndResolveTask_once w 9 db) as (Hnone & _).
  destruct (judgeAndResolveTask_once w 2 db) as (_ & Hstatus & _).
  destruct (judgeAndResolveTask_once w 3 db) as (_ & _ & Hevidence & _).
  destruct (judgeAndResolveTask_once w 1 db) as (_ & _ & _ & Honce).
  split; [apply Hnone; reflexivity|].
  split; [apply (Hstatus (mkTaskLog 2 1 1 missed None None 0) task);
          reflexivity || discriminate|].
  split; [apply (Hevidence (mkTaskLog 3 1 1 pending None None 0) task);
          reflexivity|].
  destruct (judgeAndResolveTask w 1 db) as [[done|e] db'] eqn:Hrun;
    [|vm_compute in Hrun; discriminate Hrun].
  apply (Honce done db' w eq_refl).
Defined.

Lemma judgeTask_failure_gives_fallback_run
    (reply : OracleReply) (task : Task) (e : Error) :
  askJudge reply = Throw e ->
  judgeTask reply task = getDeterministicFallback task.
Proof. intros H. unfold judgeTask. rewrite H. reflexivity. Qed.

Lemma asStatChanges_fallback (target stat : StatType) :
  getDelta (asStatChanges [(statName target, 1%Q)]) stat
  = if StatType_eqb stat target then Some 1%Q else None.
Proof. destruct target, stat; reflexivity. Qed.

Lemma clampStat_plus_one (old : Z) :
  clampStat (ofZ old + 1) = Z.max 0 (Z.min 100 (old + 1)).
Proof.
  unfold clampStat. f_equal. f_equal.
  rewrite <- (Math_round_ofZ (old + 1)). apply Math_round_Qeq.
  unfold ofZ. rewrite inject_Z_plus. reflexivity.
Qed.

(** X19. With the judge unreachable, judging a pending log that carries
    evidence completes it with the fallback comment, adds the fallback XP of
    the task's difficulty to the player and raises the task's target stat
    by one, up to 100; the other stats keep their values. *)
Theorem judgeAndResolveTask_fallback
    (w : World) (taskLogId : Z) (db : DB)
    (taskLog : TaskLog) (task : Task) (stats : Stats) (player : Player) :
  judgeDown w ->
  TaskLog_findByPk taskLogId db = Some taskLog ->
  Task_findByPk (tl_taskId taskLog) db = Some task ->
  tl_status taskLog = pending ->
  noEvidence (tl_evidence taskLog) = false ->
  Stats_findOne (tl_playerId taskLog) db = Some stats ->
  Player_findByPk (tl_playerId taskLog) db = Some player ->
  statsInRange stats ->
  exists log db' player' stats',
    judgeAndResolveTask w taskLogId db = (Ok log, db')
    /\ tl_status log = completed
    /\ tl_aiVerdict log = Some "Task evaluated using system fallback."
    /\ TaskLog_findByPk taskLogId db' = Some log
    /\ Player_findByPk (tl_playerId taskLog) db' = Some player'
    /\ player_totalXp player'
       = player_totalXp player + DEFAULT_XP_BY_DIFFICULTY (task_difficulty task)
    /\ Stats_findOne (tl_playerId taskLog) db' = Some stats'
    /\ getStat stats' (task_targetStat task)
       = Z.min 100 (getStat stats (task_targetStat task) + 1)
    /\ forall stat,
         stat <> task_targetStat task ->
         getStat stats' stat = getStat stats stat.
Proof.
  intros Hdown Hlog Htask Hpending Hevidence Hstats Hplayer Hrange.
  destruct (Hdown taskLog) as [e Hfail].
  pose proof (find_some_id tl_id taskLogId _ _ Hlog) as Hid.
  rewrite (judgeAndResolveTask_run w taskLogId db taskLog task stats)
    by assumption.
  rewrite (judgeTask_failure_gives_fallback_run _ task e Hfail).
  set (resolution := convertJudgeResponseToResolution
                       (getDeterministicFallback task)).
  set (narrative := match w_narrator w taskLog with
                    | Ok text => Some text
                    | Throw _ => None
                    end).
  rewrite <- Hid in Hlog.
  pose proof (afterVerdict_stores_log taskLog resolution narrative db taskLog
                Hlog) as Hstored.
  destruct (afterVerdict_frame taskLog resolution narrative db)
    as (Hplayers & Hst & _ & _ & _).
  assert (Hplayer2 : Player_findByPk (tl_playerId taskLog)
                       (afterVerdict taskLog resolution narrative db)
                     = Some player)
    by (unfold Player_findByPk; rewrite Hplayers; exact Hplayer).
  destruct (addXp_result _ (tl_playerId taskLog) (res_xpAwarded resolution)
              player Hplayer2)
    as (player' & db3 & Hadd & Hback & _ & Htotal & _ & _ & Hst3 & _ & Htl3 & _).
  assert (Hstats3 : Stats_findOne (tl_playerId taskLog) db3 = Some stats)
    by (unfold Stats_findOne; rewrite Hst3, Hst; exact Hstats).
  destruct (applyStatChange_run db3 (tl_playerId taskLog)
              (res_statChanges resolution) stats Hstats3) as [Hchange Hread].
  assert (Hkeys : hasKeys (res_statChanges resolution) = true)
    by (unfold resolution, getDeterministicFallback;
        destruct (task_targetStat task); reflexivity).
  exists (resolvedLog taskLog resolution),
         (snd (Stats_update (updatedStats stats (res_statChanges resolution)) db3)),
         player', (updatedStats stats (res_statChanges resolution)).
  rewrite resolveTask_steps. cbv zeta.
  change (res_success resolution) with true. cbv iota.
  rewrite Hadd, Hkeys, Hchange.
  split; [reflexivity|]. split; [reflexivity|]. split; [reflexivity|].
  split.
  { rewrite <- Hid. unfold TaskLog_findByPk in *.
    cbn [snd Stats_update modify set_statsTable taskLogs].
    rewrite Htl3. exact Hstored. }
  split; [exact Hback|]. split; [exact Htotal|]. split; [exact Hread|].
  split.
  - rewrite updatedStats_getStat.
    change (res_statChanges resolution)
      with (asStatChanges [(statName (task_targetStat task), 1%Q)]).
    rewrite asStatChanges_fallback.
    replace (StatType_eqb (task_targetStat task) (task_targetStat task)) with true
      by (destruct (task_targetStat task); reflexivity).
    cbn [orZero]. rewrite clampStat_plus_one.
    pose proof (Hrange (task_targetStat task)). lia.
  - intros stat Hother. rewrite updatedStats_getStat.
    change (res_statChanges resolution)
      with (asStatChanges [(statName (task_targetStat task), 1%Q)]).
    rewrite asStatChanges_fallback.
    replace (StatType_eqb stat (task_targetStat task)) with false
      by (destruct stat, (task_targetStat task); try reflexivity; now elim Hother).
    cbn [orZero]. apply clampStat_unchanged. apply Hrange.
Qed.

Lemma judgeAndResolveTask_fallback_witness :
  let log := mkTaskLog 1 1 1 pending (Some "Completed my workout routine") None 0 in
  let task := mkTask 1 daily easy "Take a 45-minute walk or run" physical 25 1000 in
  let db := mkDB [mkPlayer 1 RankE 1 0] [mkStats 1 1 30 50 50 50 50 50] [task]
                 [log] [] [] in
  let w := mkWorld 500 (fun _ => ApiFailure) (fun _ => Throw OpenAICallFailed)
                   (fun _ => Throw OpenAICallFailed) 0%Q 0%Q in
  exists done db' player' stats',
    judgeAndResolveTask w 1 db = (Ok done, db')
    /\ tl_status done = completed
    /\ Player_findByPk 1 db' = Some player'
    /\ player_totalXp player' = 20
    /\ Stats_findOne 1 db' = Some stats'
    /\ getStat stats' physical = 31.
Proof.
  intros log task db w.
  destruct (judgeAndResolveTask_fallback w 1 db log task
              (mkStats 1 1 30 50 50 50 50 50) (mkPlayer 1 RankE 1 0))
    as (done & db' & player' & stats' & Hrun & Hstatus & _ & _ & Hplayer
        & Htotal & Hstats & Htarget & _);
    try reflexivity.
  - intros l. exists OpenAICallFailed. reflexivity.
  - intros stat. destruct stat; cbn; lia.
  - exists done, db', player', stats'.
    split; [exact Hrun|]. split; [exact Hstatus|]. split; [exact Hplayer|].
    split; [exact Htotal|]. split; [exact Hstats|].
    exact Htarget.
Defined.

(* ------------------------------------------------------------------ *)
(** ** Marking missed tasks *)

Lemma filter_nil_none {X} (P : X -> bool) (rows : list X) :
  filter P rows = [] -> forall x, In x rows -> P x = false.
Proof.
  intros Hnil x Hin. destruct (P x) eqn:HP; [|reflexivity].
  assert (Hx : In x (filter P rows)) by (apply filter_In; split; assumption).
  rewrite Hnil in Hx. destruct Hx.
Qed.

Lemma filter_map_none {X} (P : X -> bool) (f : X -> X) (rows : list X) :
  (forall x, In x rows -> P (f x) = false) -> filter P (map f rows) = [].
Proof.
  induction rows as [|r rows IH]; intros H; [reflexivity|].
  cbn [map filter]. rewrite (H r (or_introl eq_refl)).
  apply IH. intros; apply H; now right.
Qed.

Lemma listed_is_selected (P : TaskLog -> bool) (rows : list TaskLog) (l : TaskLog) :
  NoDup (map tl_id rows) ->
  In l rows ->
  existsb (Z.eqb (tl_id l)) (map tl_id (filter P rows)) = P l.
Proof.
  intros Hnd Hin. destruct (P l) eqn:HP.
  - apply existsb_exists. exists (tl_id l). split; [|apply Z.eqb_refl].
    apply in_map. apply filter_In. split; assumption.
  - destruct (existsb _ _) eqn:Hex; [|reflexivity].
    apply existsb_exists in Hex. destruct Hex as (id & Hid & Heq).
    apply Z.eqb_eq in Heq. subst id.
    apply in_map_iff in Hid. destruct Hid as (l' & Hsame & Hin').
    apply filter_In in Hin'. destruct Hin' as [Hin' HP'].
    rewrite (NoDup_map_eq tl_id rows l' l Hnd Hin' Hin Hsame) in HP'.
    congruence.
Qed.

Lemma checkAndMarkMissedTasks_run (now playerId : Z) (db : DB) :
  NoDup (map tl_id (taskLogs db)) ->
  checkAndMarkMissedTasks now playerId db
  = (Ok (map markMissed (filter (isMissable now playerId db) (taskLogs db))),
     mkDB (players db) (statsTable db) (tasks db)
          (map (fun l => if isMissable now playerId db l then markMissed l else l)
               (taskLogs db))
          (penalties db) (narratives db)).
Proof.
  intros Hnd. unfold checkAndMarkMissedTasks, bind at 1, gets at 1.
  fold (isMissable now playerId db).
  destruct (filter (isMissable now playerId db) (taskLogs db)) as [|m rest] eqn:Hsel.
  - cbn [List.length Z.of_nat Z.eqb map]. unfold ret.
    f_equal. destruct db as [ps st ts ls pens ns]. cbn [players statsTable tasks
      taskLogs penalties narratives] in *. f_equal.
    symmetry. erewrite map_ext_in; [apply map_id|].
    intros l Hin. cbv beta.
    rewrite (filter_nil_none _ _ Hsel l Hin). reflexivity.
  - rewrite <- Hsel.
    destruct (Z.eqb_spec (Z.of_nat (List.length
                (filter (isMissable now playerId db) (taskLogs db)))) 0)
      as [Hzero|_].
    { rewrite Hsel in Hzero. cbn [List.length] in Hzero. lia. }
    unfold bind at 1, modify at 1, gets, set_taskLogs.
    cbn [players statsTable tasks taskLogs penalties narratives].
    set (listed := fun l : TaskLog =>
           existsb (Z.eqb (tl_id l))
             (map tl_id (filter (isMissable now playerId db) (taskLogs db)))).
    assert (Hlisted : forall l, In l (taskLogs db) ->
               listed l = isMissable now playerId db l).
    { intros l Hin. apply listed_is_selected; assumption. }
    assert (Hrows :
      map (fun l => if listed l
                    then mkTaskLog (tl_id l) (tl_taskId l) (tl_playerId l) missed
                           (tl_evidence l) (tl_aiVerdict l) (tl_createdAt l)
                    else l) (taskLogs db)
      = map (fun l => if isMissable now playerId db l then markMissed l else l)
            (taskLogs db)).
    { apply map_ext_in. intros l Hin. rewrite (Hlisted l Hin). reflexivity. }
    unfold listed in Hrows at 1. cbv beta in Hrows. rewrite Hrows. f_equal. f_equal.
    rewrite filter_map_swap.
    rewrite (filter_ext_in
               (fun a => listed (if isMissable now playerId db a
                                 then markMissed a else a))
               (isMissable now playerId db)).
    + apply map_ext_in. intros l Hin. apply filter_In in Hin.
      destruct Hin as [_ ->]. reflexivity.
    + intros l Hin. cbv beta.
      destruct (isMissable now playerId db l) eqn:Hl.
      * change (listed (markMissed l)) with (listed l).
        rewrite (Hlisted l Hin). exact Hl.
      * rewrite (Hlisted l Hin). exact Hl.
Qed.

(** X20. On a table whose log ids are unique, [checkAndMarkMissedTasks]
    sets exactly the player's pending logs whose task deadline has passed to
    missed, returns them in that state and touches nothing else; afterwards
    no pending log of the player is overdue, and a second call at the same
    moment returns the empty list and writes nothing. *)
Theorem checkAndMarkMissedTasks_marks_overdue (now playerId : Z) (db : DB) :
  NoDup (map tl_id (taskLogs db)) ->
  exists missedLogs db',
    checkAndMarkMissedTasks now playerId db = (Ok missedLogs, db')
    /\ missedLogs
       = map markMissed (filter (isMissable now playerId db) (taskLogs db))
    /\ taskLogs db'
       = map (fun l => if isMissable now playerId db l then markMissed l else l)
             (taskLogs db)
    /\ (players db' = players db /\ statsTable db' = statsTable db
        /\ tasks db' = tasks db /\ penalties db' = penalties db)
    /\ (forall l, In l (taskLogs db') -> isMissable now playerId db' l = false)
    /\ checkAndMarkMissedTasks now playerId db' = (Ok [], db').
Proof.
  intros Hnd.
  rewrite (checkAndMarkMissedTasks_run now playerId db Hnd).
  eexists. eexists. split; [reflexivity|].
  cbn [taskLogs players statsTable tasks penalties].
  split; [reflexivity|]. split; [reflexivity|]. split; [repeat split|].
  set (db' := mkDB (players db) (statsTable db) (tasks db)
                (map (fun l => if isMissable now playerId db l
                               then markMissed l else l) (taskLogs db))
                (penalties db) (narratives db)).
  assert (Hsame : forall l, isMissable now playerId db' l = isMissable now playerId db l)
    by reflexivity.
  assert (Hnone : forall l, In l (taskLogs db) ->
             isMissable now playerId db'
               (if isMissable now playerId db l then markMissed l else l) = false).
  { intros l _. rewrite Hsame.
    destruct (isMissable now playerId db l) eqn:Hl; [|exact Hl].
    unfold isMissable. cbn [markMissed tl_status tl_playerId TaskStatus_eqb].
    rewrite andb_false_r. reflexivity. }
  split.
  - intros l Hin. cbn [db' taskLogs] in Hin. apply in_map_iff in Hin.
    destruct Hin as (l0 & <- & Hin0). apply Hnone. exact Hin0.
  - unfold checkAndMarkMissedTasks, bind at 1, gets at 1.
    fold (isMissable now playerId db').
    cbn [db' taskLogs]. rewrite (filter_map_none _ _ _ Hnone). reflexivity.
Qed.

Lemma checkAndMarkMissedTasks_marks_overdue_witness :
  let now := 1700000000000 in
  let db := mkDB [] []
                 [mkTask 1 daily easy "Take a 45-minute walk or run" physical 25
                         (now - 1000);
                  mkTask 2 daily easy "Do 50 push-ups or bodyweight exercises"
                         physical 25 (now + 1000)]
                 [mkTaskLog 1 1 1 pending (Some "Will complete later") None 0;
                  mkTaskLog 2 2 1 pending None None 0;
                  mkTaskLog 3 1 2 pending None None 0] [] [] in
  exists db',
    checkAndMarkMissedTasks now 1 db
    = (Ok [mkTaskLog 1 1 1 missed (Some "Will complete later") None 0], db')
    /\ checkAndMarkMissedTasks now 1 db' = (Ok [], db').
Proof.
  intros now db.
  destruct (checkAndMarkMissedTasks_marks_overdue now 1 db)
    as (missedLogs & db' & Hrun & Hlist & _ & _ & _ & Hagain).
  - cbn. repeat constructor; cbn; intuition lia.
  - exists db'. rewrite Hrun, Hlist. split; [reflexivity | exact Hagain].
Defined.

(* ------------------------------------------------------------------ *)
(** ** The quest generator and the narrator *)

Lemma option_map_Some_Some {X Y} (f : X -> option Y) (o : option X) (y : Y) :
  option_map f o = Some (Some y) -> exists v, o = Some v /\ f v = Some y.
Proof.
  destruct o as [v|]; cbn [option_map]; intros H; [|discriminate].
  exists v. split; [reflexivity|]. congruence.
Qed.

Lemma validateQuestSuggestion_inr (data : JSON) (requiredTargetStat : StatType)
    (quest : QuestSuggestion) :
  validateQuestSuggestion data requiredTargetStat = inr quest ->
  qs_targetStat quest = requiredTargetStat
  /\ trimIsEmpty (qs_description quest) = false
  /\ exists fields,
       data = JObject fields
       /\ (exists v, getField "type" fields = Some v
                     /\ parseTaskType v = Some (qs_type quest))
       /\ getField "description" fields = Some (JString (qs_description quest))
       /\ (exists v, getField "difficulty" fields = Some v
                     /\ parseDifficulty v = Some (qs_difficulty quest))
       /\ (exists v stat, getField "targetStat" fields = Some v
                          /\ parseStatType v = Some stat).
Proof.
  unfold validateQuestSuggestion.
  destruct data as [| | | |items|fields]; try discriminate.
  destruct (option_map parseTaskType (getField "type" fields))
    as [[type|]|] eqn:Htype; try discriminate.
  destruct (getField "description" fields) as [[| | |description| |]|] eqn:Hdesc;
    try discriminate.
  destruct (trimIsEmpty description) eqn:Hblank; try discriminate.
  destruct (option_map parseDifficulty (getField "difficulty" fields))
    as [[difficulty|]|] eqn:Hdiff; try discriminate.
  destruct (option_map parseStatType (getField "targetStat" fields))
    as [[stat|]|] eqn:Hstat; try discriminate.
  intros H. injection H as <-. cbn [qs_targetStat qs_description qs_type qs_difficulty].
  split; [reflexivity|]. split; [exact Hblank|].
  exists fields. split; [reflexivity|].
  split; [exact (option_map_Some_Some _ _ _ Htype)|].
  split; [exact Hdesc|].
  split; [exact (option_map_Some_Some _ _ _ Hdiff)|].
  destruct (option_map_Some_Some _ _ _ Hstat) as (v & Hv & Hparse).
  exists v, stat. split; assumption.
Qed.

Lemma fallbackDescriptions_not_blank (targetStat : StatType) (difficulty : Difficulty) :
  trimIsEmpty (fallbackDescriptions targetStat difficulty) = false.
Proof. destruct targetStat, difficulty; reflexivity. Qed.

(** X21. Whatever the quest model answers, [generateQuestSuggestion]
    returns a quest for the requested weakest stat with a description that
    is not blank.  The quest is either the deterministic fallback (a daily
    quest of the desired difficulty) or is read off an answer object whose
    type, description and difficulty are valid and whose [targetStat] names
    some stat: a different stat named there is overridden, not rejected. *)
Theorem generateQuestSuggestion_targets_weakest
    (reply : OracleReply) (weakestStat : StatType) (desiredDifficulty : Difficulty) :
  let quest := generateQuestSuggestion reply weakestStat desiredDifficulty in
  qs_targetStat quest = weakestStat
  /\ trimIsEmpty (qs_description quest) = false
  /\ (quest = getDeterministicQuestFallback weakestStat desiredDifficulty
      /\ qs_type quest = daily /\ qs_difficulty quest = desiredDifficulty
      \/ exists fields,
           reply = Parsed (JObject fields)
           /\ (exists v, getField "type" fields = Some v
                         /\ parseTaskType v = Some (qs_type quest))
           /\ getField "description" fields = Some (JString (qs_description quest))
           /\ (exists v, getField "difficulty" fields = Some v
                         /\ parseDifficulty v = Some (qs_difficulty quest))
           /\ (exists v stat, getField "targetStat" fields = Some v
                              /\ parseStatType v = Some stat)).
Proof.
  intros quest.
  assert (Hfallback :
    forall q, q = getDeterministicQuestFallback weakestStat desiredDifficulty ->
      qs_targetStat q = weakestStat
      /\ trimIsEmpty (qs_description q) = false
      /\ (q = getDeterministicQuestFallback weakestStat desiredDifficulty
          /\ qs_type q = daily /\ qs_difficulty q = desiredDifficulty
          \/ exists fields,
               reply = Parsed (JObject fields)
               /\ (exists v, getField "type" fields = Some v
                             /\ parseTaskType v = Some (qs_type q))
               /\ getField "description" fields = Some (JString (qs_description q))
               /\ (exists v, getField "difficulty" fields = Some v
                             /\ parseDifficulty v = Some (qs_difficulty q))
               /\ (exists v stat, getField "targetStat" fields = Some v
                                  /\ parseStatType v = Some stat))).
  { intros q ->. split; [reflexivity|].
    split; [apply fallbackDescriptions_not_blank|].
    left. repeat split; reflexivity. }
  subst quest. unfold generateQuestSuggestion.
  destruct reply as [| |content|data]; try (apply Hfallback; reflexivity).
  destruct (validateQuestSuggestion data weakestStat) as [e|validated] eqn:Hvalid;
    [apply Hfallback; reflexivity|].
  destruct (validateQuestSuggestion_inr _ _ _ Hvalid)
    as (Htarget & Hblank & fields & -> & Hrest).
  split; [exact Htarget|]. split; [exact Hblank|].
  right. exists fields. split; [reflexivity | exact Hrest].
Qed.

(** X22. [generateNarrative] never returns a blank text: it is the
    [narrative] string of the answer object when that is present and not
    blank, and otherwise the fixed sentence of the verdict. *)
Theorem generateNarrative_never_blank (reply : OracleReply) (verdict : Verdict) :
  let text := generateNarrative reply verdict in
  trimIsEmpty text = false
  /\ ((exists fields,
         reply = Parsed (JObject fields)
         /\ getField "narrative" fields = Some (JString text))
      \/ text = getDeterministicNarrativeFallback verdict
         /\ forall fields narrative,
              reply = Parsed (JObject fields) ->
              getField "narrative" fields = Some (JString narrative) ->
              trimIsEmpty narrative = true).
Proof.
  intros text. subst text. unfold generateNarrative.
  assert (Hfixed : trimIsEmpty (getDeterministicNarrativeFallback verdict) = false)
    by (destruct verdict; reflexivity).
  destruct reply as [| |content|data];
    try (split; [exact Hfixed|]; right; split; [reflexivity|];
         intros fields narrative Habs; discriminate Habs).
  unfold validateNarrativeResponse.
  destruct data as [| | | |items|fields];
    try (split; [exact Hfixed|]; right; split; [reflexivity|];
         intros fields' narrative Habs; discriminate Habs).
  destruct (getField "narrative" fields) as [[| | |narrative| |]|] eqn:Hfield;
    try (split; [exact Hfixed|]; right; split; [reflexivity|];
         intros fields' narrative' Heq Hget; injection Heq as <-;
         rewrite Hfield in Hget; discriminate Hget).
  destruct (trimIsEmpty narrative) eqn:Hblank.
  - split; [exact Hfixed|]. right. split; [reflexivity|].
    intros fields' narrative' Heq Hget. injection Heq as <-.
    rewrite Hfield in Hget. injection Hget as <-. exact Hblank.
  - split; [exact Hblank|]. left. exists fields. split; [reflexivity | exact Hfield].
Qed.

(* ------------------------------------------------------------------ *)
(** ** A day on which nothing is due *)

Lemma filter_all_false {X} (P : X -> bool) (rows : list X) :
  (forall x, In x rows -> P x = false) -> filter P rows = [].
Proof.
  induction rows as [|r rows IH]; intros H; [reflexivity|].
  cbn [filter]. rewrite (H r (or_introl eq_refl)).
  apply IH. intros; apply H; now right.
Qed.

Lemma TaskStatus_eqb_eq (a b : TaskStatus) : TaskStatus_eqb a b = true -> a = b.
Proof. destruct a, b; cbn; intros H; try discriminate; reflexivity. Qed.

(** Writing back a row that is already in a table with unique keys. *)
Lemma map_replace_same {X} (key : X -> Z) (rows : list X) (x : X) :
  NoDup (map key rows) -> In x rows ->
  map (fun r => if key r =? key x then x else r) rows = rows.
Proof.
  intros Hnd Hin. rewrite <- (map_id rows) at 2.
  apply map_ext_in. intros r Hr.
  destruct (Z.eqb_spec (key r) (key x)) as [Heq|_]; [|reflexivity].
  exact (NoDup_map_eq key rows x r Hnd Hin Hr (eq_sym Heq)).
Qed.

Lemma applyDailyDecay_no_change (now playerId : Z) (db : DB) (stats : Stats) :
  Stats_findOne playerId db = Some stats ->
  statsInRange stats ->
  NoDup (map stats_id (statsTable db)) ->
  exists result, applyDailyDecay now playerId db = (Ok result, db).
Proof.
  intros Hstats Hrange Hnd.
  destruct (hasCompletedDailyQuestToday now playerId db) eqn:Hday.
  - exists None. unfold applyDailyDecay, bind at 1, gets at 1.
    rewrite Hday. reflexivity.
  - destruct (applyDailyDecay_run now playerId db stats Hday Hstats Hrange)
      as [Hrun _].
    exists (Some stats). rewrite Hrun. f_equal.
    unfold Stats_update, modify, set_statsTable. cbn [snd].
    rewrite (map_replace_same stats_id (statsTable db) stats Hnd).
    + destruct db; reflexivity.
    + unfold Stats_findOne in Hstats. apply find_some in Hstats. apply Hstats.
Qed.

(** X23. In a stats table with unique ids, the daily flow of a player who
    has a stats row with every stat in range and whose pending logs, if any,
    are due more than an hour from now succeeds, and all it changes is the
    new daily quest: one task aimed at the weakest stat and due at the end
    of the day, with its pending log.  Players, stats, penalties and
    narratives stay as they were, whether the decay step ran or was
    skipped. *)
Theorem processPlayerDailyFlow_quiet_day
    (w : World) (playerId : Z) (db : DB) (stats : Stats) (player : Player) :
  Stats_findOne playerId db = Some stats ->
  Player_findByPk playerId db = Some player ->
  statsInRange stats ->
  NoDup (map stats_id (statsTable db)) ->
  (forall l t,
      In l (taskLogs db) -> tl_playerId l = playerId -> tl_status l = pending ->
      Task_findByPk (tl_taskId l) db = Some t ->
      w_now w + HOUR_MS < task_deadline t) ->
  exists task,
    processPlayerDailyFlow w playerId db
    = (Ok tt,
       mkDB (players db) (statsTable db) (tasks db ++ [task])%list
            (taskLogs db
             ++ [mkTaskLog (nextId (map tl_id (taskLogs db))) (task_id task)
                           playerId pending None None (w_now w)])%list
            (penalties db) (narratives db))
    /\ task_id task = nextId (map task_id (tasks db))
    /\ task_targetStat task = weakestOf stats
    /\ task_deadline task = endOfDay (w_now w).
Proof.
  intros Hstats Hplayer Hrange Hnd Hquiet.
  assert (Hlate : forall l, In l (taskLogs db) ->
            (tl_playerId l =? playerId) && TaskStatus_eqb (tl_status l) pending = true ->
            forall t, Task_findByPk (tl_taskId l) db = Some t ->
            w_now w + HOUR_MS < task_deadline t).
  { intros l Hin Hsel t Ht. apply andb_true_iff in Hsel. destruct Hsel as [Hp Hs].
    apply Z.eqb_eq in Hp. apply TaskStatus_eqb_eq in Hs.
    exact (Hquiet l t Hin Hp Hs Ht). }
  assert (Hnear : findPendingTasksNearDeadline (w_now w) playerId db = []).
  { unfold findPendingTasksNearDeadline. cbv zeta. apply filter_all_false.
    intros l Hin.
    destruct ((tl_playerId l =? playerId)
              && TaskStatus_eqb (tl_status l) pending) eqn:Hsel; [|reflexivity].
    cbn [andb]. destruct (Task_findByPk (tl_taskId l) db) as [t|] eqn:Ht;
      [|reflexivity].
    pose proof (Hlate l Hin Hsel t Ht).
    apply andb_false_iff. right. apply Z.leb_gt. lia. }
  assert (Hmiss : filter (isMissable (w_now w) playerId db) (taskLogs db) = []).
  { apply filter_all_false. intros l Hin. unfold isMissable, isOverdue.
    destruct ((tl_playerId l =? playerId)
              && TaskStatus_eqb (tl_status l) pending) eqn:Hsel; [|reflexivity].
    cbn [andb]. destruct (Task_findByPk (tl_taskId l) db) as [t|] eqn:Ht;
      [|reflexivity].
    pose proof (Hlate l Hin Hsel t Ht) as Hl. unfold HOUR_MS in Hl.
    apply Z.ltb_ge. lia. }
  assert (Hcheck : checkAndMarkMissedTasks (w_now w) playerId db = (Ok [], db)).
  { unfold checkAndMarkMissedTasks, bind at 1, gets at 1.
    fold (isMissable (w_now w) playerId db). rewrite Hmiss. reflexivity. }
  destruct (applyDailyDecay_no_change (w_now w) playerId db stats Hstats Hrange Hnd)
    as [decayed Hdecay].
  destruct (generateDailyTask_run w playerId db stats player Hstats Hplayer)
    as (type & description & difficulty & xpReward & Hrun & _).
  cbv zeta in Hrun.
  exists (mkTask (nextId (map task_id (tasks db))) type difficulty description
                 (weakestOf stats) xpReward (endOfDay (w_now w))).
  split; [|repeat split; reflexivity].
  rewrite processPlayerDailyFlow_is_its_steps.
  unfold dailyFlowSteps, bind at 1, gets at 1. rewrite Hnear.
  cbn [forEach]. unfold bind at 1, ret at 1.
  unfold bind at 1. rewrite Hdecay.
  unfold bind at 1. rewrite Hcheck.
  cbn [List.length Z.of_nat Z.ltb Z.compare].
  unfold bind at 1, ret at 1.
  unfold bind at 1. rewrite Hrun. reflexivity.
Qed.

Lemma processPlayerDailyFlow_quiet_day_witness :
  let db := mkDB [mkPlayer 1 RankE 1 0] [mkStats 1 1 30 50 50 50 50 50] [] [] [] [] in
  let w := mkWorld 1700000000000 (fun _ => ApiFailure)
                   (fun _ => Throw OpenAICallFailed)
                   (fun _ => Throw OpenAICallFailed) 0%Q 0%Q in
  exists task,
    fst (processPlayerDailyFlow w 1 db) = Ok tt
    /\ tasks (snd (processPlayerDailyFlow w 1 db)) = [task]
    /\ task_targetStat task = physical
    /\ statsTable (snd (processPlayerDailyFlow w 1 db)) = statsTable db.
Proof.
  intros db w.
  destruct (processPlayerDailyFlow_quiet_day w 1 db
              (mkStats 1 1 30 50 50 50 50 50) (mkPlayer 1 RankE 1 0))
    as (task & Hrun & _ & Htarget & _); try reflexivity.
  - intros stat. destruct stat; cbn; lia.
  - cbn. repeat constructor. intros [].
  - intros l t [].
  - exists task. rewrite Hrun. repeat split; [exact Htarget].
Defined.

(* ------------------------------------------------------------------ *)
(** ** What the services keep *)

Section Preservation.

Context (I : DB -> Prop).

Lemma preserves_ret {A} (a : A) : preserves I (ret a).
Proof. intros db H. exact H. Qed.

Lemma preserves_throw {A} (e : Error) : preserves I (@throw A e).
Proof. intros db H. exact H. Qed.

Lemma preserves_gets {A} (f : DB -> A) : preserves I (gets f).
Proof. intros db H. exact H. Qed.

Lemma preserves_liftResult {A} (r : Result A) : preserves I (liftResult r).
Proof. intros db H. exact H. Qed.

Lemma preserves_bind {A B} (m : M A) (k : A -> M B) :
  preserves I m -> (forall a, preserves I (k a)) -> preserves I (bind m k).
Proof.
  intros Hm Hk db H. unfold bind. specialize (Hm db H).
  destruct (m db) as [[a|e] db1]; cbn [snd] in *; [apply Hk|]; exact Hm.
Qed.

Lemma preserves_tryCatch {A} (m : M A) (handler : Error -> M A) :
  preserves I m -> (forall e, preserves I (handler e)) ->
  preserves I (tryCatch m handler).
Proof.
  intros Hm Hh db H. unfold tryCatch. specialize (Hm db H).
  destruct (m db) as [[a|e] db1]; cbn [snd] in *; [|apply Hh]; exact Hm.
Qed.

Lemma preserves_forEach {X} (xs : list X) (body : X -> M unit) :
  (forall x, preserves I (body x)) -> preserves I (forEach xs body).
Proof.
  intros Hbody. induction xs as [|x xs IH]; cbn [forEach].
  - apply preserves_ret.
  - apply preserves_bind; [apply Hbody | intros _; exact IH].
Qed.

Lemma throwsFrom_bind_first {A B} (m : M A) (k : A -> M B) :
  throwsFrom I m -> throwsFrom I (bind m k).
Proof.
  intros Hm db H. destruct (Hm db H) as (e & db' & Hrun).
  exists e, db'. unfold bind. rewrite Hrun. reflexivity.
Qed.

Lemma throwsFrom_bind_later {A B} (m : M A) (k : A -> M B) :
  preserves I m -> (forall a, throwsFrom I (k a)) -> throwsFrom I (bind m k).
Proof.
  intros Hm Hk db H. unfold bind. specialize (Hm db H).
  destruct (m db) as [[a|e] db1]; cbn [snd] in Hm.
  - exact (Hk a db1 Hm).
  - exists e, db1. reflexivity.
Qed.

End Preservation.

Ltac keep :=
  repeat match goal with
    | |- preserves _ (ret _) => apply preserves_ret
    | |- preserves _ (throw _) => apply preserves_throw
    | |- preserves _ (gets _) => apply preserves_gets
    | |- preserves _ (liftResult _) => apply preserves_liftResult
    | |- preserves _ (bind _ _) =>
        apply preserves_bind; [|intros ?; cbv beta zeta]
    | |- preserves _ (tryCatch _ _) =>
        apply preserves_tryCatch; [|intros ?; cbv beta zeta]
    | |- preserves _ (forEach _ _) =>
        apply preserves_forEach; intros ?; cbv beta zeta
    | |- preserves _ (if ?c then _ else _) => destruct c
    | |- preserves _ (match ?x with _ => _ end) => destruct x
    | |- preserves _ _ => progress cbv beta zeta
    end.

Lemma find_map_replace_none {X} (P c : X -> bool) (s : X) (rows : list X) :
  find P rows = None -> P s = false ->
  find P (map (fun r => if c r then s else r) rows) = None.
Proof.
  intros Hnone Hs. induction rows as [|r rows IH]; [reflexivity|].
  cbn [find] in Hnone. destruct (P r) eqn:Hr; [discriminate|].
  cbn [map find]. destruct (c r); [rewrite Hs | rewrite Hr]; exact (IH Hnone).
Qed.

(** A service that leaves the stats table alone. *)
Lemma noStatsRow_same_table (playerId : Z) {A} (m : M A) :
  (forall db, statsTable (snd (m db)) = statsTable db) ->
  preserves (noStatsRow playerId) m.
Proof.
  intros Hsame db H. unfold noStatsRow, Stats_findOne in *.
  rewrite Hsame. exact H.
Qed.

Section StatsRows.

Context (playerId : Z).

Lemma applyStatChange_keeps_noStatsRow (other : Z) (changes : StatChanges) :
  preserves (noStatsRow playerId) (applyStatChange other changes).
Proof.
  intros db H. unfold applyStatChange, bind at 1, gets at 1.
  destruct (Stats_findOne other db) as [stats|] eqn:Hfound; [|exact H].
  unfold bind, Stats_update, modify, ret, set_statsTable. cbn [snd].
  unfold noStatsRow, Stats_findOne in *. cbn [statsTable].
  apply find_map_replace_none; [exact H|].
  cbn [updatedStats stats_playerId].
  pose proof (find_some _ _ Hfound) as [Hin Hother].
  destruct (Z.eqb_spec (stats_playerId stats) playerId) as [Heq|]; [|reflexivity].
  pose proof (find_none _ _ H stats Hin) as Habs. cbv beta in Habs.
  rewrite Heq, Z.eqb_refl in Habs. discriminate.
Qed.

Lemma addXp_keeps_noStatsRow (other xpAmount : Z) :
  preserves (noStatsRow playerId) (addXp other xpAmount).
Proof.
  unfold addXp, recalculateLevelAndRank.
  keep; apply noStatsRow_same_table; reflexivity.
Qed.

Lemma applyDailyDecay_keeps_noStatsRow (now other : Z) :
  preserves (noStatsRow playerId) (applyDailyDecay now other).
Proof.
  unfold applyDailyDecay. keep. apply applyStatChange_keeps_noStatsRow.
Qed.

Lemma resolveTask_keeps_noStatsRow (taskLog : TaskLog)
    (resolution : TaskResolution) (narrative : option string) :
  preserves (noStatsRow playerId) (resolveTask taskLog resolution narrative).
Proof.
  unfold resolveTask.
  keep;
    first [ apply applyStatChange_keeps_noStatsRow
          | apply addXp_keeps_noStatsRow
          | apply noStatsRow_same_table; reflexivity ].
Qed.

Lemma judgeAndResolveTask_keeps_noStatsRow (w : World) (taskLogId : Z) :
  preserves (noStatsRow playerId) (judgeAndResolveTask w taskLogId).
Proof.
  unfold judgeAndResolveTask. keep. apply resolveTask_keeps_noStatsRow.
Qed.

Lemma checkAndMarkMissedTasks_keeps_noStatsRow (now other : Z) :
  preserves (noStatsRow playerId) (checkAndMarkMissedTasks now other).
Proof.
  unfold checkAndMarkMissedTasks. keep.
  apply noStatsRow_same_table; reflexivity.
Qed.

Lemma applyPenalty_keeps_noStatsRow (now other psi : Z) :
  preserves (noStatsRow playerId) (applyPenalty now other psi).
Proof.
  unfold applyPenalty.
  keep;
    first [ apply applyStatChange_keeps_noStatsRow
          | apply addXp_keeps_noStatsRow
          | apply noStatsRow_same_table; reflexivity ].
Qed.

Lemma applyMissPenalty_keeps_noStatsRow (now other : Z) :
  preserves (noStatsRow playerId) (applyMissPenalty now other).
Proof.
  unfold applyMissPenalty. keep. apply applyPenalty_keeps_noStatsRow.
Qed.

Lemma generateDailyTask_keeps_noStatsRow (w : World) (other : Z) :
  preserves (noStatsRow playerId) (generateDailyTask w other).
Proof.
  unfold generateDailyTask, getWeakestStat.
  keep; apply noStatsRow_same_table; reflexivity.
Qed.

Lemma generateDailyTask_needs_stats (w : World) :
  throwsFrom (noStatsRow playerId) (generateDailyTask w playerId).
Proof.
  intros db H. unfold generateDailyTask, getWeakestStat.
  unfold bind at 1. unfold bind at 1. unfold gets at 1.
  unfold noStatsRow in H. rewrite H.
  eexists. eexists. reflexivity.
Qed.

Lemma processPlayerDailyFlow_keeps_noStatsRow (w : World) (other : Z) :
  preserves (noStatsRow playerId) (processPlayerDailyFlow w other).
Proof.
  intros db H. rewrite processPlayerDailyFlow_is_its_steps.
  revert db H. change (preserves (noStatsRow playerId)
                         (dailyFlowSteps w (mkTransaction []) other)).
  unfold dailyFlowSteps.
  keep;
    first [ apply judgeAndResolveTask_keeps_noStatsRow
          | apply applyDailyDecay_keeps_noStatsRow
          | apply checkAndMarkMissedTasks_keeps_noStatsRow
          | apply applyMissPenalty_keeps_noStatsRow
          | apply generateDailyTask_keeps_noStatsRow
          | apply noStatsRow_same_table; reflexivity ].
Qed.

Lemma processPlayerDailyFlow_needs_stats (w : World) :
  throwsFrom (noStatsRow playerId) (processPlayerDailyFlow w playerId).
Proof.
  intros db H. rewrite processPlayerDailyFlow_is_its_steps.
  revert db H. change (throwsFrom (noStatsRow playerId)
                         (dailyFlowSteps w (mkTransaction []) playerId)).
  unfold dailyFlowSteps.
  apply throwsFrom_bind_later; [apply preserves_gets | intros near].
  apply throwsFrom_bind_later.
  { apply preserves_forEach. intros taskLog.
    keep. apply judgeAndResolveTask_keeps_noStatsRow. }
  intros _.
  apply throwsFrom_bind_later; [apply applyDailyDecay_keeps_noStatsRow | intros _].
  apply throwsFrom_bind_later;
    [apply checkAndMarkMissedTasks_keeps_noStatsRow | intros missedTasks].
  apply throwsFrom_bind_later.
  { keep. apply applyMissPenalty_keeps_noStatsRow. }
  intros _.
  apply throwsFrom_bind_first. apply generateDailyTask_needs_stats.
Qed.

End StatsRows.

Lemma filter_length_implied {X} (P Q : X -> bool) (rows : list X) :
  (forall x, P x = true -> Q x = true) ->
  (List.length (filter P rows) <= List.length (filter Q rows))%nat.
Proof.
  intros HPQ. induction rows as [|r rows IH]; [apply le_n|].
  cbn [filter]. destruct (P r) eqn:HP.
  - rewrite (HPQ r HP). cbn [List.length]. lia.
  - destruct (Q r); cbn [List.length]; lia.
Qed.

Lemma lacksStats_noStatsRow (db : DB) (p : Player) :
  lacksStats db p = true <-> noStatsRow (player_id p) db.
Proof.
  unfold lacksStats, noStatsRow.
  destruct (Stats_findOne (player_id p) db); split; intros H;
    try discriminate; reflexivity.
Qed.

(** One turn of the job's loop: the flow of one player under the loop's
    [try]/[catch]. *)
Lemma processPlayers_turn (w : World) (player : Player) (db : DB) :
  exists processed,
    tryCatch (processPlayerDailyFlow w (player_id player) ;;; ret true)
             (fun _ => ret false) db
    = (Ok processed, snd (processPlayerDailyFlow w (player_id player) db))
    /\ (lacksStats db player = true -> processed = false).
Proof.
  unfold tryCatch, bind, ret.
  destruct (processPlayerDailyFlow w (player_id player) db) as [[u|err] db1] eqn:Hflow.
  - exists true. split; [reflexivity|]. intros Hlacks.
    apply lacksStats_noStatsRow in Hlacks.
    destruct (processPlayerDailyFlow_needs_stats (player_id player) w db Hlacks)
      as (e & db' & Hthrow).
    rewrite Hthrow in Hflow. discriminate.
  - exists false. split; [reflexivity|]. intros _. reflexivity.
Qed.

Lemma processPlayers_errors (w : World) (ps : list Player) :
  forall successCount errorCount db,
  exists s e db',
    processPlayers w ps successCount errorCount db = (Ok (s, e), db')
    /\ s + e = successCount + errorCount + Z.of_nat (List.length ps)
    /\ successCount <= s
    /\ errorCount + Z.of_nat (List.length (filter (lacksStats db) ps)) <= e
    /\ (forall playerId, noStatsRow playerId db -> noStatsRow playerId db').
Proof.
  induction ps as [|player ps IH]; intros successCount errorCount db.
  - exists successCount, errorCount, db. cbn.
    split; [reflexivity|]. repeat split; try lia. intros playerId H; exact H.
  - destruct (processPlayers_turn w player db) as (processed & Hturn & Hlacks).
    set (db1 := snd (processPlayerDailyFlow w (player_id player) db)) in *.
    assert (Hkept : forall playerId, noStatsRow playerId db -> noStatsRow playerId db1).
    { intros playerId H.
      exact (processPlayerDailyFlow_keeps_noStatsRow playerId w (player_id player) db H). }
    assert (Hrest : (List.length (filter (lacksStats db) ps)
                     <= List.length (filter (lacksStats db1) ps))%nat).
    { apply filter_length_implied. intros p Hp.
      apply lacksStats_noStatsRow. apply Hkept.
      apply lacksStats_noStatsRow. exact Hp. }
    cbn [processPlayers]. unfold bind at 1. rewrite Hturn.
    cbn [filter List.length].
    destruct processed.
    + destruct (IH (successCount + 1) errorCount db1)
        as (s & e & db' & Hrun & Hsum & Hs & He & Hno).
      exists s, e, db'. split; [exact Hrun|].
      destruct (lacksStats db player) eqn:Hp;
        [specialize (Hlacks eq_refl); discriminate|].
      repeat split; try lia. intros playerId H. apply Hno, Hkept, H.
    + destruct (IH successCount (errorCount + 1) db1)
        as (s & e & db' & Hrun & Hsum & Hs & He & Hno).
      exists s, e, db'. split; [exact Hrun|].
      repeat split; try lia.
      * destruct (lacksStats db player); cbn [List.length]; lia.
      * intros playerId H. apply Hno, Hkept, H.
Qed.

(** X24. [runDailyDecayJob] always runs to the end: every player fetched at
    the start is counted once, as a success or as an error.  A player
    without a stats row is always counted as an error, since no step of any
    player's flow creates a stats row and the quest step needs one; such a
    player still has no stats row when the job is done. *)
Theorem runDailyDecayJob_counts_every_player (w : World) (db : DB) :
  exists successCount errorCount db',
    runDailyDecayJob w db = (Ok (successCount, errorCount), db')
    /\ successCount + errorCount = Z.of_nat (List.length (players db))
    /\ 0 <= successCount
    /\ Z.of_nat (List.length (filter (lacksStats db) (players db))) <= errorCount
    /\ (forall playerId,
          Stats_findOne playerId db = None -> Stats_findOne playerId db' = None).
Proof.
  destruct (processPlayers_errors w (players db) 0 0 db)
    as (s & e & db' & Hrun & Hsum & Hs & He & Hno).
  exists s, e, db'. unfold runDailyDecayJob, bind, gets.
  split; [exact Hrun|]. repeat split; try lia. exact Hno.
Qed.

(* ------------------------------------------------------------------ *)
(** ** The rank lock and the experience service *)

(** X25. A rank lock does not hold the rank back: [addXp] for a player
    under an active rank lock still moves the total and sets the rank of the
    threshold table for the new total, and the lock is as active afterwards
    as before. *)
Theorem addXp_ignores_rank_lock
    (now playerId xpAmount : Z) (db : DB) (player : Player) :
  isRankLocked now playerId db = true ->
  Player_findByPk playerId db = Some player ->
  xpAmount <> 0 ->
  exists player' db',
    addXp playerId xpAmount db = (Ok player', db')
    /\ player_totalXp player' = player_totalXp player + xpAmount
    /\ player_rank player' = rankOfTable (player_totalXp player + xpAmount)
    /\ Player_findByPk playerId db' = Some player'
    /\ isRankLocked now playerId db' = true.
Proof.
  intros Hlocked Hplayer Hnz.
  destruct (addXp_result db playerId xpAmount player Hplayer)
    as (player' & db' & Hrun & Hback & _ & Htotal & Hcalc & _ & _ & _ & _
        & Hpenalties & _).
  exists player', db'. split; [exact Hrun|]. split; [exact Htotal|].
  split.
  - destruct (Hcalc Hnz) as [_ Hrank].
    rewrite calculateRank_rankOfTable in Hrank.
    apply Ok_inj in Hrank. rewrite <- Hrank, Htotal. reflexivity.
  - split; [exact Hback|].
    unfold isRankLocked in *. rewrite Hpenalties. exact Hlocked.
Qed.

Lemma addXp_ignores_rank_lock_witness :
  let db := mkDB [mkPlayer 1 RankE 6 900] [] [] []
                 [mkPenalty 1 1 rank_lock 25 (Some 2000) 0] [] in
  isRankLocked 1000 1 db = true
  /\ exists player' db',
       addXp 1 200 db = (Ok player', db')
       /\ player_rank player' = RankD
       /\ isRankLocked 1000 1 db' = true.
Proof.
  intros db. split; [reflexivity|].
  destruct (addXp_ignores_rank_lock 1000 1 200 db (mkPlayer 1 RankE 6 900))
    as (player' & db' & Hrun & _ & Hrank & _ & Hlocked);
    [reflexivity | reflexivity | lia |].
  exists player', db'. split; [exact Hrun|]. split; [exact Hrank | exact Hlocked].
Defined.

(* ------------------------------------------------------------------ *)
(** ** Active tasks *)

Lemma Task_findByPk_In (db : DB) (t : Task) :
  NoDup (map task_id (tasks db)) -> In t (tasks db) ->
  Task_findByPk (task_id t) db = Some t.
Proof.
  intros Hnd Hin. unfold Task_findByPk.
  destruct (find (fun r => task_id r =? task_id t) (tasks db)) as [t'|] eqn:Hfind.
  - pose proof (find_some _ _ Hfind) as [Hin' Heq]. apply Z.eqb_eq in Heq.
    f_equal. exact (NoDup_map_eq task_id (tasks db) t' t Hnd Hin' Hin Heq).
  - pose proof (find_none _ _ Hfind t Hin) as Habs. cbv beta in Habs.
    rewrite Z.eqb_refl in Habs. discriminate.
Qed.

Lemma existsb_map_same {X} (P : X -> bool) (f : X -> X) (rows : list X) :
  (forall x, In x rows -> P (f x) = P x) ->
  existsb P (map f rows) = existsb P rows.
Proof.
  induction rows as [|r rows IH]; intros H; [reflexivity|].
  cbn [map existsb]. rewrite (H r (or_introl eq_refl)). f_equal.
  apply IH. intros; apply H; now right.
Qed.

(** X26. Marking a player's missed tasks takes no task off anybody's list
    of active tasks: with unique task and log ids, [getActiveTasks] returns
    the same list after [checkAndMarkMissedTasks] as before, and no log
    marked missed belongs to a task that is active at that moment. *)
Theorem checkAndMarkMissedTasks_keeps_active
    (now playerId viewer : Z) (db : DB) :
  NoDup (map tl_id (taskLogs db)) ->
  NoDup (map task_id (tasks db)) ->
  exists missedLogs db',
    checkAndMarkMissedTasks now playerId db = (Ok missedLogs, db')
    /\ getActiveTasks now viewer db' = getActiveTasks now viewer db
    /\ forall l t,
         In l missedLogs -> In t (getActiveTasks now viewer db) ->
         tl_taskId l <> task_id t.
Proof.
  intros Hlogs Htasks.
  assert (Hgone : forall l t,
            In t (tasks db) -> (now <? task_deadline t) = true ->
            isMissable now playerId db l = true ->
            tl_taskId l <> task_id t).
  { intros l t Hin Hahead Hmiss Heq.
    unfold isMissable, isOverdue in Hmiss.
    rewrite Heq, (Task_findByPk_In db t Htasks Hin) in Hmiss.
    apply andb_true_iff in Hmiss. destruct Hmiss as [_ Hover].
    apply Z.ltb_lt in Hover. apply Z.ltb_lt in Hahead. lia. }
  rewrite (checkAndMarkMissedTasks_run now playerId db Hlogs).
  eexists. eexists. split; [reflexivity|]. split.
  - unfold getActiveTasks. cbn [tasks taskLogs].
    apply filter_ext_in. intros t Hin.
    destruct (now <? task_deadline t) eqn:Hahead; [|reflexivity].
    cbn [andb]. apply existsb_map_same. intros l Hl.
    destruct (isMissable now playerId db l) eqn:Hmiss; [|reflexivity].
    cbn [markMissed tl_taskId tl_playerId tl_status].
    destruct (Z.eqb_spec (tl_taskId l) (task_id t)) as [Heq|]; [|reflexivity].
    elim (Hgone l t Hin Hahead Hmiss Heq).
  - intros l t Hl Ht. apply in_map_iff in Hl. destruct Hl as (l0 & <- & Hl0).
    apply filter_In in Hl0. destruct Hl0 as [_ Hmiss].
    unfold getActiveTasks in Ht. apply filter_In in Ht. destruct Ht as [Hin Hactive].
    apply andb_true_iff in Hactive. destruct Hactive as [Hahead _].
    cbn [markMissed tl_taskId]. exact (Hgone l0 t Hin Hahead Hmiss).
Qed.

Lemma checkAndMarkMissedTasks_keeps_active_witness :
  let now := 1700000000000 in
  let due := mkTask 2 daily easy "Do 50 push-ups or bodyweight exercises"
                    physical 25 (now + 1000) in
  let db := mkDB [] []
                 [mkTask 1 daily easy "Take a 45-minute walk or run" physical 25
                         (now - 1000); due]
                 [mkTaskLog 1 1 1 pending None None 0;
                  mkTaskLog 2 2 1 pending None None 0] [] [] in
  getActiveTasks now 1 db = [due]
  /\ exists missedLogs db',
       checkAndMarkMissedTasks now 1 db = (Ok missedLogs, db')
       /\ getActiveTasks now 1 db' = [due].
Proof.
  intros now due db. split; [reflexivity|].
  destruct (checkAndMarkMissedTasks_keeps_active now 1 1 db)
    as (missedLogs & db' & Hrun & Hsame & _).
  - cbn. repeat constructor; cbn; intuition lia.
  - cbn. repeat constructor; cbn; intuition lia.
  - exists missedLogs, db'. split; [exact Hrun|]. rewrite Hsame. reflexivity.
Defined.

(* ------------------------------------------------------------------ *)
(** ** Task statistics *)

Lemma countStatus_partition (logs : list TaskLog) :
  Z.of_nat (List.length logs)
  = countStatus completed logs + countStatus failed logs
    + countStatus missed logs + countStatus pending logs.
Proof.
  unfold countStatus. induction logs as [|l logs IH]; [reflexivity|].
  cbn [filter List.length]. destruct (tl_status l); cbn [TaskStatus_eqb List.length]; lia.
Qed.

Lemma countStatus_nonneg (status : TaskStatus) (logs : list TaskLog) :
  0 <= countStatus status logs.
Proof. unfold countStatus. lia. Qed.

Lemma filter_andb {X} (P R : X -> bool) (rows : list X) :
  filter (fun x => P x && R x) rows = filter R (filter P rows).
Proof.
  induction rows as [|r rows IH]; [reflexivity|].
  cbn [filter]. destruct (P r); cbn [andb filter]; [destruct (R r)|];
    rewrite IH; reflexivity.
Qed.

Lemma filter_filter_length {X} (P R : X -> bool) (rows : list X) :
  (List.length (filter P (filter R rows)) <= List.length (filter P rows))%nat.
Proof.
  induction rows as [|r rows IH]; [apply le_n|].
  cbn [filter]. destruct (R r); cbn [filter]; destruct (P r);
    cbn [List.length]; lia.
Qed.

Lemma countStatus_filter (status : TaskStatus) (R : TaskLog -> bool)
    (logs : list TaskLog) :
  countStatus status (filter R logs) <= countStatus status logs.
Proof.
  unfold countStatus. apply inj_le. apply filter_filter_length.
Qed.

(** [total > 0 ? (completed / total) * 100 : 0] for a count out of a total. *)
Lemma successRate_bounds (completedTasks totalTasks : Z) :
  0 <= completedTasks <= totalTasks ->
  let successRate :=
    (if 0 <? totalTasks
     then ofZ completedTasks / ofZ totalTasks * 100 else 0)%Q in
  (0 <= successRate)%Q /\ (successRate <= 100)%Q
  /\ ((successRate == 100)%Q <-> 0 < totalTasks /\ completedTasks = totalTasks)
  /\ ((successRate == 0)%Q <-> completedTasks = 0).
Proof.
  intros H. destruct totalTasks as [|t|t]; cbn [Z.ltb Z.compare]; try lia.
  - cbv zeta. assert (completedTasks = 0) by lia. subst.
    repeat split; try (unfold Qle, Qeq; cbn; lia); intros; try lia.
    + unfold Qeq in *; cbn in *; lia.
  - cbv zeta. unfold ofZ, Qdiv, Qinv, Qmult, Qle, Qeq, inject_Z.
    cbn [Qnum Qden Z.mul Pos.mul Z.sgn].
    repeat split; try intros; try nia.
Qed.

Lemma counts_consistent (logs : list TaskLog) :
  let c :=
    mkTaskCounts (Z.of_nat (List.length logs)) (countStatus completed logs)
      (countStatus failed logs) (countStatus missed logs)
      (if 0 <? Z.of_nat (List.length logs)
       then ofZ (countStatus completed logs) / ofZ (Z.of_nat (List.length logs)) * 100
       else 0)%Q in
  0 <= tc_completed c /\ 0 <= tc_failed c /\ 0 <= tc_missed c
  /\ tc_completed c + tc_failed c + tc_missed c <= tc_total c
  /\ (0 <= tc_successRate c)%Q /\ (tc_successRate c <= 100)%Q
  /\ ((tc_successRate c == 100)%Q
      <-> 0 < tc_total c /\ tc_completed c = tc_total c)
  /\ ((tc_successRate c == 0)%Q <-> tc_completed c = 0).
Proof.
  intros c. subst c. cbn [tc_total tc_completed tc_failed tc_missed tc_successRate].
  pose proof (countStatus_partition logs) as Hsum.
  pose proof (countStatus_nonneg completed logs).
  pose proof (countStatus_nonneg failed logs).
  pose proof (countStatus_nonneg missed logs).
  pose proof (countStatus_nonneg pending logs).
  split; [assumption|]. split; [assumption|]. split; [assumption|].
  split; [lia|].
  apply (successRate_bounds (countStatus completed logs) (Z.of_nat (List.length logs))).
  lia.
Qed.

(** X27. The figures of [getPlayerTaskStats] fit together.  In both the
    overall and the recent block the counts are non-negative and add up to
    at most the total, the rest of the overall total being the player's
    pending logs; the success rate lies between 0 and 100, is 100 exactly
    when there is at least one log and all are completed, and is 0 exactly
    when none is completed.  No recent figure exceeds its overall figure. *)
Theorem getPlayerTaskStats_consistent (now playerId : Z) (db : DB) :
  let stats := getPlayerTaskStats now playerId db in
  let overall := pts_overall stats in
  let recent := pts_recent stats in
  (forall c, c = overall \/ c = recent ->
     0 <= tc_completed c /\ 0 <= tc_failed c /\ 0 <= tc_missed c
     /\ tc_completed c + tc_failed c + tc_missed c <= tc_total c
     /\ (0 <= tc_successRate c)%Q /\ (tc_successRate c <= 100)%Q
     /\ ((tc_successRate c == 100)%Q
         <-> 0 < tc_total c /\ tc_completed c = tc_total c)
     /\ ((tc_successRate c == 0)%Q <-> tc_completed c = 0))
  /\ tc_total overall
     = tc_completed overall + tc_failed overall + tc_missed overall
       + countStatus pending
           (filter (fun l => tl_playerId l =? playerId) (taskLogs db))
  /\ tc_total recent <= tc_total overall
  /\ tc_completed recent <= tc_completed overall
  /\ tc_failed recent <= tc_failed overall
  /\ tc_missed recent <= tc_missed overall.
Proof.
  intros stats overall recent.
  subst overall recent stats. unfold getPlayerTaskStats. cbv zeta.
  cbn [pts_overall pts_recent].
  set (cutoff := now - 21 * 24 * 60 * 60 * 1000).
  rewrite (filter_andb (fun l => tl_playerId l =? playerId)
             (fun l => cutoff <=? tl_createdAt l)).
  set (allTaskLogs := filter (fun l => tl_playerId l =? playerId) (taskLogs db)).
  split.
  - intros c [-> | ->]; apply counts_consistent.
  - cbn [tc_total tc_completed tc_failed tc_missed].
    split; [apply countStatus_partition|].
    split; [apply inj_le, filter_length_le|].
    repeat split; apply countStatus_filter.
Qed.
